(** * maestroflame/driver_pinn.py: the PINN training driver

    A shallow embedding of the driver script and the properties of its
    set-up arithmetic, differentiator, loss composer, epoch loop, run
    guard and persistence stage.

    Numbers.  Python floats and numpy float64 arrays are IEEE-754 binary64
    values, embedded as [spec_float] with the operations of the standard
    library's executable IEEE specification (infinities and NaN included).
    Tensor elements use the same format: no proof below depends on the two
    format constants.  The set-up arithmetic of lines 96 and 119, a true
    division of two Python ints followed by [int(...)], is embedded twice:
    in binary64, as the interpreter runs it ([Setup.nnuc_binary64],
    [Setup.Num_test_binary64]), and read over the rationals ([Setup.nnuc],
    [Setup.Num_test]). The two are proved equal for every tensor width
    below 2^53 and every product of a sample count and a percentage below
    2^52; beyond, the rounding of the quotient shows, and the properties
    that depend on it are stated on the binary64 computation.

    Libraries.  torch, numpy and the modules [networks], [losses],
    [reactdataset2] and [plotting] are not part of the script. The network,
    the loss functions, the optimizer and the plotting class are
    parameters; of torch, the operations the script calls are written out:
    indexing and slicing of two-dimensional tensors, [zeros_like],
    [ones_like], in-place zeroing, and reverse-mode differentiation, where
    [backward] adds the gradient reaching each leaf to its [.grad] and
    frees the graph unless told to retain it.

    Exceptions.  A Python exception ends the run: functions that can raise
    return a [Py.result]. *)

From Stdlib Require Import ZArith QArith Qround List Bool Lia Ascii String.
From Stdlib Require Import Floats.SpecFloat.
From stdpp Require Import base option list gmap strings sorting.

Import ListNotations.
Local Open Scope Z_scope.

(** ** Python numbers *)

Module Py.

(** [int(x)] on a real number: truncation toward zero. *)
Definition int (x : Q) : Z := Z.quot (Qnum x) (Zpos (Qden x)).

(** [a / b] on two ints (true division). *)
Definition truediv (a b : Z) : Q := Qdiv (inject_Z a) (inject_Z b).

(** binary64 *)
Definition prec : Z := 53.
Definition emax : Z := 1024.

Abbreviation float := spec_float.

Definition fzero : float := S754_zero false.
Definition fone : float := SFone prec emax.
Definition fadd : float -> float -> float := SFadd prec emax.
Definition fsub : float -> float -> float := SFsub prec emax.
Definition fdiv : float -> float -> float := SFdiv prec emax.

(** [float(n)] for an int [n]. *)
Definition of_int (n : Z) : float := binary_normalize prec emax n 0 false.

(** [int(x)] for a float [x]: truncation toward zero; Python raises on
    an infinity and on NaN. *)
Definition int_of_float (x : float) : option Z :=
  match x with
  | S754_zero _ => Some 0
  | S754_finite s m e =>
      let a := match e with
               | Zneg p => Z.quot (Zpos m) (2 ^ Zpos p)
               | _ => Zpos m * 2 ^ e
               end in
      Some (if s then - a else a)
  | S754_infinity _ | S754_nan => None
  end.

(** [math.isfinite] / [numpy.isfinite]. *)
Definition isfinite (x : float) : bool :=
  match x with
  | S754_zero _ | S754_finite _ _ _ => true
  | S754_infinity _ | S754_nan => false
  end.

(** What IEEE 754 division gives for [x / 0.0]: NaN for a zero and for
    NaN, and otherwise the infinity of the sign of [x]. *)
Definition over_zero (x : float) : float :=
  match x with
  | S754_zero _ | S754_nan => S754_nan
  | S754_infinity s | S754_finite s _ _ => S754_infinity s
  end.

(** The same number: equal, or both a zero (IEEE has two). *)
Definition same_number (x y : float) : Prop :=
  x = y \/ exists s s', x = S754_zero s /\ y = S754_zero s'.

(** Python exceptions the driver can run into. *)
Inductive exn : Type :=
| ZeroDivisionError
| NameError (var : string)
| IndexError
| AttributeError
| RuntimeError
| SystemExit.

Inductive result (A : Type) : Type :=
| Ok (a : A)
| Raise (e : exn).
Arguments Ok {A} a.
Arguments Raise {A} e.

Definition bind {A B : Type} (m : result A) (k : A -> result B) : result B :=
  match m with
  | Ok a => k a
  | Raise e => Raise e
  end.

(** [sum(xs)]: starts from the int 0 and adds from the left. *)
Definition sum (xs : list float) : float := fold_left fadd xs (of_int 0).

(** [x / n] for a float [x] and an int [n]: Python raises on [n = 0]. *)
Definition div_int (x : float) (n : Z) : result float :=
  if n =? 0 then Raise ZeroDivisionError else Ok (fdiv x (of_int n)).

(** [sum(xs) / len(xs)] *)
Definition mean (xs : list float) : result float :=
  div_int (sum xs) (Z.of_nat (length xs)).

End Py.

#[global] Instance result_ret : MRet Py.result := @Py.Ok.
#[global] Instance result_bind : MBind Py.result :=
  fun A B k m => Py.bind m k.

(** ** numpy float64 arrays (one dimension) *)

Module Np.

Abbreviation array := (list Py.float).

(** [a + b], element by element. The driver only adds arrays that hold
    one entry per output channel. *)
Definition add (a b : array) : array := zip_with Py.fadd a b.

(** [a / n] for an int [n]: numpy converts [n] to float64 and divides
    every element; a zero divisor gives inf or nan, not an exception. *)
Definition div_int (a : array) (n : Z) : array :=
  map (fun x => Py.fdiv x (Py.of_int n)) a.

(** [m.sum(axis=0)] for the rows [m] of a two-dimensional array. *)
Definition sum_axis0 (m : list array) : array :=
  match m with
  | [] => []
  | r :: rs => fold_left add rs r
  end.

End Np.

(** ** Set-up arithmetic (lines 96 and 116-120) *)

Module Setup.

(** [nnuc = int(react_data.output_data.shape[1]/2 - 1)], read over the
    rationals: what the line returns for every width below 2^53
    ([nnuc_binary64] below is the line as the interpreter runs it). *)
Definition nnuc (output_width : Z) : Z :=
  Py.int (Py.truediv output_width 2 - 1)%Q.

Definition percent_test : Z := 10.

(** [Num_test = int(N*percent_test/100)], read over the rationals: what
    the line returns for every product [N*percent] below 2^52. *)
Definition Num_test (N percent : Z) : Z :=
  Py.int (Py.truediv (N * percent) 100).

(** [Num_train = N-Num_test] *)
Definition Num_train (N percent : Z) : Z := N - Num_test N percent.

(** The same computations as the interpreter runs them, in binary64: the
    quotient of two ints is a float, [- 1] subtracts the float 1.0, and
    [int()] truncates (it raises on an infinity and on NaN). An int that
    binary64 holds exactly, as every int below 2^53, is converted without
    rounding, so the quotient is rounded once, as in Python. The
    definitions above are these computations read over the rationals:
    the two agree on every width below 2^53 and on every product
    [N*percent] below 2^52, and differ beyond. *)
Definition nnuc_binary64 (output_width : Z) : option Z :=
  Py.int_of_float
    (Py.fsub (Py.fdiv (Py.of_int output_width) (Py.of_int 2)) (Py.of_int 1)).

Definition Num_test_binary64 (N percent : Z) : option Z :=
  Py.int_of_float (Py.fdiv (Py.of_int (N * percent)) (Py.of_int 100)).

Definition Num_train_binary64 (N percent : Z) : option Z :=
  option_map (fun Num_test => N - Num_test) (Num_test_binary64 N percent).

End Setup.

(** ** Tensors and reverse-mode differentiation (torch) *)

Module Torch.

(** A one-dimensional tensor, and a two-dimensional one as its list of
    rows: a batch is one row per sample, one column per channel. *)
Abbreviation vector := (list Py.float).
Abbreviation tensor := (list (list Py.float)).

(** [torch.zeros_like(t)], also the contents after [t.zero_()]. *)
Definition zeros_like (t : tensor) : tensor :=
  map (map (fun _ => Py.fzero)) t.

(** [torch.ones_like(v)] *)
Definition ones_like (v : vector) : vector := map (fun _ => Py.fone) v.

(** [a += b] *)
Definition add (a b : tensor) : tensor := zip_with (zip_with Py.fadd) a b.

(** [t[:, n]]: raises when a row has no column [n]. *)
Definition select (n : nat) (t : tensor) : Py.result vector :=
  match mapM (fun row : list Py.float => row !! n) t with
  | Some v => Py.Ok v
  | None => Py.Raise Py.IndexError
  end.

(** [t[:, n] = v]: raises when [t] has no column [n] or [v] does not
    have one entry per row. *)
Definition set_col (n : nat) (v : vector) (t : tensor) : Py.result tensor :=
  if negb (length v =? length t)%nat then Py.Raise Py.RuntimeError
  else if forallb (fun row : list Py.float => n <? length row)%nat t
       then Py.Ok (zip_with (fun (row : list Py.float) x => <[n := x]> row) t v)
       else Py.Raise Py.IndexError.

(** The length of every row. *)
Definition shape (t : tensor) : list nat := map length t.

(** [t[b, n]], when it exists. *)
Definition at_ (t : tensor) (b n : nat) : option Py.float :=
  t !! b ≫= fun row : list Py.float => row !! n.

(** [t[:, :k]] and [t[:, k:]] *)
Definition cols_to (k : nat) (t : tensor) : tensor := map (take k) t.
Definition cols_from (k : nat) (t : tensor) : tensor := map (drop k) t.

(** The leaf tensors of a training batch that require gradients: the
    input batch, the model parameters, and the derivative batch once
    [dXdt.requires_grad = True] has run. *)
Inductive leaf : Type :=
| LData
| LParam (i : nat)
| LdXdt.

Definition leaf_code (l : leaf) : nat :=
  match l with
  | LData => 0
  | LdXdt => 1
  | LParam i => S (S i)
  end.

Definition leaf_of_code (c : nat) : leaf :=
  match c with
  | O => LData
  | S O => LdXdt
  | S (S i) => LParam i
  end.

Definition is_param (l : leaf) : bool :=
  match l with
  | LParam _ => true
  | _ => false
  end.

(** A tensor as autograd sees it: its value and its [grad_fn], which
    turns the gradient arriving at this tensor into the gradients that
    reach the leaves. A tensor outside every graph has no contributions. *)
Record var (A : Type) : Type := Var {
  val : A;
  grad_fn : A -> list (leaf * tensor)
}.
Arguments Var {A} val grad_fn.
Arguments val {A} v.
Arguments grad_fn {A} v g.

(** A tensor with [requires_grad = False] and no history. *)
Definition const {A : Type} (a : A) : var A := Var a (fun _ => []).

(** A leaf tensor with [requires_grad = True]. *)
Definition leaf_var (l : leaf) (t : tensor) : var tensor :=
  Var t (fun g => [(l, g)]).

(** A differentiable function of two tensors with a scalar result, and
    one of a single tensor: the value and the vector-Jacobian product. *)
Record diff2 : Type := Diff2 {
  fn2 : tensor -> tensor -> Py.float;
  vjp2 : tensor -> tensor -> Py.float -> tensor * tensor
}.

Record diff1 : Type := Diff1 {
  fn1 : tensor -> Py.float;
  vjp1 : tensor -> Py.float -> tensor
}.

Definition apply2 (f : diff2) (a b : var tensor) : var Py.float :=
  Var (fn2 f (val a) (val b))
      (fun g => let '(ga, gb) := vjp2 f (val a) (val b) g in
                grad_fn a ga ++ grad_fn b gb).

Definition apply1 (f : diff1) (a : var tensor) : var Py.float :=
  Var (fn1 f (val a)) (fun g => grad_fn a (vjp1 f (val a) g)).

(** [a + b] on scalar tensors: the gradient goes to both unchanged. *)
Definition add_var (a b : var Py.float) : var Py.float :=
  Var (Py.fadd (val a) (val b)) (fun g => grad_fn a g ++ grad_fn b g).

(** Backward of [t[:, n]]: zeros in the shape of [t] with column [n]
    holding the incoming gradient. *)
Definition select_backward (n : nat) (t : tensor) (g : vector) : tensor :=
  zip_with (fun (row : list Py.float) x => <[n := x]> (map (fun _ => Py.fzero) row)) t g.

Definition select_var (n : nat) (t : var tensor) : Py.result (var vector) :=
  match select n (val t) with
  | Py.Ok v => Py.Ok (Var v (fun g => grad_fn t (select_backward n (val t) g)))
  | Py.Raise e => Py.Raise e
  end.

(** [a.item()] *)
Definition item (a : var Py.float) : Py.float := val a.

(** The network: the parameters are a list of tensors; [net_vjp] is the
    backward pass of [forward], from the gradient of the output to the
    gradient of the input and of every parameter. *)
Record Network : Type := {
  forward : list tensor -> tensor -> tensor;
  net_vjp : list tensor -> tensor -> tensor -> tensor * list tensor
}.

(** [model(data)] *)
Definition call (net : Network) (theta : list tensor) (data : var tensor)
  : var tensor :=
  Var (forward net theta (val data))
      (fun g => let '(gx, gtheta) := net_vjp net theta (val data) g in
                grad_fn data gx ++ imap (fun i gi => (LParam i, gi)) gtheta).

(** The gradient of the input of the identity on the first [K] channels:
    the output gradient on those channels, zero on the others. *)
Definition pad_like (K : nat) (xrow grow : list Py.float) : list Py.float :=
  imap (fun j _ => if (j <? K)%nat then default Py.fzero (grow !! j)
                   else Py.fzero) xrow.

(** A network that, with parameters [theta], is the identity on the first
    [K] input channels. *)
Definition identity_on (K : nat) (net : Network) (theta : list tensor) : Prop :=
  forall x, forward net theta x = map (take K) x
            /\ forall g, (net_vjp net theta x g).1 = zip_with (pad_like K) x g.

(** The gradient of prediction channel [n], seeded with ones over the
    batch, with respect to the input batch. *)
Definition channel_gradient (net : Network) (theta : list tensor)
    (data : tensor) (n : nat) : Py.result tensor :=
  match select n (forward net theta data) with
  | Py.Ok column =>
      Py.Ok (net_vjp net theta data
               (select_backward n (forward net theta data) (ones_like column))).1
  | Py.Raise e => Py.Raise e
  end.

(** The shapes the script relies on: the prediction has one row per
    sample and the channels [0..nnuc]; the input has a first channel; the
    gradient autograd leaves on the input has the input's shape. *)
Definition well_shaped (nnuc : nat) (net : Network) (theta : list tensor)
    (data : tensor) : Prop :=
  length (forward net theta data) = length data
  /\ Forall (fun row : list Py.float => (nnuc < length row)%nat)
            (forward net theta data)
  /\ Forall (fun row : list Py.float => (0 < length row)%nat) data
  /\ forall g, shape g = shape (forward net theta data) ->
               shape (net_vjp net theta data g).1 = shape data.

End Torch.

#[global] Instance leaf_eq_dec : EqDecision Torch.leaf.
Proof. solve_decision. Defined.

#[global] Instance leaf_countable : Countable Torch.leaf :=
  inj_countable' Torch.leaf_code Torch.leaf_of_code
    (fun l => match l with
              | Torch.LData => eq_refl
              | Torch.LParam _ => eq_refl
              | Torch.LdXdt => eq_refl
              end).

(** The [.grad] fields of the leaves, and whether the graph of the current
    forward pass has been freed by a backward pass that did not retain it. *)
Record autograd : Type := Autograd {
  grads : gmap Torch.leaf Torch.tensor;
  freed : bool
}.

Module Engine.
Import Torch.

(** Accumulation into a leaf: the first gradient is stored, later ones
    are added to what is there. *)
Definition accumulate (gs : gmap leaf tensor) (c : leaf * tensor)
  : gmap leaf tensor :=
  match gs !! c.1 with
  | None => <[c.1 := c.2]> gs
  | Some old => <[c.1 := add old c.2]> gs
  end.

(** [v.backward(seed, retain_graph=...)] *)
Definition backward {A : Type} (v : var A) (seed : A) (retain_graph : bool)
    (s : autograd) : Py.result autograd :=
  if freed s then Py.Raise Py.RuntimeError
  else Py.Ok (Autograd (foldl accumulate (grads s) (grad_fn v seed))
                       (negb retain_graph)).

(** [l.grad.data.zero_()], for a leaf whose gradient exists. *)
Definition zero_ (l : leaf) (s : autograd) : autograd :=
  Autograd (alter zeros_like l (grads s)) (freed s).

(** [optimizer.zero_grad()]: every parameter gradient that exists is
    zeroed in place. *)
Definition zero_grad (s : autograd) : autograd :=
  Autograd (map_imap (fun l g => Some (if is_param l then zeros_like g else g))
                     (grads s))
           (freed s).

(** The state a fresh forward pass starts from: the batch is a new
    tensor without gradient, the derivative batch does not exist yet,
    the parameters keep what they have, and the graph is new. *)
Definition new_batch (s : autograd) : autograd :=
  Autograd (delete LdXdt (delete LData (grads s))) false.

End Engine.

(** ** The driver's configuration flags (lines 29-32)

    The script sets the three of them to [True]. Its fourth flag,
    [DO_HYPER_OPTIMIZATION], is [False]: the hyper-parameter search of
    lines 140-180 never runs and is not embedded. *)

Record config : Type := Config {
  DEBUG_MODE : bool;
  DO_PLOTTING : bool;
  SAVE_MODEL : bool
}.

Definition driver_config : config := Config true true true.

(** [num_epochs] (lines 134-137) *)
Definition num_epochs (cfg : config) : nat :=
  if DEBUG_MODE cfg then 3%nat else 100%nat.

(** The functions imported from the [losses] module, which the driver only
    calls. The component losses return one entry per channel, which the
    driver turns into a numpy array with [np.array(loss_c.tolist())]. *)
Record Losses : Type := {
  log_loss : Torch.diff2;
  signed_loss_function : Torch.diff2;
  relative_loss : Torch.diff2;
  loss_mass_fraction : Torch.diff1;
  component_loss_f : Torch.tensor -> Torch.tensor -> Np.array;
  component_loss_f_L1 : Torch.tensor -> Torch.tensor -> Np.array
}.

(** The optimizer: [step] reads the parameters and their [.grad] fields
    and returns its new state and the updated parameters. *)
Record Optimizer : Type := {
  opt_state : Type;
  step : opt_state -> list Torch.tensor -> list (option Torch.tensor)
         -> opt_state * list Torch.tensor
}.

(** What the script prints (and tees to the log file). *)
Inductive line : Type :=
| Text (s : string)
| CostAtEpoch (epoch : nat) (cost : Py.float).

(** Python's [for x in xs: body], threading the interpreter state. *)
Fixpoint for_each {A S : Type} (body : A -> S -> Py.result S) (xs : list A)
    (s : S) : Py.result S :=
  match xs with
  | [] => Py.Ok s
  | x :: rest =>
      match body x s with
      | Py.Ok s' => for_each body rest s'
      | Py.Raise e => Py.Raise e
      end
  end.

(** What [observe] sees in the state each iteration starts from, up to
    the first iteration that raises. *)
Fixpoint replay {A S B : Type} (body : A -> S -> Py.result S)
    (observe : S -> A -> B) (xs : list A) (s : S) : list B :=
  match xs with
  | [] => []
  | x :: rest =>
      observe s x :: match body x s with
                     | Py.Ok s' => replay body observe rest s'
                     | Py.Raise _ => []
                     end
  end.

(** [enumerate(xs)] *)
Definition enumerate {A : Type} (xs : list A) : list (nat * A) :=
  imap (fun i x => (i, x)) xs.

(** A variable that may not have been assigned yet. *)
Definition read {A : Type} (name : string) (v : option A) : Py.result A :=
  match v with
  | Some a => Py.Ok a
  | None => Py.Raise (Py.NameError name)
  end.

(** A batch as a loader yields it: the inputs and the targets. *)
Abbreviation batch := (Torch.tensor * Torch.tensor)%type.

Section Training.
Import Torch Engine.

Variable cfg : config.
Variable nnuc : nat.
Variable model : Network.
(** [nn.L1Loss()] and [nn.MSELoss()] *)
Variables L1Loss MSELoss : diff2.
Variable losses_module : Losses.
Variable optimizer : Optimizer.

(** *** The differentiator (lines 266-274) *)

Definition differentiator_channel (prediction : var tensor) (n : nat)
    (acc : tensor * autograd) : Py.result (tensor * autograd) :=
  let '(dXdt, s) := acc in
  (* if data.grad is not None: data.grad.data.zero_() *)
  let s := match grads s !! LData with
           | Some _ => zero_ LData s
           | None => s
           end in
  (* prediction[:, n].backward(torch.ones_like(prediction[:,n]), retain_graph=True) *)
  column ← select_var n prediction;
  s ← backward column (ones_like (val column)) true s;
  (* dXdt[:, n] = data.grad.clone()[:, 0] *)
  g ← match grads s !! LData with
      | Some g => Py.Ok g
      | None => Py.Raise Py.AttributeError
      end;
  g0 ← select 0 g;
  dXdt ← set_col n g0 dXdt;
  (* data.grad.data.zero_() *)
  Py.Ok (dXdt, zero_ LData s).

Definition differentiator (prediction : var tensor) (s : autograd)
  : Py.result (tensor * autograd) :=
  for_each (differentiator_channel prediction) (seq 0 (nnuc + 1))
           (zeros_like (val prediction), s).

(** *** The losses (lines 199-237) *)

Definition criterion_plotting (prediction : var tensor) (targets : tensor)
  : var Py.float :=
  let L := MSELoss in
  apply2 L prediction (const (cols_to (nnuc + 1) targets)).

Definition criterion (data pred dXdt : var tensor) (actual : tensor)
  : var Py.float * list Py.float :=
  let loss1 := apply2 (log_loss losses_module) pred
                      (const (cols_to (nnuc + 1) actual)) in
  let L := L1Loss in
  let loss2 := apply2 L dXdt (const (cols_from (nnuc + 1) actual)) in
  let loss3 := apply2 (signed_loss_function losses_module) dXdt
                      (const (cols_from (nnuc + 1) actual)) in
  let loss4 := apply2 (relative_loss losses_module) pred
                      (const (cols_to (nnuc + 1) actual)) in
  let loss5 := apply1 (loss_mass_fraction losses_module) pred in
  let loss_arr := [item loss1; item loss2; item loss3; item loss5] in
  (add_var (add_var (add_var loss1 loss2) loss3) loss5, loss_arr).

(** *** The interpreter state of the training loop *)

(** The per-epoch lists (lines 251-253). *)
Record epoch_lists : Type := EpochLists {
  losses : list Py.float;
  plotting_losses : list Py.float;
  diff_losses : list Np.array
}.

(** The loop variables that outlive the loop that binds them. *)
Record loop_vars : Type := LoopVars {
  batch_idx : option nat;
  component_loss : option Np.array;
  d_component_loss : option Np.array
}.

(** The plot storage (lines 241-247). *)
Record histories : Type := Histories {
  cost_per_epoc : list Py.float;
  component_losses_test : list Np.array;
  component_losses_train : list Np.array;
  d_component_losses_test : list Np.array;
  d_component_losses_train : list Np.array;
  cost_per_epoc_test : list Py.float;
  different_loss_metrics : list Np.array
}.

Record state : Type := State {
  theta : list tensor;
  opt : opt_state optimizer;
  ag : autograd;
  lists : epoch_lists;
  vars : loop_vars;
  hist : histories;
  stdout : list line
}.

(** Lines 301-307 and 352-357. *)
Definition accumulate_components (i : nat) (loss_c dloss_c : Np.array)
    (v : loop_vars) : Py.result loop_vars :=
  if (i =? 0)%nat then
    Py.Ok (LoopVars (Some i) (Some loss_c) (Some dloss_c))
  else
    c ← read "component_loss" (component_loss v);
    d ← read "d_component_loss" (d_component_loss v);
    Py.Ok (LoopVars (Some i) (Some (Np.add c loss_c)) (Some (Np.add d dloss_c))).

(** The gradients [optimizer.step()] reads, one per parameter. *)
Definition param_grads (th : list tensor) (s : autograd)
  : list (option tensor) :=
  imap (fun i _ => grads s !! LParam i) th.

(** One iteration of the training loop (lines 255-307). *)
Definition train_batch (ib : nat * batch) (st : state) : Py.result state :=
  let '(i, (data_t, targets)) := ib in
  let data := leaf_var LData data_t in
  (* forward *)
  let prediction := call model (theta st) data in
  (* calculate derivatives *)
  '(dXdt_t, s) ← differentiator prediction (new_batch (ag st));
  let dXdt := leaf_var LdXdt dXdt_t in
  let '(loss, array_loss) := criterion data prediction dXdt targets in
  let losses' := losses (lists st) ++ [item loss] in
  let diff_losses' := diff_losses (lists st) ++ [array_loss] in
  (* backward *)
  let s := zero_grad s in
  s ← backward loss Py.fone false s;
  (* gradient descent or adam step *)
  let '(opt', theta') := step optimizer (opt st) (theta st)
                              (param_grads (theta st) s) in
  (* plotting terms *)
  let loss_plot := criterion_plotting prediction targets in
  let plotting_losses' := plotting_losses (lists st) ++ [item loss_plot] in
  let loss_c := component_loss_f losses_module (val prediction)
                                 (cols_to (nnuc + 1) targets) in
  let dloss_c := component_loss_f_L1 losses_module dXdt_t
                                     (cols_from (nnuc + 1) targets) in
  v ← accumulate_components i loss_c dloss_c (vars st);
  Py.Ok (State theta' opt' s
               (EpochLists losses' plotting_losses' diff_losses')
               v (hist st) (stdout st)).

(** One iteration of the test loop (lines 324-357). *)
Definition test_batch (ib : nat * batch) (st : state) : Py.result state :=
  let '(i, (data_t, targets)) := ib in
  let data := leaf_var LData data_t in
  let prediction := call model (theta st) data in
  let loss := criterion_plotting prediction targets in
  let losses' := losses (lists st) ++ [item loss] in
  '(dXdt_t, s) ← differentiator prediction (new_batch (ag st));
  let loss_c := component_loss_f losses_module (val prediction)
                                 (cols_to (nnuc + 1) targets) in
  let dloss_c := component_loss_f_L1 losses_module dXdt_t
                                     (cols_from (nnuc + 1) targets) in
  v ← accumulate_components i loss_c dloss_c (vars st);
  Py.Ok (State (theta st) (opt st) s
               (EpochLists losses' (plotting_losses (lists st))
                           (diff_losses (lists st)))
               v (hist st) (stdout st)).

(** Lines 310-319: the bookkeeping after the training batches. *)
Definition after_training (epoch : nat) (st : state) : Py.result state :=
  let l := lists st in
  let h := hist st in
  cost ← Py.mean (losses l);
  let out := stdout st ++ [CostAtEpoch epoch cost] in
  plot_cost ← Py.mean (plotting_losses l);
  c ← read "component_loss" (component_loss (vars st));
  i ← read "batch_idx" (batch_idx (vars st));
  d ← read "d_component_loss" (d_component_loss (vars st));
  let metrics := Np.div_int (Np.sum_axis0 (diff_losses l))
                            (Z.of_nat (length (losses l))) in
  Py.Ok (State (theta st) (opt st) (ag st) l (vars st)
               (Histories (cost_per_epoc h ++ [plot_cost])
                          (component_losses_test h)
                          (component_losses_train h ++ [Np.div_int c (Z.of_nat i)])
                          (d_component_losses_test h)
                          (d_component_losses_train h ++ [Np.div_int d (Z.of_nat i)])
                          (cost_per_epoc_test h)
                          (different_loss_metrics h ++ [metrics]))
               out).

(** Lines 360-362: the bookkeeping after the test batches. *)
Definition after_testing (st : state) : Py.result state :=
  let l := lists st in
  let h := hist st in
  cost ← Py.mean (losses l);
  c ← read "component_loss" (component_loss (vars st));
  i ← read "batch_idx" (batch_idx (vars st));
  d ← read "d_component_loss" (d_component_loss (vars st));
  Py.Ok (State (theta st) (opt st) (ag st) l (vars st)
               (Histories (cost_per_epoc h)
                          (component_losses_test h ++ [Np.div_int c (Z.of_nat i)])
                          (component_losses_train h)
                          (d_component_losses_test h ++ [Np.div_int d (Z.of_nat i)])
                          (d_component_losses_train h)
                          (cost_per_epoc_test h ++ [cost])
                          (different_loss_metrics h))
               (stdout st)).

(** Lines 251-253. *)
Definition begin_epoch (st : state) : state :=
  State (theta st) (opt st) (ag st) (EpochLists [] [] [])
        (vars st) (hist st) (stdout st).

(** The body of [for epoch in range(num_epochs)] (lines 250-362), on the
    batches the two loaders yield in this epoch. *)
Definition run_epoch (epoch : nat) (train test : list batch) (st : state)
  : Py.result state :=
  let st := begin_epoch st in
  st ← for_each train_batch (enumerate train) st;
  st ← after_training epoch st;
  if DO_PLOTTING cfg then
    st ← for_each test_batch (enumerate test) st;
    after_testing st
  else Py.Ok st.

(** The numbers the script computes for one batch in a given state: the
    total loss and its breakdown (training batches), the plotting loss,
    and the two component losses. *)
Record report : Type := Report {
  total_loss : Py.float;
  breakdown : Np.array;
  plotting_loss : Py.float;
  loss_c : Np.array;
  dloss_c : Np.array
}.

(** How the per-epoch lists grow with a training batch and with a test
    batch (lines 279-280, 292 and 330). *)
Definition train_lists (r : report) (l : epoch_lists) : epoch_lists :=
  EpochLists (losses l ++ [total_loss r])
             (plotting_losses l ++ [plotting_loss r])
             (diff_losses l ++ [breakdown r]).

Definition test_lists (r : report) (l : epoch_lists) : epoch_lists :=
  EpochLists (losses l ++ [plotting_loss r]) (plotting_losses l)
             (diff_losses l).

Definition batch_report (st : state) (ib : nat * batch) : Py.result report :=
  let '(_, (data_t, targets)) := ib in
  let data := leaf_var LData data_t in
  let prediction := call model (theta st) data in
  '(dXdt_t, _) ← differentiator prediction (new_batch (ag st));
  let '(loss, array_loss) :=
    criterion data prediction (leaf_var LdXdt dXdt_t) targets in
  Py.Ok (Report (item loss) array_loss
                (item (criterion_plotting prediction targets))
                (component_loss_f losses_module (val prediction)
                                  (cols_to (nnuc + 1) targets))
                (component_loss_f_L1 losses_module dXdt_t
                                     (cols_from (nnuc + 1) targets))).

(** The two loaders shuffle: each epoch sees its own batches. *)
Variables train_loader test_loader : nat -> list batch.

Definition train (st : state) : Py.result state :=
  for_each (fun epoch st => run_epoch epoch (train_loader epoch)
                                      (test_loader epoch) st)
           (seq 0 (num_epochs cfg)) st.

End Training.

(** ** The output directory *)

Module FS.

(** What a file of the output directory holds. *)
Inductive content : Type :=
| LogFile (lines : list line)
| Checkpoint (state_dict : list Torch.tensor)
| Table (rows : list Np.array)
| Other (blob : string).

(** The entries of a directory, by name. *)
Abbreviation directory := (gmap string content).

(** [os.path.exists] for an entry of the directory. *)
Definition exists_ (name : string) (d : directory) : bool :=
  bool_decide (is_Some (d !! name)).

(** [os.rename(src, dst)] inside the directory: an entry already at
    [dst] is replaced. *)
Definition rename (src dst : string) (d : directory) : directory :=
  match d !! src with
  | Some c => <[dst := c]> (delete src d)
  | None => d
  end.

(** Writing a file in mode ["w"]: created or replaced. *)
Definition write (name : string) (c : content) (d : directory) : directory :=
  <[name := c]> d.

(** [open(name, "a")]: created empty when missing, else left as it is. *)
Definition open_append (name : string) (d : directory) : directory :=
  match d !! name with
  | Some _ => d
  | None => <[name := LogFile []]> d
  end.

(** Appending one line to a log file. *)
Definition append_line (name : string) (l : line) (d : directory) : directory :=
  match d !! name with
  | Some (LogFile ls) => <[name := LogFile (ls ++ [l])]> d
  | _ => d
  end.

Fixpoint strip_prefix (p s : string) : option string :=
  match p, s with
  | EmptyString, _ => Some s
  | String a p', String b s' =>
      if Ascii.eqb a b then strip_prefix p' s' else None
  | String _ _, EmptyString => None
  end.

Fixpoint strip_slashes (s : string) : string :=
  match s with
  | String "/"%char s' => strip_slashes s'
  | _ => s
  end.

(** [s.endswith(suffix)] *)
Definition ends_with (suffix s : string) : bool :=
  bool_decide (is_Some (strip_prefix (String.rev suffix) (String.rev s))).

End FS.

(** The world the script acts on: its output directory, absent until it
    is created, and the terminal. *)
Record world : Type := World {
  outdir : option FS.directory;
  terminal : list line
}.

(** Lines 44-49. *)
Definition output_dir : string := "fix_plot/".
Definition log_file : string := output_dir +:+ "log.txt".

(** The entry of the output directory a path of the script names: the
    operating system reads repeated slashes as one. *)
Definition entry (path : string) : string :=
  match FS.strip_prefix output_dir path with
  | Some rest => FS.strip_slashes rest
  | None => path
  end.

(** [print] before [sys.stdout] is replaced: the terminal only. *)
Definition print_terminal (l : line) (w : world) : world :=
  World (outdir w) (terminal w ++ [l]).

(** [print] through the [Logger] (lines 61-74): terminal and log file. *)
Definition print (l : line) (w : world) : world :=
  World (FS.append_line (entry log_file) l <$> outdir w) (terminal w ++ [l]).

(** The run guard's condition (line 51):
    [os.path.isdir(output_dir) and (len(os.listdir(output_dir)) != 0)] *)
Definition output_dir_in_use (w : world) : bool :=
  match outdir w with
  | Some d => negb (size d =? 0)%nat
  | None => false
  end.

(** [np.savetxt] of a list of floats: one value per row. *)
Definition column_table (xs : list Py.float) : FS.content :=
  FS.Table (map (fun x => [x]) xs).

(** The [SAVE_MODEL] block (lines 372-384), in an output directory that
    exists. *)
Definition save_model (state_dict : list Torch.tensor) (h : histories)
    (w : world) : world :=
  let w := print (Text "Saving...") w in
  let file_name := output_dir +:+ "my_model_pinn.pt" in
  let w :=
    match outdir w with
    | Some d =>
        if FS.exists_ (entry file_name) d then
          let w := print (Text ("Overwritting file: " +:+ file_name)) w in
          World (FS.rename (entry file_name) (entry (file_name +:+ ".backup"))
                   <$> outdir w)
                (terminal w)
        else w
    | None => w
    end in
  let save (path : string) (c : FS.content) (w : world) : world :=
    World (FS.write (entry path) c <$> outdir w) (terminal w) in
  let w := save file_name (FS.Checkpoint state_dict) w in
  let w := save (output_dir +:+ "/cost_per_epoch.txt")
                (column_table (cost_per_epoc h)) w in
  let w := save (output_dir +:+ "/component_losses_test.txt")
                (FS.Table (component_losses_test h)) w in
  let w := save (output_dir +:+ "/component_losses_train.txt")
                (FS.Table (component_losses_train h)) w in
  let w := save (output_dir +:+ "/d_component_losses_test.txt")
                (FS.Table (d_component_losses_test h)) w in
  save (output_dir +:+ "/d_component_losses_train.txt")
       (FS.Table (d_component_losses_train h)) w.

(** The two entries the checkpoint logic touches. *)
Definition primary : string := entry (output_dir +:+ "my_model_pinn.pt").
Definition backup : string :=
  entry ((output_dir +:+ "my_model_pinn.pt") +:+ ".backup").

(** How a run of the script ends, and the world it leaves. *)
Record outcome : Type := Outcome {
  status : Py.result unit;
  final : world
}.

Section Driver.
Import Torch.

Variable cfg : config.
(** What [ReactDataset2] loaded: the channel width of [output_data]. The
    normalisation, the random split and the two shuffling loaders are
    seen through the batches they yield in each epoch; a [DataLoader] that
    shuffles refuses an empty dataset, so each yields at least one batch.
    The width is at least 2 when the training loop is reached (line 102
    indexes channel [2*(nnuc+1) - 1]), so [nnuc] is not negative there;
    it is the width of a tensor that was loaded, hence below 2^53, where
    [Setup.nnuc] is what line 96 returns. *)
Variable output_width : Z.
Variables train_loader test_loader : nat -> list (tensor * tensor).
(** [Deep_Net], its initial parameters, and the Adam optimizer. *)
Variable model : Network.
Variable theta0 : list tensor.
Variable optimizer : Optimizer.
Variable opt0 : opt_state optimizer.
Variables L1Loss MSELoss : diff2.
Variable losses_module : Losses.
(** [datetime.now()], formatted. *)
Variable dt_string : string.
(** [plotting_pinn(...).do_all_plots()] writes its figures. *)
Variable do_all_plots : list tensor -> histories -> FS.directory -> FS.directory.

Definition flag (name : string) (b : bool) : line :=
  Text (name +:+ (if b then " True" else " False")).

(** Lines 76-84. *)
Definition banner (w : world) : world :=
  let w := print (Text ("Model starting on : " +:+ dt_string)) w in
  let w := print (Text "input_prefix react_inputs_*") w in
  let w := print (Text "output_prefix react_outputs_*") w in
  let w := print (Text ("output_dir " +:+ output_dir)) w in
  let w := print (flag "DEBUG_MODE" (DEBUG_MODE cfg)) w in
  let w := print (flag "DO_PLOTTING" (DO_PLOTTING cfg)) w in
  print (flag "DO_HYPER_OPTIMIZATION" false) w.

Definition initial_state : state optimizer :=
  State optimizer theta0 opt0 (Autograd ∅ false) (EpochLists [] [] [])
        (LoopVars None None None) (Histories [] [] [] [] [] [] []) [].

(** The script from the run guard on (lines 51-400). The lines an epoch
    prints reach the terminal and the log when training returns. The
    [Logger] never flushes its file and closes it on line 400 only: what
    the log holds after a raise is not modelled, and no property below
    depends on it. *)
Definition driver (w : world) : outcome :=
  if output_dir_in_use w then
    let w := print_terminal
               (Text ("Directory " +:+ output_dir +:+ " exists and is not empty.")) w in
    let w := print_terminal
               (Text "Please change output_dir or remove the directory to prevent overwritting data.") w in
    Outcome (Py.Raise Py.SystemExit) w
  else
    (* isdir = os.path.isdir(output_dir); if not isdir: os.mkdir(output_dir) *)
    let w := match outdir w with
             | Some _ => w
             | None => World (Some ∅) (terminal w)
             end in
    (* sys.stdout = Logger() *)
    let w := World (FS.open_append (entry log_file) <$> outdir w) (terminal w) in
    let w := banner w in
    let nnuc := Z.to_nat (Setup.nnuc output_width) in
    match train cfg nnuc model L1Loss MSELoss losses_module optimizer
                train_loader test_loader initial_state with
    | Py.Raise e => Outcome (Py.Raise e) w
    | Py.Ok st =>
        let w := foldl (fun w l => print l w) w (stdout optimizer st) in
        let w := if SAVE_MODEL cfg
                 then save_model (theta optimizer st) (hist optimizer st) w
                 else w in
        let w := if DO_PLOTTING cfg
                 then let w := print (Text "Plotting...") w in
                      World (do_all_plots (theta optimizer st) (hist optimizer st)
                               <$> outdir w)
                            (terminal w)
                 else w in
        (* print("Success! :) \n"): the message ends in a newline of its
           own, so an empty line follows it *)
        Outcome (Py.Ok tt) (print (Text "") (print (Text "Success! :) ") w))
    end.

End Driver.


(** What holds of the derivative batch and the autograd state when the
    differentiator has handled the channels below [k]: the batch has the
    prediction's shape, the graph is alive, the input gradient (zeroed
    after each channel) has the input's shape, and column [n < k] holds
    the first input channel of the gradient of prediction channel [n], as
    stored or as accumulated into a zeroed gradient. *)
Definition differentiator_invariant (model : Torch.Network)
    (theta : list Torch.tensor) (data_t : Torch.tensor) (k : nat)
    (acc : Torch.tensor * autograd) : Prop :=
  Torch.shape acc.1 = Torch.shape (Torch.forward model theta data_t)
  /\ freed acc.2 = false
  /\ (forall g, grads acc.2 !! Torch.LData = Some g ->
                Torch.shape g = Torch.shape data_t)
  /\ ((0 < k)%nat ->
      grads acc.2 !! Torch.LData = Some (Torch.zeros_like data_t))
  /\ forall n b, (n < k)%nat -> (b < length data_t)%nat ->
       exists G gv x,
         Torch.channel_gradient model theta data_t n = Py.Ok G
         /\ Torch.at_ G b 0 = Some gv
         /\ Torch.at_ acc.1 b n = Some x
         /\ (x = gv \/ x = Py.fadd Py.fzero gv).

(** ** A small concrete instance

    A network that is the identity on its first [K] input channels and
    has no parameters, an optimizer that leaves the parameters alone, and
    loss functions that are constantly zero: enough to run the driver. *)

Module Fixture.
Import Torch.

Definition identity_net (K : nat) : Network := {|
  forward := fun _ x => map (take K) x;
  net_vjp := fun _ x g => (zip_with (pad_like K) x g, [])
|}.

(** The first [K] input channels plus a bias, the only parameter. *)
Definition bias_net (K : nat) : Network := {|
  forward := fun th x =>
    match th with
    | [bias] => add (map (take K) x) bias
    | _ => map (take K) x
    end;
  net_vjp := fun th x g =>
    (zip_with (pad_like K) x g, match th with [_] => [g] | _ => [] end)
|}.

Definition bias : tensor := [[Py.fone; Py.fzero]; [Py.fzero; Py.fone]].

Definition frozen : Optimizer := {|
  opt_state := unit;
  step := fun _ th _ => (tt, th)
|}.

Definition zero2 : diff2 :=
  Diff2 (fun _ _ => Py.fzero) (fun a b _ => (zeros_like a, zeros_like b)).

Definition zero1 : diff1 :=
  Diff1 (fun _ => Py.fzero) (fun a _ => zeros_like a).

(** The entry of the first sample in the first channel, as a loss. *)
Definition first_entry : diff2 :=
  Diff2 (fun a _ => default Py.fzero (at_ a 0 0))
        (fun a b g =>
           (imap (fun i (row : list Py.float) =>
                    imap (fun j _ => if ((i =? 0) && (j =? 0))%nat then g
                                     else Py.fzero) row) a,
            zeros_like b)).

(** One entry per channel: the first row. *)
Definition first_row (a _ : tensor) : Np.array := default [] (head a).

Definition zero_losses : Losses := {|
  log_loss := zero2;
  signed_loss_function := zero2;
  relative_loss := zero2;
  loss_mass_fraction := zero1;
  component_loss_f := first_row;
  component_loss_f_L1 := first_row
|}.

Definition entry_losses : Losses := {|
  log_loss := first_entry;
  signed_loss_function := zero2;
  relative_loss := zero2;
  loss_mass_fraction := zero1;
  component_loss_f := first_row;
  component_loss_f_L1 := first_row
|}.

Definition two : Py.float := Py.fadd Py.fone Py.fone.

(** Two samples, four input channels. *)
Definition data : tensor :=
  [[Py.fone; two; Py.fzero; Py.fone]; [two; Py.fone; Py.fone; Py.fzero]].

(** Two samples, [2*(nnuc+1)] target channels with [nnuc = 1]. *)
Definition targets : tensor :=
  [[Py.fone; Py.fone; Py.fzero; Py.fzero]; [two; Py.fzero; Py.fone; two]].

Definition loader (_ : nat) : list (tensor * tensor) :=
  [(data, targets); (data, targets)].

Definition run (w : world) : outcome :=
  driver driver_config 4 loader loader (identity_net 2) [] frozen tt
         first_entry first_entry entry_losses "11/03/2021 10:00:00"
         (fun _ _ d => d) w.

(** One epoch of the same run, from the initial state, on the given
    batches. *)
Definition epoch0 (train test : list (tensor * tensor))
  : Py.result (state frozen) :=
  run_epoch driver_config 1 (identity_net 2) first_entry first_entry
            entry_losses frozen 0 train test (initial_state [] frozen tt).

End Fixture.

(** ** Before the training loop (lines 88-91 and 185) *)

Module Prepare.

(** [sorted(plotfiles)]: Python orders strings by code point. *)
Definition sorted (xs : list string) : list string := merge_sort String.le xs.

(** Lines 88-91, on what [glob] returned: sort, cut the last two names,
    move the last name that is left to the front. [plotfiles[-1]] raises
    on an empty list; the slices never raise. *)
Definition reorder_plotfiles (globbed : list string) : Py.result (list string) :=
  let plotfiles := sorted globbed in
  let plotfiles := take (length plotfiles - 2) plotfiles in
  match last plotfiles with
  | None => Py.Raise Py.IndexError
  | Some name => Py.Ok ([name] ++ take (length plotfiles - 1) plotfiles)
  end.

(** The output width [Deep_Net] is built with (line 185):
    [react_data.output_data.shape[1]//2]. *)
Definition net_output_width (output_width : Z) : Z := output_width / 2.

End Prepare.

(** ** Comparing two runs *)

(** Two results agree up to [R]: both return, in related states, or both
    raise the same exception. *)
Definition result_rel {S : Type} (R : S -> S -> Prop)
    (r r' : Py.result S) : Prop :=
  match r, r' with
  | Py.Ok a, Py.Ok b => R a b
  | Py.Raise e, Py.Raise e' => e = e'
  | _, _ => False
  end.

(** What two training states share when they differ at most in the
    plotting losses: the parameters, the optimizer and autograd states,
    the loop variables, what was printed, and every history but the two
    plotting costs, which have the same number of entries. *)
Definition same_but_plotting_costs {optimizer : Optimizer}
    (a b : state optimizer) : Prop :=
  theta optimizer a = theta optimizer b
  /\ opt optimizer a = opt optimizer b
  /\ ag optimizer a = ag optimizer b
  /\ vars optimizer a = vars optimizer b
  /\ stdout optimizer a = stdout optimizer b
  /\ component_losses_test (hist optimizer a)
     = component_losses_test (hist optimizer b)
  /\ component_losses_train (hist optimizer a)
     = component_losses_train (hist optimizer b)
  /\ d_component_losses_test (hist optimizer a)
     = d_component_losses_test (hist optimizer b)
  /\ d_component_losses_train (hist optimizer a)
     = d_component_losses_train (hist optimizer b)
  /\ different_loss_metrics (hist optimizer a)
     = different_loss_metrics (hist optimizer b)
  /\ length (cost_per_epoc (hist optimizer a))
     = length (cost_per_epoc (hist optimizer b))
  /\ length (cost_per_epoc_test (hist optimizer a))
     = length (cost_per_epoc_test (hist optimizer b)).

(** ** Runs of the concrete instance *)

Module Runs.
Import Torch.

(** The training loop of the concrete instance, from the initial state. *)
Definition training : Py.result (state Fixture.frozen) :=
  train driver_config 1 (Fixture.identity_net 2) Fixture.first_entry
        Fixture.first_entry Fixture.entry_losses Fixture.frozen
        Fixture.loader Fixture.loader (initial_state [] Fixture.frozen tt).

(** Its test loop alone, from the initial state. *)
Definition testing : Py.result (state Fixture.frozen) :=
  for_each (test_batch 1 (Fixture.identity_net 2) Fixture.first_entry
                       Fixture.entry_losses Fixture.frozen)
           (enumerate (Fixture.loader 0)) (initial_state [] Fixture.frozen tt).

(** The losses of the concrete instance with another relative loss. *)
Definition other_relative : Losses := {|
  log_loss := Fixture.first_entry;
  signed_loss_function := Fixture.zero2;
  relative_loss := Fixture.first_entry;
  loss_mass_fraction := Fixture.zero1;
  component_loss_f := Fixture.first_row;
  component_loss_f_L1 := Fixture.first_row
|}.

End Runs.

(** ** The files of a run *)

(** The five metric files and what the [SAVE_MODEL] block writes in each
    (lines 380-384). *)
Definition metric_files (h : histories) : list (string * FS.content) :=
  [(entry (output_dir +:+ "/cost_per_epoch.txt"),
    column_table (cost_per_epoc h));
   (entry (output_dir +:+ "/component_losses_test.txt"),
    FS.Table (component_losses_test h));
   (entry (output_dir +:+ "/component_losses_train.txt"),
    FS.Table (component_losses_train h));
   (entry (output_dir +:+ "/d_component_losses_test.txt"),
    FS.Table (d_component_losses_test h));
   (entry (output_dir +:+ "/d_component_losses_train.txt"),
    FS.Table (d_component_losses_train h))].

(** Every entry the script itself writes. *)
Definition script_files : list string :=
  entry log_file :: primary :: backup
  :: map fst (metric_files (Histories [] [] [] [] [] [] [])).

(** What the [SAVE_MODEL] block prints (lines 373-376). *)
Definition save_model_lines (d : FS.directory) : list line :=
  Text "Saving..."
  :: (if FS.exists_ primary d
      then [Text ("Overwritting file: " +:+ output_dir +:+ "my_model_pinn.pt")]
      else []).

(** What the banner prints (lines 76-84). *)
Definition banner_lines (cfg : config) (dt_string : string) : list line :=
  [Text ("Model starting on : " +:+ dt_string);
   Text "input_prefix react_inputs_*";
   Text "output_prefix react_outputs_*";
   Text ("output_dir " +:+ output_dir);
   flag "DEBUG_MODE" (DEBUG_MODE cfg);
   flag "DO_PLOTTING" (DO_PLOTTING cfg);
   flag "DO_HYPER_OPTIMIZATION" false].

(** Everything a run that trains to the end prints through the
    [Logger], given the lines of its epochs. *)
Definition run_lines (cfg : config) (dt_string : string)
    (epoch_lines : list line) : list line :=
  banner_lines cfg dt_string ++ epoch_lines
  ++ (if SAVE_MODEL cfg then [Text "Saving..."] else [])
  ++ (if DO_PLOTTING cfg then [Text "Plotting..."] else [])
  ++ [Text "Success! :) "; Text ""].

(** ** The normalisation of the data set (lines 98-111)

    [react_data.input_data] and [react_data.output_data] are indexed as
    [t[:, c, :]]: samples, channels, cells. *)

Module Normalize.

Abbreviation tensor3 := (list (list (list Py.float))).

(** [t[:, c, :]]: raises when a sample has no channel [c]. *)
Definition channel (c : nat) (t : tensor3)
  : Py.result (list (list Py.float)) :=
  match mapM (fun sample : list (list Py.float) => sample !! c) t with
  | Some x => Py.Ok x
  | None => Py.Raise Py.IndexError
  end.

(** The larger of two entries; a NaN wins, and of two zeros the positive
    one, as in the maximum of IEEE 754. *)
Definition fmax (a b : Py.float) : Py.float :=
  match a, b with
  | S754_nan, _ => a
  | _, S754_nan => b
  | S754_zero sa, S754_zero sb => S754_zero (sa && sb)
  | _, _ => match SFcompare a b with
            | Some Lt => b
            | _ => a
            end
  end.

(** [torch.max(x)] over every entry of [x]: raises on a tensor without
    entries. *)
Definition max (x : list (list Py.float)) : Py.result Py.float :=
  match concat x with
  | [] => Py.Raise Py.RuntimeError
  | v :: vs => Py.Ok (foldl fmax v vs)
  end.

(** [x / fac], entry by entry. *)
Definition div (fac : Py.float) (x : list (list Py.float))
  : list (list Py.float) :=
  map (map (fun v => Py.fdiv v fac)) x.

(** [t[:, c, :] = t[:, c, :] / fac] *)
Definition scale (c : nat) (fac : Py.float) (t : tensor3)
  : Py.result tensor3 :=
  x ← channel c t;
  Py.Ok (zip_with (fun (sample : list (list Py.float)) row =>
                     <[c := row]> sample) t (div fac x)).

(** Lines 99-111: the four factors are read first, then the four
    channels are divided in place. *)
Definition normalize (nnuc : nat) (input_data output_data : tensor3)
  : Py.result (tensor3 * tensor3) :=
  dens_fac ← (x ← channel (nnuc + 1) input_data; max x);
  temp_fac ← (x ← channel (nnuc + 2) input_data; max x);
  enuc_fac ← (x ← channel nnuc output_data; max x);
  enuc_dot_fac ← (x ← channel (2 * (nnuc + 1) - 1) output_data; max x);
  input_data ← scale (nnuc + 1) dens_fac input_data;
  input_data ← scale (nnuc + 2) temp_fac input_data;
  output_data ← scale nnuc enuc_fac output_data;
  output_data ← scale (2 * (nnuc + 1) - 1) enuc_dot_fac output_data;
  Py.Ok (input_data, output_data).

(** A channel divided by its own maximum. *)
Definition by_own_max (c : nat) (t : tensor3)
  : Py.result (list (list Py.float)) :=
  x ← channel c t;
  m ← max x;
  Py.Ok (div m x).

End Normalize.

(** * Properties *)

(** ** Set-up arithmetic *)

Lemma int_truediv_nonneg (a b : Z) :
  0 <= a -> 0 < b -> Py.int (Py.truediv a b) = a / b.
Proof.
  intros Ha Hb. destruct b as [|b|b]; try lia.
  unfold Py.int, Py.truediv, Qdiv, Qinv, Qmult, inject_Z. simpl.
  rewrite Z.mul_1_r. apply Z.quot_div_nonneg; lia.
Qed.

Lemma floor_truediv (a b : Z) :
  0 < b -> Qfloor (Py.truediv a b) = a / b.
Proof.
  intros Hb. destruct b as [|b|b]; try lia.
  unfold Py.truediv, Qdiv, Qinv, Qmult, inject_Z, Qfloor. simpl.
  now rewrite Z.mul_1_r.
Qed.

(** ** Binary64 on the integers of the set-up

    What [Py.of_int], [Py.fdiv], [Py.fsub] and [Py.int_of_float] compute on
    integers that binary64 holds exactly. *)

Lemma digits2_log2 (p : positive) :
  Zpos (digits2_pos p) = Z.log2 (Zpos p) + 1.
Proof.
  induction p as [p IH|p IH|].
  - cbn [digits2_pos]. rewrite Pos2Z.inj_succ, IH.
    change (Zpos p~1) with (2 * Zpos p + 1).
    rewrite Z.log2_succ_double by lia. lia.
  - cbn [digits2_pos]. rewrite Pos2Z.inj_succ, IH.
    change (Zpos p~0) with (2 * Zpos p).
    rewrite Z.log2_double by lia. lia.
  - reflexivity.
Qed.

Lemma digits2_bounds (p : positive) (k : Z) :
  Zpos (digits2_pos p) = k <-> 2 ^ (k - 1) <= Zpos p < 2 ^ k.
Proof.
  rewrite digits2_log2. split.
  - intros <-. replace (Z.log2 (Zpos p) + 1 - 1) with (Z.log2 (Zpos p)) by lia.
    pose proof (Z.log2_spec (Zpos p) ltac:(lia)). 
    replace (Z.log2 (Zpos p) + 1) with (Z.succ (Z.log2 (Zpos p))) by lia. lia.
  - intros H.
    assert (0 <= k - 1).
    { destruct (Z.le_gt_cases 0 (k - 1)) as [?|Hneg]; [assumption|].
      assert (k <= 0) by lia.
      destruct H as [_ H]. 
      destruct (Z.eq_dec k 0) as [->|]; [simpl in H; lia|].
      rewrite Z.pow_neg_r in H by lia. lia. }
    rewrite (Z.log2_unique (Zpos p) (k - 1)); [lia|lia|].
    replace (Z.succ (k - 1)) with k by lia. exact H.
Qed.

Lemma iter_xO (m d : positive) :
  Zpos (Pos.iter xO m d) = Zpos m * 2 ^ Zpos d.
Proof.
  revert m. induction d as [|d IH] using Pos.peano_ind; intros m.
  - cbn. lia.
  - rewrite Pos.iter_succ, Pos2Z.inj_succ, Z.pow_succ_r by lia.
    change (Zpos (Pos.iter xO m d)~0) with (2 * Zpos (Pos.iter xO m d)).
    rewrite IH. lia.
Qed.

Lemma iter_pos_iter {A : Type} (f : A -> A) (n : positive) (x : A) :
  SpecFloat.iter_pos f n x = Pos.iter f x n.
Proof.
  revert x. induction n as [n IH|n IH|]; intros x; cbn [SpecFloat.iter_pos Pos.iter].
  - rewrite !IH. now rewrite <- !Pos.iter_swap.
  - now rewrite !IH.
  - reflexivity.
Qed.

(** Shifting right a mantissa that ends in enough zeros is exact. *)
Lemma shr_exact (n : positive) (M : positive) :
  SpecFloat.iter_pos shr_1 n (Build_shr_record (Zpos M * 2 ^ Zpos n) false false)
  = Build_shr_record (Zpos M) false false.
Proof.
  rewrite iter_pos_iter. revert M.
  induction n as [|n IH] using Pos.peano_ind; intros M.
  - replace (Zpos M * 2 ^ 1) with (Zpos (xO M)) by lia. reflexivity.
  - rewrite Pos.iter_succ_r, Pos2Z.inj_succ, Z.pow_succ_r by lia.
    replace (Zpos M * (2 * 2 ^ Zpos n)) with (Zpos (xO M) * 2 ^ Zpos n) by lia.
    assert (E : exists q, Zpos (xO M) * 2 ^ Zpos n = Zpos (xO q)
                          /\ Zpos q = Zpos M * 2 ^ Zpos n).
    { pose proof (iter_xO M n) as H. exists (Pos.iter xO M n). split; lia. }
    destruct E as (q & E & Eq). rewrite E. cbn [shr_1 orb].
    rewrite Eq. apply IH.
Qed.

Lemma Zdigits2_log2 (z : Z) : 0 < z -> Zdigits2 z = Z.log2 z + 1.
Proof.
  destruct z as [|p|p]; try lia. intros _. apply digits2_log2.
Qed.

Lemma Zdigits2_shift (M : positive) (n : Z) :
  0 <= n -> Zdigits2 (Zpos M * 2 ^ n) = Zpos (digits2_pos M) + n.
Proof.
  intros Hn. rewrite Zdigits2_log2 by (apply Z.mul_pos_pos; [lia|apply Z.pow_pos_nonneg; lia]).
  rewrite Z.log2_mul_pow2 by lia. rewrite digits2_log2. lia.
Qed.

Lemma fexp_normal (k : Z) : -1021 <= k -> fexp 53 1024 k = k - 53.
Proof. intros H. unfold fexp, emin. lia. Qed.

Lemma shr_fexp_exact (M : positive) (n e : Z) :
  Zpos (digits2_pos M) = 53 -> 0 <= n -> -1074 <= e + n ->
  shr_fexp 53 1024 (Zpos M * 2 ^ n) e loc_Exact
  = (Build_shr_record (Zpos M) false false, e + n).
Proof.
  intros HM Hn He. unfold shr_fexp.
  rewrite Zdigits2_shift, HM by exact Hn.
  rewrite fexp_normal by lia.
  replace (53 + n + e - 53 - e) with n by lia.
  cbn [shr_record_of_loc]. unfold shr.
  destruct n as [|p|p]; try lia.
  - rewrite Z.mul_1_r, Z.add_0_r. reflexivity.
  - now rewrite shr_exact.
Qed.

Lemma binary_round_aux_exact (s : bool) (M : positive) (n e : Z) :
  Zpos (digits2_pos M) = 53 -> 0 <= n -> -1074 <= e + n <= 971 ->
  binary_round_aux 53 1024 s (Zpos M * 2 ^ n) e loc_Exact
  = S754_finite s M (e + n).
Proof.
  intros HM Hn He. unfold binary_round_aux.
  rewrite (shr_fexp_exact M n e HM Hn) by lia.
  cbn [shr_m loc_of_shr_record round_nearest_even].
  pose proof (shr_fexp_exact M 0 (e + n) HM ltac:(lia) ltac:(lia)) as H0.
  rewrite Z.mul_1_r, Z.add_0_r in H0. rewrite H0. cbn [shr_m].
  replace (e + n <=? 1024 - 53) with true by (symmetry; apply Z.leb_le; lia).
  reflexivity.
Qed.

(** Normalising a positive integer mantissa of at most 53 bits. *)
Lemma binary_normalize_small (D : positive) (e : Z) :
  Zpos D < 2 ^ 53 -> -1021 <= Zpos (digits2_pos D) + e <= 1024 ->
  exists M,
    binary_normalize 53 1024 (Zpos D) e false
    = S754_finite false M (e + Zpos (digits2_pos D) - 53)
    /\ Zpos M = Zpos D * 2 ^ (53 - Zpos (digits2_pos D))
    /\ Zpos (digits2_pos M) = 53.
Proof.
  intros HD He. cbn [binary_normalize]. unfold binary_round, shl_align.
  set (k := Zpos (digits2_pos D)) in *.
  assert (Hk : 1 <= k <= 53).
  { pose proof (proj1 (digits2_bounds D k) eq_refl) as [Hlo Hhi].
    split; [subst k; lia|].
    destruct (Z.le_gt_cases k 53) as [?|Hgt]; [assumption|].
    assert (2 ^ 53 <= 2 ^ (k - 1)) by (apply Z.pow_le_mono_r; lia). lia. }
  rewrite fexp_normal by lia.
  destruct (Z.eq_dec k 53) as [E|NE].
  - replace (k + e - 53 - e) with 0 by lia.
    exists D. rewrite E.
    pose proof (binary_round_aux_exact false D 0 e ltac:(subst k; lia) ltac:(lia) ltac:(lia)) as H.
    rewrite Z.mul_1_r, Z.add_0_r in H. rewrite H.
    split; [f_equal; lia|]. split; [simpl; lia|exact E].
  - destruct (k + e - 53 - e) as [|p|p] eqn:Ed; try lia.
    assert (Hp : Zpos p = 53 - k) by lia.
    exists (Pos.iter xO D p).
    assert (HM : Zpos (Pos.iter xO D p) = Zpos D * 2 ^ (53 - k))
      by (rewrite iter_xO, Hp; reflexivity).
    assert (Hdig : Zpos (digits2_pos (Pos.iter xO D p)) = 53).
    { change (Zpos (digits2_pos (Pos.iter xO D p)))
        with (Zdigits2 (Zpos (Pos.iter xO D p))).
      rewrite HM, Zdigits2_shift by lia. fold k. lia. }
    pose proof (binary_round_aux_exact false (Pos.iter xO D p) 0 (k + e - 53)
                  Hdig ltac:(lia) ltac:(lia)) as H.
    rewrite Z.mul_1_r, Z.add_0_r in H. rewrite H.
    split; [f_equal; lia|]. split; assumption.
Qed.

Lemma binary_normalize_large (M : positive) (n e : Z) :
  Zpos (digits2_pos M) = 53 -> 0 <= n -> -1074 <= e + n <= 971 ->
  binary_normalize 53 1024 (Zpos M * 2 ^ n) e false
  = S754_finite false M (e + n).
Proof.
  intros HM Hn He.
  destruct (Zpos M * 2 ^ n) as [|D|D] eqn:ED;
    try (pose proof (Z.pow_pos_nonneg 2 n ltac:(lia) Hn); nia).
  cbn [binary_normalize]. unfold binary_round, shl_align.
  change (Zpos (digits2_pos D)) with (Zdigits2 (Zpos D)).
  rewrite <- ED, Zdigits2_shift, HM by exact Hn.
  rewrite fexp_normal by lia.
  destruct (53 + n + e - 53 - e) as [|p|p] eqn:Ed; try lia;
    cbv beta iota; rewrite <- ED; now apply binary_round_aux_exact.
Qed.

(** Normalising [u * 2^t] for an integer [u] of at most 53 bits is
    exact. *)
Lemma binary_normalize_exact (u : positive) (t e : Z) :
  Zpos u < 2 ^ 53 -> 0 <= t ->
  -1021 <= e + t + Zpos (digits2_pos u) <= 1024 ->
  exists M,
    binary_normalize 53 1024 (Zpos u * 2 ^ t) e false
    = S754_finite false M (e + t + Zpos (digits2_pos u) - 53)
    /\ Zpos M = Zpos u * 2 ^ (53 - Zpos (digits2_pos u))
    /\ Zpos (digits2_pos M) = 53.
Proof.
  intros Hu Ht He.
  set (j := Zpos (digits2_pos u)) in *.
  assert (Hj : 1 <= j <= 53).
  { pose proof (proj1 (digits2_bounds u j) eq_refl) as [Hlo Hhi].
    split; [subst j; lia|].
    destruct (Z.le_gt_cases j 53) as [?|Hgt]; [assumption|].
    assert (2 ^ 53 <= 2 ^ (j - 1)) by (apply Z.pow_le_mono_r; lia). lia. }
  destruct (binary_normalize_small u 0 Hu ltac:(fold j; lia))
    as (M & _ & HM & Hdig).
  fold j in HM. exists M. split; [|split; assumption].
  destruct (Z.le_gt_cases t (53 - j)) as [Hsmall|Hlarge].
  - (* the product still fits in 53 bits *)
    destruct (Zpos u * 2 ^ t) as [|D|D] eqn:ED;
      try (pose proof (Z.pow_pos_nonneg 2 t ltac:(lia) Ht); nia).
    assert (HdD : Zpos (digits2_pos D) = j + t).
    { change (Zpos (digits2_pos D)) with (Zdigits2 (Zpos D)).
      rewrite <- ED, Zdigits2_shift by exact Ht. reflexivity. }
    assert (HD : Zpos D < 2 ^ 53).
    { pose proof (proj1 (digits2_bounds D (j + t)) HdD) as [_ Hhi].
      assert (2 ^ (j + t) <= 2 ^ 53) by (apply Z.pow_le_mono_r; lia). lia. }
    destruct (binary_normalize_small D e HD ltac:(lia)) as (M' & HM' & HMv & _).
    rewrite HM', HdD. f_equal; [|lia].
    apply Pos2Z.inj. rewrite HM, HMv, HdD, <- ED, <- Z.mul_assoc, <- Z.pow_add_r by lia.
    do 2 f_equal. lia.
  - replace (Zpos u * 2 ^ t) with (Zpos M * 2 ^ (t - (53 - j))).
    + rewrite binary_normalize_large by (assumption || lia). f_equal. lia.
    + rewrite HM, <- Z.mul_assoc, <- Z.pow_add_r by lia. do 2 f_equal. lia.
Qed.

Lemma of_int_exact (a : positive) :
  Zpos a < 2 ^ 53 ->
  exists M,
    Py.of_int (Zpos a) = S754_finite false M (Zpos (digits2_pos a) - 53)
    /\ Zpos M = Zpos a * 2 ^ (53 - Zpos (digits2_pos a))
    /\ Zpos (digits2_pos M) = 53.
Proof.
  intros Ha.
  assert (Hk : 1 <= Zpos (digits2_pos a) <= 53).
  { pose proof (proj1 (digits2_bounds a _) eq_refl) as [Hlo Hhi].
    split; [lia|].
    destruct (Z.le_gt_cases (Zpos (digits2_pos a)) 53) as [?|Hgt]; [assumption|].
    assert (2 ^ 53 <= 2 ^ (Zpos (digits2_pos a) - 1))
      by (apply Z.pow_le_mono_r; lia). lia. }
  destruct (binary_normalize_small a 0 Ha ltac:(lia)) as (M & H & HM & Hd).
  exists M. unfold Py.of_int, Py.prec, Py.emax. rewrite H.
  split; [f_equal; lia|]. split; assumption.
Qed.

(** ** Division *)

Lemma div_eucl_div_mod (a b : Z) : Z.div_eucl a b = (a / b, a mod b).
Proof.
  unfold Z.div, Z.modulo. now destruct (Z.div_eucl a b).
Qed.

Lemma fdiv_normal (m1 m2 : positive) (e1 e2 : Z) :
  Zpos (digits2_pos m1) = 53 -> Zpos (digits2_pos m2) = 53 ->
  -1021 <= e1 - e2 ->
  Py.fdiv (S754_finite false m1 e1) (S754_finite false m2 e2)
  = binary_round_aux 53 1024 false
      (Zpos m1 * 2 ^ 53 / Zpos m2) (e1 - e2 - 53)
      (new_location (Zpos m2) (Zpos m1 * 2 ^ 53 mod Zpos m2)).
Proof.
  intros H1 H2 He. unfold Py.fdiv, Py.prec, Py.emax, SFdiv, SFdiv_core_binary.
  cbn [Zdigits2 xorb]. rewrite H1, H2.
  replace (53 + e1 - (53 + e2)) with (e1 - e2) by lia.
  rewrite fexp_normal by lia.
  rewrite Z.min_l by lia.
  replace (e1 - e2 - (e1 - e2 - 53)) with 53 by lia.
  rewrite Z.shiftl_mul_pow2 by lia.
  rewrite div_eucl_div_mod. reflexivity.
Qed.

Lemma new_location_zero (n : Z) : new_location n 0 = loc_Exact.
Proof.
  unfold new_location, new_location_even, new_location_odd.
  now destruct (Z.even n).
Qed.

(** Very close to what the exact quotient is: rounding a quotient of 53 or
    54 bits moves it by less than two units. *)
Lemma round_nearest_even_bounds (m : Z) (l : location) :
  m <= round_nearest_even m l <= m + 1.
Proof.
  destruct l as [|[| |]]; cbn; try lia. destruct (Z.even m); lia.
Qed.

Lemma loc_of_record_of_loc (m : Z) (l : location) :
  loc_of_shr_record (shr_record_of_loc m l) = l
  /\ shr_m (shr_record_of_loc m l) = m.
Proof. destruct l as [|[| |]]; split; reflexivity. Qed.

(** The second pass of [binary_round_aux], on a mantissa that the first
    pass left with 53 bits or turned into [2^53]. *)
Lemma reround (s : bool) (m0 e : Z) :
  2 ^ 52 <= m0 <= 2 ^ 53 -> -1074 <= e <= 970 ->
  exists M E,
    (let '(mrs, e') := shr_fexp 53 1024 m0 e loc_Exact in
     match shr_m mrs with
     | Z0 => S754_zero s
     | Zpos m => if e' <=? 1024 - 53 then S754_finite s m e'
                 else S754_infinity s
     | Zneg _ => S754_nan
     end) = S754_finite s M E
    /\ e <= E <= e + 1
    /\ Zpos M * 2 ^ (E - e) = m0.
Proof.
  intros Hm He.
  destruct (Z.eq_dec m0 (2 ^ 53)) as [->|Hne].
  - exists (2 ^ 52)%positive, (e + 1).
    pose proof (shr_fexp_exact (2 ^ 52)%positive 1 e eq_refl ltac:(lia) ltac:(lia)) as H.
    change (Zpos (2 ^ 52) * 2 ^ 1) with (2 ^ 53) in H. rewrite H. cbn [shr_m].
    replace (e + 1 <=? 1024 - 53) with true by (symmetry; apply Z.leb_le; lia).
    split; [reflexivity|]. split; [lia|].
    replace (e + 1 - e) with 1 by lia. reflexivity.
  - destruct m0 as [|M|M]; try lia. exists M, e.
    assert (Hd : Zpos (digits2_pos M) = 53) by (apply digits2_bounds; simpl; lia).
    pose proof (shr_fexp_exact M 0 e Hd ltac:(lia) ltac:(lia)) as H.
    rewrite Z.mul_1_r, Z.add_0_r in H. rewrite H. cbn [shr_m].
    replace (e <=? 1024 - 53) with true by (symmetry; apply Z.leb_le; lia).
    split; [reflexivity|]. split; [lia|].
    rewrite Z.sub_diag. lia.
Qed.

Lemma shr_1_pos (Q : positive) (r s : bool) :
  2 <= Zpos Q ->
  exists r' s',
    shr_1 (Build_shr_record (Zpos Q) r s) = Build_shr_record (Zpos Q / 2) r' s'.
Proof.
  intros HQ. destruct Q as [Q'|Q'|]; [| |lia]; cbn [shr_1].
  - exists true, (orb r s). f_equal.
    rewrite Pos2Z.inj_xI. apply (Z.div_unique _ 2 _ 1); lia.
  - exists false, (orb r s). f_equal.
    rewrite Pos2Z.inj_xO. apply (Z.div_unique _ 2 _ 0); lia.
Qed.

Lemma binary_round_aux_near (s : bool) (q e : Z) (l : location) :
  2 ^ 52 <= q < 2 ^ 54 -> -1074 <= e <= 960 ->
  exists M E,
    binary_round_aux 53 1024 s q e l = S754_finite s M E
    /\ e <= E <= e + 2
    /\ 2 * (q / 2) <= Zpos M * 2 ^ (E - e) <= q + 2.
Proof.
  intros Hq He. unfold binary_round_aux.
  destruct q as [|Q|Q]; try lia.
  destruct (Z_lt_le_dec (Zpos Q) (2 ^ 53)) as [H53|H54].
  - (* 53 bits: no first shift *)
    assert (Hd : Zpos (digits2_pos Q) = 53) by (apply digits2_bounds; simpl; lia).
    unfold shr_fexp at 1. cbn [Zdigits2]. rewrite Hd, fexp_normal by lia.
    replace (53 + e - 53 - e) with 0 by lia. cbn [shr].
    destruct (loc_of_record_of_loc (Zpos Q) l) as [-> ->].
    pose proof (round_nearest_even_bounds (Zpos Q) l) as Hr.
    destruct (reround s (round_nearest_even (Zpos Q) l) e ltac:(lia) ltac:(lia))
      as (M & E & HM & HE & HV).
    exists M, E. split; [exact HM|]. split; [lia|].
    rewrite HV. pose proof (Z.mul_div_le (Zpos Q) 2 ltac:(lia)). lia.
  - (* 54 bits: one shift *)
    assert (Hd : Zpos (digits2_pos Q) = 54) by (apply digits2_bounds; simpl; lia).
    unfold shr_fexp at 1. cbn [Zdigits2]. rewrite Hd, fexp_normal by lia.
    replace (54 + e - 53 - e) with 1 by lia. cbn [shr SpecFloat.iter_pos].
    assert (Hs : exists r' s',
               shr_1 (shr_record_of_loc (Zpos Q) l)
               = Build_shr_record (Zpos Q / 2) r' s').
    { destruct (shr_1_pos Q (shr_r (shr_record_of_loc (Zpos Q) l))
                  (shr_s (shr_record_of_loc (Zpos Q) l)))
        as (r' & s' & H); [simpl in H54; lia|].
      exists r', s'. rewrite <- H. now destruct l as [|[| |]]. }
    destruct Hs as (r' & s' & ->). cbn [shr_m].
    set (l' := loc_of_shr_record _).
    pose proof (round_nearest_even_bounds (Zpos Q / 2) l') as Hr.
    assert (Hhalf : 2 ^ 52 <= Zpos Q / 2 < 2 ^ 53).
    { split; [apply Z.div_le_lower_bound; simpl; lia|].
      apply Z.div_lt_upper_bound; simpl in *; lia. }
    destruct (reround s (round_nearest_even (Zpos Q / 2) l') (e + 1)
                ltac:(lia) ltac:(lia)) as (M & E & HM & HE & HV).
    exists M, E. split; [exact HM|]. split; [lia|].
    replace (E - e) with (E - (e + 1) + 1) by lia.
    rewrite Z.pow_add_r, Z.mul_assoc, HV by lia.
    pose proof (Z.mul_div_le (Zpos Q) 2 ltac:(lia)).
    pose proof (Z.mul_succ_div_gt (Zpos Q) 2 ltac:(lia)). lia.
Qed.

Lemma digits_range (a : positive) (b : Z) :
  0 <= b -> Zpos a < 2 ^ b -> 1 <= Zpos (digits2_pos a) <= b.
Proof.
  intros Hb Ha.
  pose proof (proj1 (digits2_bounds a _) eq_refl) as [Hlo Hhi].
  split; [lia|].
  destruct (Z.le_gt_cases (Zpos (digits2_pos a)) b) as [?|Hgt]; [assumption|].
  assert (2 ^ b <= 2 ^ (Zpos (digits2_pos a) - 1))
    by (apply Z.pow_le_mono_r; lia).
  lia.
Qed.

Lemma shl_align_value (m : positive) (e e' : Z) :
  e' <= e -> Zpos (fst (shl_align m e e')) = Zpos m * 2 ^ (e - e').
Proof.
  intros H. unfold shl_align.
  destruct (e' - e) as [|p|p] eqn:E; try lia; cbn [fst].
  - replace (e - e') with 0 by lia. lia.
  - rewrite iter_xO. do 2 f_equal. lia.
Qed.

Lemma int_of_float_neg (M : positive) (E : Z) :
  E < 0 ->
  Py.int_of_float (S754_finite false M E) = Some (Zpos M / 2 ^ (- E)).
Proof.
  intros HE. destruct E as [|p|p]; try lia. cbn [Py.int_of_float].
  rewrite Z.quot_div_nonneg; [reflexivity|lia|].
  apply Z.pow_pos_nonneg; lia.
Qed.

(** Line 96 in binary64, for every width the interpreter holds exactly:
    [int(w/2 - 1)] is [w // 2 - 1]. *)
Lemma nnuc_binary64_exact (w : Z) :
  2 <= w < 2 ^ 53 -> Setup.nnuc_binary64 w = Some (w / 2 - 1).
Proof.
  intros Hw. unfold Setup.nnuc_binary64.
  destruct w as [|a|a]; try lia.
  destruct (of_int_exact a ltac:(lia)) as (m1 & -> & Hm1 & Hd1).
  pose proof (digits_range a 53 ltac:(lia) ltac:(lia)) as Hk.
  set (k := Zpos (digits2_pos a)) in *.
  assert (Hk2 : 2 <= k).
  { destruct (Z.le_gt_cases 2 k) as [?|Hlt]; [assumption|].
    assert (k = 1) by lia.
    pose proof (proj1 (digits2_bounds a k) eq_refl) as [_ Hhi].
    replace k with 1 in Hhi. simpl in Hhi. lia. }
  (* w / 2 *)
  change (Py.of_int 2) with (S754_finite false (2 ^ 52) (-51)).
  rewrite fdiv_normal by (assumption || reflexivity || lia).
  replace (Zpos m1 * 2 ^ 53 / Zpos (2 ^ 52)) with (Zpos m1 * 2 ^ 1)
    by (change (2 ^ 53) with (2 * Zpos (2 ^ 52));
        rewrite Z.mul_assoc, Z.div_mul by lia; reflexivity).
  replace (Zpos m1 * 2 ^ 53 mod Zpos (2 ^ 52)) with 0
    by (change (2 ^ 53) with (2 * Zpos (2 ^ 52));
        rewrite Z.mul_assoc, Z.mod_mul by lia; reflexivity).
  rewrite new_location_zero.
  rewrite binary_round_aux_exact by (assumption || lia).
  (* - 1 *)
  change (Py.of_int 1) with (S754_finite false (2 ^ 52) (-52)).
  unfold Py.fsub, Py.prec, Py.emax, SFsub. cbn [cond_Zopp].
  replace (Z.min (k - 53 - -51 - 53 + 1) (-52)) with (-52) by lia.
  rewrite !shl_align_value by lia.
  replace (Zpos m1 * 2 ^ (k - 53 - -51 - 53 + 1 - -52)
           - Zpos (2 ^ 52) * 2 ^ (-52 - -52))
    with ((Zpos a - 2) * 2 ^ 51).
  2:{ rewrite Hm1, <- Z.mul_assoc, <- Z.pow_add_r by lia.
      replace (53 - k + (k - 53 - -51 - 53 + 1 - -52)) with 51 by lia.
      change (Zpos (2 ^ 52) * 2 ^ (-52 - -52)) with (2 * 2 ^ 51). lia. }
  destruct (Zpos a - 2) as [|u|u] eqn:Eu; try lia.
  - (* width 2 *)
    cbn. replace (Zpos a) with 2 by lia. reflexivity.
  - pose proof (digits_range u 53 ltac:(lia) ltac:(lia)) as Hj.
    destruct (binary_normalize_exact u 51 (-52) ltac:(lia) ltac:(lia) ltac:(lia))
      as (M & -> & HM & _).
    rewrite int_of_float_neg by lia. f_equal.
    set (j := Zpos (digits2_pos u)) in *.
    replace (- (-52 + 51 + j - 53)) with (1 + (53 - j)) by lia.
    rewrite HM, Z.pow_add_r by lia.
    rewrite Z.div_mul_cancel_r
      by (try (apply Z.pow_nonzero; lia); try discriminate).
    rewrite <- Eu. change (2 ^ 1) with 2.
    replace (Zpos a) with ((Zpos a - 2) + 1 * 2) at 2 by lia.
    rewrite Z.div_add by lia. lia.
Qed.

(** Line 119 in binary64: [int(a/100)] is [a // 100] for every
    product [a = N*percent] below 2^52. *)
Lemma int_div_100_exact (a : Z) :
  0 <= a < 2 ^ 52 ->
  Py.int_of_float (Py.fdiv (Py.of_int a) (Py.of_int 100)) = Some (a / 100).
Proof.
  intros Ha. destruct a as [|a|a]; try lia; [reflexivity|].
  destruct (of_int_exact a ltac:(lia)) as (m1 & -> & Hm1 & Hd1).
  pose proof (digits_range a 52 ltac:(lia) ltac:(lia)) as Hk.
  pose proof (proj1 (digits2_bounds a _) eq_refl) as Ha2.
  set (k := Zpos (digits2_pos a)) in *.
  change (Py.of_int 100) with (S754_finite false (25 * 2 ^ 48) (-46)).
  rewrite (fdiv_normal m1 (25 * 2 ^ 48) (k - 53) (-46) Hd1 eq_refl)
    by (clear - Hk; lia).
  set (scale := 2 ^ (60 - k)).
  assert (HS : 256 <= scale).
  { change 256 with (2 ^ 8). apply Z.pow_le_mono_r; lia. }
  assert (HSa : 2 ^ 59 <= Zpos a * scale < 2 ^ 60).
  { assert (E59 : 2 ^ 59 = 2 ^ (k - 1) * scale)
      by (unfold scale; rewrite <- Z.pow_add_r by lia; f_equal; lia).
    assert (E60 : 2 ^ 60 = 2 ^ k * scale)
      by (unfold scale; rewrite <- Z.pow_add_r by lia; f_equal; lia).
    rewrite E59, E60. split.
    - apply Z.mul_le_mono_nonneg_r; lia.
    - apply Z.mul_lt_mono_pos_r; lia. }
  assert (Hq : Zpos m1 * 2 ^ 53 / Zpos (25 * 2 ^ 48) = Zpos a * scale / 100).
  { rewrite Hm1. unfold scale.
    replace (Zpos a * 2 ^ (53 - k) * 2 ^ 53) with (Zpos a * 2 ^ (60 - k) * 2 ^ 46).
    - change (Zpos (25 * 2 ^ 48)) with (100 * 2 ^ 46).
      apply Z.div_mul_cancel_r; lia.
    - rewrite <- !Z.mul_assoc, <- !Z.pow_add_r by lia. do 2 f_equal. lia. }
  rewrite Hq.
  set (q := Zpos a * scale / 100).
  assert (Hq100 : 100 * q <= Zpos a * scale < 100 * q + 100).
  { unfold q. pose proof (Z.mul_div_le (Zpos a * scale) 100 ltac:(lia)).
    pose proof (Z.mul_succ_div_gt (Zpos a * scale) 100 ltac:(lia)). lia. }
  destruct (binary_round_aux_near false q (k - 53 - -46 - 53)
              (new_location (Zpos (25 * 2 ^ 48))
                            (Zpos m1 * 2 ^ 53 mod Zpos (25 * 2 ^ 48))))
    as (M & E & -> & HE & HV).
  { change (2 ^ 59) with 576460752303423488 in HSa.
    change (2 ^ 60) with 1152921504606846976 in HSa.
    change (2 ^ 52) with 4503599627370496.
    change (2 ^ 54) with 18014398509481984. lia. }
  { lia. }
  rewrite int_of_float_neg by lia. f_equal.
  set (t := E - (k - 53 - -46 - 53)) in *.
  assert (HSt : scale = 2 ^ (- E) * 2 ^ t).
  { unfold scale, t. rewrite <- Z.pow_add_r by lia. f_equal. lia. }
  assert (Ht : 0 < 2 ^ t) by (apply Z.pow_pos_nonneg; lia).
  assert (HE2 : 0 < 2 ^ (- E)) by (apply Z.pow_pos_nonneg; lia).
  rewrite <- (Z.div_mul_cancel_r (Zpos M) (2 ^ (- E)) (2 ^ t)) by lia.
  rewrite <- HSt.
  set (V := Zpos M * 2 ^ t) in *.
  set (j := Zpos a / 100).
  assert (Hj : 100 * j <= Zpos a < 100 * j + 100).
  { unfold j. pose proof (Z.mul_div_le (Zpos a) 100 ltac:(lia)).
    pose proof (Z.mul_succ_div_gt (Zpos a) 100 ltac:(lia)). lia. }
  assert (HSeven : exists scale', scale = 2 * scale' /\ 128 <= scale').
  { exists (2 ^ (59 - k)). unfold scale.
    replace (60 - k) with (1 + (59 - k)) by lia.
    rewrite Z.pow_add_r by lia. split; [reflexivity|].
    change 128 with (2 ^ 7). apply Z.pow_le_mono_r; lia. }
  destruct HSeven as (scale' & HS' & _).
  assert (Hlow : j * scale <= V).
  { assert (j * scale <= q) by (apply Z.div_le_lower_bound; nia).
    assert (j * scale' <= q / 2) by (apply Z.div_le_lower_bound; nia).
    nia. }
  assert (Hhigh : V < (j + 1) * scale) by nia.
  symmetry. apply (Z.div_unique V scale j (V - scale * j)); nia.
Qed.

(** ** The species count and the split *)

Lemma nnuc_even (k : Z) : Setup.nnuc (2 * k) = k - 1.
Proof.
  unfold Setup.nnuc, Py.int, Py.truediv, Qdiv, Qinv, Qminus, Qplus, Qopp,
    Qmult, inject_Z. simpl.
  change (Z.pos (1 * 2 * 1)) with 2. change (Z.pos (1 * 2)) with 2.
  replace (2 * k * 1 * 1 + - (1) * 2) with ((k - 1) * 2) by lia.
  now rewrite Z.quot_mul.
Qed.

(** C5, as the code has it: for a dataset whose output tensor has an even
    channel width (a state half and a rate half) below 2^53, line 96
    returns a [nnuc] that is exactly [output_width/2 - 1], and
    [2*(nnuc+1)] gives the width back. *)
Theorem nnuc_exact_on_even_width (output_width : Z) :
  Z.even output_width = true ->
  0 <= output_width < 2 ^ 53 ->
  exists nnuc,
    Setup.nnuc_binary64 output_width = Some nnuc
    /\ (inject_Z nnuc == Py.truediv output_width 2 - 1)%Q
    /\ 2 * (nnuc + 1) = output_width.
Proof.
  intros Hev Hw. apply Z.even_spec in Hev. destruct Hev as [k ->].
  exists (k - 1).
  assert (Hq : (inject_Z (k - 1) == Py.truediv (2 * k) 2 - 1)%Q).
  { unfold Py.truediv, Qdiv, Qinv, Qminus, Qplus, Qopp, Qmult, inject_Z, Qeq.
    simpl. lia. }
  split; [|split; [exact Hq|lia]].
  destruct (Z.eq_dec k 0) as [->|Hk]; [reflexivity|].
  rewrite nnuc_binary64_exact by lia.
  now rewrite Z.mul_comm, Z.div_mul by lia.
Qed.

Lemma nnuc_exact_on_even_width_witness :
  exists nnuc,
    Setup.nnuc_binary64 28 = Some nnuc
    /\ (inject_Z nnuc == Py.truediv 28 2 - 1)%Q
    /\ 2 * (nnuc + 1) = 28.
Proof. apply (nnuc_exact_on_even_width 28); [reflexivity | lia]. Defined.

(** C5 fails on an odd width: at width 5 the code truncates 1.5 to
    [nnuc = 1], which is not [5/2 - 1], and [2*(nnuc+1)] is 4. *)
Lemma nnuc_odd_width_counterexample :
  Setup.nnuc_binary64 5 = Some 1
  /\ ~ (inject_Z 1 == Py.truediv 5 2 - 1)%Q
  /\ 2 * (1 + 1) <> 5.
Proof.
  split; [reflexivity|]. split.
  - unfold Qeq. vm_compute. discriminate.
  - discriminate.
Qed.

(** It also fails on an even width that binary64 does not hold: at width
    [2^54 + 2] the quotient [2^53 + 1] is rounded to [2^53], so [nnuc] is
    [2^53 - 1] and [2*(nnuc+1)] is [2^54]. *)
Example nnuc_wide_even_width :
  Z.even (2 ^ 54 + 2) = true
  /\ Setup.nnuc_binary64 (2 ^ 54 + 2) = Some (2 ^ 53 - 1)
  /\ 2 * ((2 ^ 53 - 1) + 1) <> 2 ^ 54 + 2.
Proof. split; [reflexivity|]. split; [reflexivity|discriminate]. Qed.

(** C6, as the code has it: for every dataset size [N >= 1] and test
    percentage [0 < percent < 100] whose product is below 2^52, line 119
    returns the floor of [N*percent/100], and the two split sizes add up
    to [N]. *)
Theorem split_sizes (N percent : Z) :
  1 <= N -> 0 < percent < 100 -> N * percent < 2 ^ 52 ->
  exists Num_test Num_train,
    Setup.Num_test_binary64 N percent = Some Num_test
    /\ Setup.Num_train_binary64 N percent = Some Num_train
    /\ Num_test = Qfloor (Py.truediv (N * percent) 100)
    /\ Num_test + Num_train = N.
Proof.
  intros HN Hp Hbound.
  assert (E : Setup.Num_test_binary64 N percent = Some (N * percent / 100))
    by (apply int_div_100_exact; nia).
  exists (N * percent / 100), (N - N * percent / 100).
  unfold Setup.Num_train_binary64. rewrite E.
  split; [reflexivity|]. split; [reflexivity|].
  split; [now rewrite floor_truediv|lia].
Qed.

Lemma split_sizes_witness :
  exists Num_test Num_train,
    Setup.Num_test_binary64 1234 10 = Some Num_test
    /\ Setup.Num_train_binary64 1234 10 = Some Num_train
    /\ Num_test = Qfloor (Py.truediv (1234 * 10) 100)
    /\ Num_test + Num_train = 1234.
Proof. apply (split_sizes 1234 10); [lia | lia | reflexivity]. Defined.

(** C6 fails on a large dataset: [N*percent] is a number binary64 holds
    (it is [7036874417766415 * 2^5]), so the quotient is rounded once,
    as in Python, and it is rounded up to the next integer: line 119
    returns the floor plus one. *)
Lemma split_sizes_counterexample :
  let N := 22517998136852528 in
  1 <= N
  /\ Qfloor (Py.truediv (N * 10) 100) = 2251799813685252
  /\ Setup.Num_test_binary64 N 10 = Some 2251799813685253
  /\ Py.of_int (N * 10) = S754_finite false 7036874417766415 5
  /\ 7036874417766415 * 2 ^ 5 = N * 10.
Proof.
  intros N. subst N. split; [lia|].
  split; [vm_compute; reflexivity|].
  split; [vm_compute; reflexivity|]. split; vm_compute; reflexivity.
Qed.

Example split_1234 :
  Setup.Num_test_binary64 1234 10 = Some 123
  /\ Setup.Num_train_binary64 1234 10 = Some 1111.
Proof. split; reflexivity. Qed.

(** ** The run guard and the persistence stage *)

Lemma append_line_lookup_ne (log name : string) (l : line) (d : FS.directory) :
  name <> log -> FS.append_line log l d !! name = d !! name.
Proof.
  intros Hne. unfold FS.append_line.
  destruct (d !! log) as [[ls| | |]|]; try reflexivity.
  now rewrite lookup_insert_ne.
Qed.

Ltac entries :=
  repeat match goal with
         | |- context [entry ?p] =>
             let v := eval vm_compute in (entry p) in change (entry p) with v
         end.

Ltac other_name H :=
  let E := fresh in
  intros E; first [rewrite <- E in H | rewrite E in H];
  vm_compute in H; discriminate H.

(** What one run of the persistence stage leaves in the directory. *)
Lemma save_model_entries (state_dict : list Torch.tensor) (h : histories)
    (w : world) (d : FS.directory) :
  outdir w = Some d ->
  exists d',
    outdir (save_model state_dict h w) = Some d'
    /\ d' !! primary = Some (FS.Checkpoint state_dict)
    /\ d' !! backup = match d !! primary with
                      | Some c => Some c
                      | None => d !! backup
                      end
    /\ forall name, FS.ends_with ".backup" name = true -> name <> backup ->
                    d' !! name = d !! name.
Proof.
  destruct w as [o t]. simpl. intros ->.
  unfold save_model, primary, backup. cbn. entries.
  assert (Hlog : forall l (d0 : FS.directory),
             FS.append_line "log.txt" l d0 !! "my_model_pinn.pt"
             = d0 !! "my_model_pinn.pt")
    by (intros; now apply append_line_lookup_ne).
  assert (Hlogb : forall l (d0 : FS.directory),
             FS.append_line "log.txt" l d0 !! "my_model_pinn.pt.backup"
             = d0 !! "my_model_pinn.pt.backup")
    by (intros; now apply append_line_lookup_ne).
  unfold FS.exists_. rewrite Hlog.
  destruct (d !! "my_model_pinn.pt") as [c|] eqn:Hc.
  - rewrite bool_decide_eq_true_2 by eauto. cbn.
    eexists. split; [reflexivity|]. unfold FS.write, FS.rename.
    rewrite !Hlog, Hc.
    split; [|split].
    + now rewrite !lookup_insert_ne, lookup_insert_eq by done.
    + rewrite !lookup_insert_ne by done. now rewrite lookup_insert_eq.
    + intros name Hb Hne.
      rewrite !lookup_insert_ne
        by (first [other_name Hb | intros E; apply Hne; symmetry; exact E]).
      rewrite lookup_delete_ne by other_name Hb.
      rewrite !append_line_lookup_ne by other_name Hb. reflexivity.
  - rewrite bool_decide_eq_false_2 by (intros [? ?]; discriminate). cbn.
    eexists. split; [reflexivity|]. unfold FS.write.
    split; [|split].
    + now rewrite !lookup_insert_ne, lookup_insert_eq by done.
    + rewrite !lookup_insert_ne by done. apply Hlogb.
    + intros name Hb Hne.
      rewrite !lookup_insert_ne
        by (first [other_name Hb | intros E; apply Hne; symmetry; exact E]).
      rewrite !append_line_lookup_ne by other_name Hb. reflexivity.
Qed.

(** C8: a checkpoint found at the target path is moved to the same path
    with the [.backup] suffix before the new one is written; two runs of
    the persistence stage on a directory without backup files leave one
    [.backup] file, holding the first run's weights, and the primary path
    holding the second run's weights. *)
Theorem checkpoint_backup (w : world) (d : FS.directory)
    (weights1 weights2 : list Torch.tensor) (h1 h2 : histories) :
  outdir w = Some d ->
  (forall c, d !! primary = Some c ->
     exists d1, outdir (save_model weights1 h1 w) = Some d1
                /\ d1 !! backup = Some c
                /\ d1 !! primary = Some (FS.Checkpoint weights1))
  /\ ((forall name, FS.ends_with ".backup" name = true -> d !! name = None) ->
      exists d2,
        outdir (save_model weights2 h2 (save_model weights1 h1 w)) = Some d2
        /\ d2 !! backup = Some (FS.Checkpoint weights1)
        /\ d2 !! primary = Some (FS.Checkpoint weights2)
        /\ forall name, FS.ends_with ".backup" name = true ->
                        is_Some (d2 !! name) -> name = backup).
Proof.
  intros Hd.
  destruct (save_model_entries weights1 h1 w d Hd) as (d1 & H1 & Hp1 & Hb1 & Ho1).
  split.
  - intros c Hc. exists d1. rewrite Hc in Hb1. auto.
  - intros Hnone.
    destruct (save_model_entries weights2 h2 _ d1 H1) as (d2 & H2 & Hp2 & Hb2 & Ho2).
    exists d2. rewrite Hp1 in Hb2. repeat split; auto.
    intros name Hb [c Hc].
    destruct (decide (name = backup)) as [|Hne]; [assumption|].
    rewrite Ho2, Ho1, Hnone in Hc by assumption. discriminate.
Qed.

Lemma checkpoint_backup_witness :
  let d : FS.directory := {[ primary := FS.Checkpoint [[[Py.fone]]] ]} in
  let w := World (Some d) [] in
  let h := Histories [] [] [] [] [] [] [] in
  outdir w = Some d
  /\ d !! primary = Some (FS.Checkpoint [[[Py.fone]]])
  /\ (forall name, FS.ends_with ".backup" name = true -> d !! name = None)
  /\ exists d2,
       outdir (save_model [[[Fixture.two]]] h (save_model [[[Py.fzero]]] h w))
       = Some d2
       /\ d2 !! backup = Some (FS.Checkpoint [[[Py.fzero]]])
       /\ d2 !! primary = Some (FS.Checkpoint [[[Fixture.two]]])
       /\ forall name, FS.ends_with ".backup" name = true ->
                       is_Some (d2 !! name) -> name = backup.
Proof.
  intros d w h.
  assert (Hnone : forall name, FS.ends_with ".backup" name = true ->
                               d !! name = None).
  { intros name Hb. unfold d. apply lookup_singleton_ne. other_name Hb. }
  split; [reflexivity|]. split; [reflexivity|]. split; [exact Hnone|].
  exact (proj2 (checkpoint_backup w d [[[Py.fzero]]] [[[Fixture.two]]] h h
                  eq_refl) Hnone).
Defined.

(** C7: when the output directory exists and is not empty, the script
    reports the conflict on the terminal and exits at once: the directory
    is left exactly as it was, so no metric file, log file or checkpoint
    is created or modified. *)
Theorem run_guard_exits_first
    (cfg : config) (output_width : Z)
    (train_loader test_loader : nat -> list (Torch.tensor * Torch.tensor))
    (model : Torch.Network) (theta0 : list Torch.tensor)
    (optimizer : Optimizer) (opt0 : opt_state optimizer)
    (L1Loss MSELoss : Torch.diff2) (losses_module : Losses)
    (dt_string : string)
    (do_all_plots : list Torch.tensor -> histories -> FS.directory -> FS.directory)
    (w : world) (d : FS.directory) :
  outdir w = Some d -> d <> ∅ ->
  let o := driver cfg output_width train_loader test_loader model theta0
                  optimizer opt0 L1Loss MSELoss losses_module dt_string
                  do_all_plots w in
  status o = Py.Raise Py.SystemExit
  /\ outdir (final o) = Some d
  /\ terminal (final o)
     = terminal w
       ++ [Text "Directory fix_plot/ exists and is not empty.";
           Text "Please change output_dir or remove the directory to prevent overwritting data."].
Proof.
  intros Hd Hne o. subst o. unfold driver.
  assert (Huse : output_dir_in_use w = true).
  { unfold output_dir_in_use. rewrite Hd.
    destruct (size d =? 0)%nat eqn:Hs; [|reflexivity].
    apply Nat.eqb_eq, map_size_empty_iff in Hs. contradiction. }
  rewrite Huse. cbn. rewrite Hd, <- app_assoc. auto.
Qed.

Lemma run_guard_exits_first_witness :
  let d : FS.directory := {[ "log.txt" := FS.LogFile [] ]} in
  let o := Fixture.run (World (Some d) []) in
  status o = Py.Raise Py.SystemExit
  /\ outdir (final o) = Some d
  /\ terminal (final o)
     = [Text "Directory fix_plot/ exists and is not empty.";
        Text "Please change output_dir or remove the directory to prevent overwritting data."].
Proof.
  intros d o.
  refine (run_guard_exits_first _ _ _ _ _ _ _ _ _ _ _ _ _
            (World (Some d) []) d eq_refl _).
  intros E. apply (f_equal (fun m : FS.directory => m !! "log.txt")) in E.
  vm_compute in E. discriminate E.
Defined.

(** On a fresh location the same run goes through and leaves the log,
    the checkpoint and the five metric files. *)
Example fresh_run_writes :
  let o := Fixture.run (World None []) in
  status o = Py.Ok tt
  /\ (dom <$> outdir (final o))
     = Some (list_to_set
               ["log.txt"; "my_model_pinn.pt"; "cost_per_epoch.txt";
                "component_losses_test.txt"; "component_losses_train.txt";
                "d_component_losses_test.txt"; "d_component_losses_train.txt"]
             : gset string).
Proof. split; vm_compute; reflexivity. Qed.

(** ** The loss composer *)

Section Criterion.
Import Torch Engine.

Variable nnuc : nat.
Variable L1Loss : diff2.
Variable L : Losses.

(** C2: the total the loss composer returns for backpropagation is the
    state (log-difference) loss plus the L1 loss on the derivatives plus
    the derivative-sign loss plus the mass-conservation loss, as a value
    and as a graph; the relative loss has no part in what is returned; the
    breakdown is the list of the four sub-losses as plain numbers, which
    carry no graph. *)
Theorem criterion_total (data pred dXdt : var tensor) (actual : tensor) :
  let state_loss := apply2 (log_loss L) pred (const (cols_to (nnuc + 1) actual)) in
  let magnitude_loss := apply2 L1Loss dXdt (const (cols_from (nnuc + 1) actual)) in
  let sign_loss := apply2 (signed_loss_function L) dXdt
                          (const (cols_from (nnuc + 1) actual)) in
  let mass_loss := apply1 (loss_mass_fraction L) pred in
  let total := (criterion nnuc L1Loss L data pred dXdt actual).1 in
  let loss_arr := (criterion nnuc L1Loss L data pred dXdt actual).2 in
  val total
  = Py.fadd (Py.fadd (Py.fadd (val state_loss) (val magnitude_loss))
                     (val sign_loss))
            (val mass_loss)
  /\ (forall g,
        grad_fn total g
        = ((grad_fn state_loss g ++ grad_fn magnitude_loss g)
           ++ grad_fn sign_loss g) ++ grad_fn mass_loss g)
  /\ loss_arr = [item state_loss; item magnitude_loss; item sign_loss;
                 item mass_loss]
  /\ (forall L' : Losses,
        log_loss L' = log_loss L ->
        signed_loss_function L' = signed_loss_function L ->
        loss_mass_fraction L' = loss_mass_fraction L ->
        criterion nnuc L1Loss L' data pred dXdt actual
        = criterion nnuc L1Loss L data pred dXdt actual).
Proof.
  cbn zeta. split; [reflexivity|]. split; [reflexivity|].
  split; [reflexivity|].
  intros L' H1 H3 H5. unfold criterion. now rewrite H1, H3, H5.
Qed.

(** *** Accumulation into the leaves *)

Lemma accumulate_other (gs : gmap leaf tensor) (c : leaf * tensor) (l : leaf) :
  c.1 <> l -> accumulate gs c !! l = gs !! l.
Proof.
  intros Hne. unfold accumulate.
  destruct (gs !! c.1); now rewrite lookup_insert_ne.
Qed.

Lemma accumulate_local (gs gs' : gmap leaf tensor) (c : leaf * tensor) (l : leaf) :
  gs !! l = gs' !! l -> accumulate gs c !! l = accumulate gs' c !! l.
Proof.
  intros Heq. destruct (decide (c.1 = l)) as [E|Hne].
  - unfold accumulate. rewrite E, <- Heq.
    destruct (gs !! l); now rewrite !lookup_insert_eq.
  - now rewrite !accumulate_other.
Qed.

Lemma foldl_accumulate_local (cs : list (leaf * tensor))
    (gs gs' : gmap leaf tensor) (l : leaf) :
  gs !! l = gs' !! l ->
  foldl accumulate gs cs !! l = foldl accumulate gs' cs !! l.
Proof.
  revert gs gs'. induction cs as [|c cs IH]; intros gs gs' Heq; [exact Heq|].
  simpl. apply IH. now apply accumulate_local.
Qed.

Lemma foldl_accumulate_other (cs : list (leaf * tensor))
    (gs : gmap leaf tensor) (l : leaf) :
  Forall (fun c => c.1 <> l) cs -> foldl accumulate gs cs !! l = gs !! l.
Proof.
  revert gs. induction cs as [|c cs IH]; intros gs Hcs; [reflexivity|].
  inversion Hcs; subst. simpl. rewrite IH by assumption.
  now apply accumulate_other.
Qed.

End Criterion.

(** ** Tensors *)

Section TensorFacts.
Import Torch.

Lemma shape_length (t u : tensor) : shape t = shape u -> length t = length u.
Proof.
  unfold shape. intros H. apply (f_equal length) in H.
  now rewrite !length_map in H.
Qed.

Lemma shape_lookup (t u : tensor) (b : nat) (row : list Py.float) :
  shape t = shape u -> t !! b = Some row ->
  exists row', u !! b = Some row' /\ length row' = length row.
Proof.
  unfold shape. intros H Hb.
  assert (Hl : map length t !! b = Some (length row))
    by (now rewrite list_lookup_fmap, Hb).
  rewrite H, list_lookup_fmap in Hl.
  destruct (u !! b) as [row'|]; [|discriminate].
  injection Hl as Hl. eauto.
Qed.

Lemma zeros_like_shape (t : tensor) : shape (zeros_like t) = shape t.
Proof.
  unfold shape, zeros_like. rewrite <- list_fmap_compose.
  apply list_fmap_ext. intros _ row _. simpl. apply length_map.
Qed.

Lemma zeros_like_by_shape (t u : tensor) :
  shape t = shape u -> zeros_like t = zeros_like u.
Proof.
  unfold shape, zeros_like. revert u.
  induction t as [|r t IH]; intros [|r' u] H; try discriminate; [reflexivity|].
  simpl in *. injection H as Hr Ht. f_equal; [|now apply IH].
  clear -Hr. revert r' Hr.
  induction r as [|x r IH]; intros [|x' r'] Hr; try discriminate; [reflexivity|].
  simpl in *. f_equal. apply IH. lia.
Qed.

(** Accumulating into a zeroed gradient. *)
Lemma add_zeros_shape (g gx : tensor) :
  shape g = shape gx -> shape (add (zeros_like g) gx) = shape gx.
Proof.
  unfold shape, add, zeros_like. revert gx.
  induction g as [|r g IH]; intros [|r' gx] H; try discriminate; [reflexivity|].
  simpl in *. injection H as Hr Ht. f_equal; [|now apply IH].
  rewrite length_zip_with, length_map. lia.
Qed.

Lemma add_zeros_at (g gx : tensor) (b j : nat) :
  shape g = shape gx ->
  at_ (add (zeros_like g) gx) b j = Py.fadd Py.fzero <$> at_ gx b j.
Proof.
  unfold shape, add, zeros_like, at_. revert gx b.
  induction g as [|r g IH]; intros [|r' gx] b H; try discriminate.
  - now destruct b.
  - simpl in H. injection H as Hr Ht. destruct b as [|b]; simpl.
    + clear -Hr. revert r' j Hr.
      induction r as [|x r IH]; intros [|x' r'] j Hr; try discriminate.
      * now destruct j.
      * destruct j as [|j]; simpl; [reflexivity|]. apply IH. simpl in Hr. lia.
    + now apply IH.
Qed.

Lemma fadd_zero_same (x : Py.float) : Py.same_number (Py.fadd Py.fzero x) x.
Proof.
  destruct x as [[|]| | |]; unfold Py.same_number; simpl; eauto.
Qed.

(** [t[:, n]] *)
Lemma select_ok (n : nat) (t : tensor) :
  Forall (fun row : list Py.float => (n < length row)%nat) t ->
  exists v, select n t = Py.Ok v
            /\ length v = length t
            /\ forall b, (b < length t)%nat -> v !! b = at_ t b n.
Proof.
  unfold select, at_. induction 1 as [|row t Hrow Ht IH].
  - exists []. simpl. repeat split.
  - destruct IH as (v & Hsel & Hlen & Hat).
    destruct (lookup_lt_is_Some_2 row n Hrow) as [x Hx].
    exists (x :: v). cbn.
    destruct (mapM (fun row0 : list Py.float => row0 !! n) t) as [v'|] eqn:E;
      [|discriminate].
    injection Hsel as ->. rewrite Hx. cbn. repeat split; [simpl; lia|].
    intros [|b] Hb; simpl; [now rewrite Hx|]. apply Hat. simpl in Hb. lia.
Qed.

(** [t[:, n] = v] *)
Lemma set_col_ok (n : nat) (v : vector) (t : tensor) :
  length v = length t ->
  Forall (fun row : list Py.float => (n < length row)%nat) t ->
  exists t', set_col n v t = Py.Ok t'
             /\ shape t' = shape t
             /\ (forall b, (b < length t)%nat -> at_ t' b n = v !! b)
             /\ (forall b m, m <> n -> at_ t' b m = at_ t b m).
Proof.
  intros Hlen Hcols. unfold set_col.
  rewrite Hlen, Nat.eqb_refl. simpl.
  assert (Hall : forallb (fun row : list Py.float => (n <? length row)%nat) t = true).
  { apply forallb_forall. intros row Hin. apply Nat.ltb_lt.
    rewrite Forall_forall in Hcols. apply Hcols. now apply list_elem_of_In. }
  rewrite Hall. eexists. split; [reflexivity|].
  clear Hall. unfold shape, at_. revert v Hlen.
  induction Hcols as [|row t Hrow Ht IH]; intros [|x v] Hlen; try discriminate.
  - repeat split; intros; simpl in *; try lia.
  - simpl in Hlen. injection Hlen as Hlen.
    destruct (IH v Hlen) as (Hs & Hn & Hm). simpl.
    split; [|split].
    + f_equal; [apply length_insert | exact Hs].
    + intros [|b] Hb; simpl; [now apply list_lookup_insert_eq|].
      apply Hn. simpl in Hb. lia.
    + intros [|b] m Hne; simpl; [now apply list_lookup_insert_ne|].
      now apply Hm.
Qed.

Lemma select_backward_shape (n : nat) (t : tensor) (g : vector) :
  length g = length t -> shape (select_backward n t g) = shape t.
Proof.
  unfold shape, select_backward. revert g.
  induction t as [|row t IH]; intros [|x g] H; try discriminate; [reflexivity|].
  simpl in *. f_equal; [|apply IH; lia].
  now rewrite length_insert, length_map.
Qed.

End TensorFacts.

(** ** The loops of the script *)

Lemma for_each_range {S : Type} (body : nat -> S -> Py.result S)
    (Inv : nat -> S -> Prop) (len a : nat) (s : S) :
  Inv a s ->
  (forall n s0, (a <= n < a + len)%nat -> Inv n s0 ->
                exists s1, body n s0 = Py.Ok s1 /\ Inv (Datatypes.S n) s1) ->
  exists s', for_each body (seq a len) s = Py.Ok s' /\ Inv (a + len)%nat s'.
Proof.
  revert a s. induction len as [|len IH]; intros a s Hinv Hstep.
  - exists s. rewrite Nat.add_0_r. now split.
  - simpl. destruct (Hstep a s) as (s1 & -> & Hinv1); [lia|assumption|].
    destruct (IH (Datatypes.S a) s1 Hinv1) as (s' & Hs' & Hinv').
    { intros n s0 Hn. apply Hstep. lia. }
    exists s'. split; [assumption|].
    now replace (a + Datatypes.S len)%nat with (Datatypes.S a + len)%nat by lia.
Qed.

(** ** The differentiator *)

Section Differentiator.
Import Torch Engine.

Variable nnuc : nat.
Variable model : Network.
Variable theta : list tensor.
Variable data_t : tensor.

Local Abbreviation prediction := (call model theta (leaf_var LData data_t)).

Hypothesis shapes : well_shaped nnuc model theta data_t.

Lemma param_contributions_not_data (gtheta : list tensor) :
  Forall (fun c : leaf * tensor => c.1 <> LData)
         (imap (fun i gi => (LParam i, gi)) gtheta).
Proof.
  apply Forall_forall. intros c Hc.
  apply elem_of_lookup_imap_1 in Hc. destruct Hc as (i & gi & -> & _).
  discriminate.
Qed.

(** What one backward pass through a channel leaves on the input. *)
Lemma channel_backward (n : nat) (v : vector) (s : autograd) :
  length v = length (val prediction) ->
  freed s = false ->
  (forall g, grads s !! LData = Some g -> shape g = shape data_t) ->
  let G := (net_vjp model theta data_t
              (select_backward n (val prediction) (ones_like v))).1 in
  let s1 := match grads s !! LData with
            | Some _ => zero_ LData s
            | None => s
            end in
  exists s2 g',
    backward (Var v (fun g => grad_fn prediction
                                (select_backward n (val prediction) g)))
             (ones_like v) true s1 = Py.Ok s2
    /\ freed s2 = false
    /\ grads s2 !! LData = Some g'
    /\ shape g' = shape data_t
    /\ shape G = shape data_t
    /\ forall b, at_ g' b 0 = at_ G b 0
                 \/ at_ g' b 0 = Py.fadd Py.fzero <$> at_ G b 0.
Proof.
  intros Hv Hfree Hshape G s1.
  destruct shapes as (Hrows & Hcols & Hfirst & Hvjp).
  assert (HG : shape G = shape data_t).
  { apply Hvjp. apply select_backward_shape.
    unfold ones_like. now rewrite length_map. }
  unfold backward.
  assert (Hfree1 : freed s1 = false).
  { subst s1. destruct (grads s !! LData); assumption. }
  rewrite Hfree1. clear Hfree1.
  subst G. cbn [grad_fn val prediction call leaf_var] in *.
  destruct (net_vjp model theta data_t
              (select_backward n (forward model theta data_t) (ones_like v)))
    as [gx gtheta] eqn:Evjp.
  cbn [fst] in *.
  eexists.
  destruct (grads s !! LData) as [g|] eqn:Eg.
  - exists (add (zeros_like g) gx). split; [reflexivity|].
    cbn [freed grads negb]. split; [reflexivity|].
    rewrite foldl_app, foldl_accumulate_other
      by apply param_contributions_not_data.
    assert (Hs1 : grads s1 !! LData = Some (zeros_like g)).
    { subst s1. unfold zero_. cbn [grads]. now rewrite lookup_alter_eq, Eg. }
    cbn [foldl]. unfold accumulate at 1. cbn [fst snd]. rewrite Hs1.
    rewrite lookup_insert_eq.
    assert (Hg : shape g = shape gx) by (rewrite HG; now apply Hshape).
    split; [reflexivity|]. split; [|split; [assumption|]].
    + now rewrite add_zeros_shape.
    + intros b. right. now apply add_zeros_at.
  - exists gx. split; [reflexivity|].
    cbn [freed grads negb]. split; [reflexivity|].
    rewrite foldl_app, foldl_accumulate_other
      by apply param_contributions_not_data.
    cbn [foldl]. unfold accumulate at 1. cbn [fst snd]. subst s1. rewrite Eg.
    rewrite lookup_insert_eq.
    split; [reflexivity|]. split; [assumption|]. split; [assumption|].
    intros b. now left.
Qed.


Lemma shape_Forall (P : nat -> Prop) (t u : tensor) :
  shape t = shape u ->
  Forall (fun row : list Py.float => P (length row)) u ->
  Forall (fun row : list Py.float => P (length row)) t.
Proof.
  intros Hs Hu. apply Forall_lookup. intros b row Hb.
  destruct (shape_lookup t u b row Hs Hb) as (row' & Hb' & <-).
  rewrite Forall_lookup in Hu. exact (Hu b row' Hb').
Qed.

Lemma at_is_Some (t : tensor) (b n : nat) :
  (b < length t)%nat ->
  Forall (fun row : list Py.float => (n < length row)%nat) t ->
  is_Some (at_ t b n).
Proof.
  intros Hb Hcols. unfold at_.
  destruct (lookup_lt_is_Some_2 t b Hb) as [row Hrow]. rewrite Hrow. cbn.
  apply lookup_lt_is_Some_2. rewrite Forall_lookup in Hcols.
  exact (Hcols b row Hrow).
Qed.

Lemma differentiator_channel_unfold (pred : var tensor) (n : nat)
    (dXdt : tensor) (s : autograd) :
  differentiator_channel pred n (dXdt, s)
  = match select n (val pred) with
    | Py.Raise e => Py.Raise e
    | Py.Ok v =>
        match backward (Var v (fun g => grad_fn pred
                                          (select_backward n (val pred) g)))
                       (ones_like v) true
                       (match grads s !! LData with
                        | Some _ => zero_ LData s
                        | None => s
                        end) with
        | Py.Raise e => Py.Raise e
        | Py.Ok s2 =>
            match grads s2 !! LData with
            | None => Py.Raise Py.AttributeError
            | Some g =>
                match select 0 g with
                | Py.Raise e => Py.Raise e
                | Py.Ok g0 =>
                    match set_col n g0 dXdt with
                    | Py.Raise e => Py.Raise e
                    | Py.Ok dXdt' => Py.Ok (dXdt', zero_ LData s2)
                    end
                end
            end
        end
    end.
Proof.
  unfold differentiator_channel, select_var.
  destruct (select n (val pred)) as [v|e]; [|reflexivity].
  cbn [mbind result_bind Py.bind val].
  match goal with |- context [backward ?c ?o ?r ?st] =>
    destruct (backward c o r st) as [s2|e] end; [|reflexivity].
  cbn [mbind result_bind Py.bind].
  destruct (grads s2 !! LData) as [g|]; [|reflexivity].
  cbn [mbind result_bind Py.bind].
  destruct (select 0 g) as [g0|e]; [|reflexivity].
  cbn [mbind result_bind Py.bind].
  destruct (set_col n g0 dXdt); reflexivity.
Qed.

Lemma differentiator_channel_step (n : nat) (acc : tensor * autograd) :
  (n <= nnuc)%nat ->
  differentiator_invariant model theta data_t n acc ->
  exists acc', differentiator_channel prediction n acc = Py.Ok acc'
               /\ differentiator_invariant model theta data_t (S n) acc'.
Proof.
  intros Hn (Hshape & Hfree & Hgrad & _ & Hcols).
  destruct acc as [dXdt s]. cbn [fst snd] in *.
  pose proof shapes as (Hrows & Hwide & Hfirst & Hvjp).
  assert (Hwide_n : Forall (fun row : list Py.float => (n < length row)%nat)
                           (forward model theta data_t)).
  { eapply Forall_impl; [exact Hwide|]. simpl. intros; lia. }
  destruct (select_ok n _ Hwide_n) as (v & Hsel & Hvlen & Hvat).
  destruct (channel_backward n v s Hvlen Hfree Hgrad)
    as (s2 & g' & Hback & Hfree2 & Hg' & Hg'shape & HG & Hg'at).
  change (val prediction) with (forward model theta data_t) in *.
  assert (Hg'first : Forall (fun row : list Py.float => (0 < length row)%nat) g').
  { now apply (shape_Forall (fun l => (0 < l)%nat) g' data_t). }
  destruct (select_ok 0 g' Hg'first) as (g0 & Hsel0 & Hg0len & Hg0at).
  assert (Hlen : length g0 = length dXdt).
  { rewrite Hg0len, (shape_length _ _ Hg'shape), <- Hrows.
    symmetry. now apply shape_length. }
  assert (HdXdt : Forall (fun row : list Py.float => (n < length row)%nat) dXdt).
  { now apply (shape_Forall (fun l => (n < l)%nat) dXdt
                 (forward model theta data_t)). }
  destruct (set_col_ok n g0 dXdt Hlen HdXdt) as (dXdt' & Hset & Hs' & Hcol & Hrest).
  exists (dXdt', zero_ LData s2). split.
  - rewrite differentiator_channel_unfold.
    change (val prediction) with (forward model theta data_t).
    rewrite Hsel, Hback, Hg', Hsel0, Hset. reflexivity.
  - unfold differentiator_invariant. cbn [fst snd].
    assert (Hz : grads (zero_ LData s2) !! LData = Some (zeros_like data_t)).
    { unfold zero_. cbn [grads]. rewrite lookup_alter_eq, Hg'. cbn.
      f_equal. now apply zeros_like_by_shape. }
    split; [congruence|]. split; [exact Hfree2|]. split; [|split; [auto|]].
    + intros g. rewrite Hz. intros [= <-]. apply zeros_like_shape.
    + intros m b Hm Hb.
      destruct (decide (m = n)) as [->|Hne].
      * assert (Hbg : (b < length g')%nat)
          by (now rewrite (shape_length _ _ Hg'shape)).
        set (G := (net_vjp model theta data_t
                     (select_backward n (forward model theta data_t)
                                      (ones_like v))).1) in *.
        assert (HGfirst : Forall (fun row : list Py.float => (0 < length row)%nat) G).
        { now apply (shape_Forall (fun l => (0 < l)%nat) G data_t). }
        assert (HbG : (b < length G)%nat)
          by (now rewrite (shape_length _ _ HG)).
        destruct (at_is_Some G b 0 HbG HGfirst) as [gv Hgv].
        exists G, gv.
        assert (Hx : at_ dXdt' b n = at_ g' b 0).
        { rewrite Hcol by (rewrite <- Hlen, Hg0len; exact Hbg).
          now apply Hg0at. }
        destruct (Hg'at b) as [E|E]; rewrite E, Hgv in Hx; cbn in Hx.
        -- exists gv. repeat split; auto.
           unfold channel_gradient. now rewrite Hsel.
        -- exists (Py.fadd Py.fzero gv). repeat split; auto.
           unfold channel_gradient. now rewrite Hsel.
      * destruct (Hcols m b) as (G & gv & x & HGm & Hgv & Hx & Hrel);
          [lia|assumption|].
        exists G, gv, x. rewrite Hrest by assumption. auto.
Qed.

(** The differentiator, from any state with a live graph in which the
    input has no gradient or one of its own shape. *)
Lemma differentiator_spec (s : autograd) :
  freed s = false ->
  (forall g, grads s !! LData = Some g -> shape g = shape data_t) ->
  exists acc, differentiator nnuc prediction s = Py.Ok acc
              /\ differentiator_invariant model theta data_t (nnuc + 1) acc.
Proof.
  intros Hfree Hgrad. unfold differentiator.
  apply (for_each_range (differentiator_channel prediction)
           (differentiator_invariant model theta data_t) (nnuc + 1) 0).
  - unfold differentiator_invariant. cbn [fst snd val call].
    split; [apply zeros_like_shape|]. split; [assumption|].
    split; [assumption|]. split; intros; lia.
  - intros n acc Hn. apply differentiator_channel_step. lia.
Qed.

End Differentiator.

Section IdentityNetwork.
Import Torch Engine.

Variable nnuc : nat.
Variable model : Network.
Variable theta : list tensor.
Variable data_t : tensor.

Hypothesis identity : identity_on (nnuc + 1) model theta.
Hypothesis wide : Forall (fun row : list Py.float => (nnuc < length row)%nat) data_t.

Lemma pad_like_length (K : nat) (xrow grow : list Py.float) :
  length (pad_like K xrow grow) = length xrow.
Proof. unfold pad_like. apply length_imap. Qed.

Lemma identity_well_shaped : well_shaped nnuc model theta data_t.
Proof.
  unfold well_shaped. destruct (identity data_t) as [Hfwd Hvjp].
  rewrite Hfwd. split; [apply length_map|]. split; [|split].
  - apply Forall_fmap. eapply Forall_impl; [exact wide|].
    intros row Hrow. unfold compose. cbv beta in *. rewrite length_take. lia.
  - eapply Forall_impl; [exact wide|]. simpl. intros; lia.
  - intros g Hg. rewrite Hvjp. apply shape_length in Hg.
    rewrite length_map in Hg. clear -Hg. unfold shape.
    revert g Hg. induction data_t as [|row t IH]; intros [|grow g] Hg;
      try discriminate; [reflexivity|].
    simpl in *. f_equal; [apply pad_like_length | apply IH; lia].
Qed.

(** The first input channel of the gradient of channel [n] of the
    identity: one for channel 0, zero for the others. *)
Lemma identity_channel_gradient (n b : nat) (G : tensor) :
  (n <= nnuc)%nat -> (b < length data_t)%nat ->
  channel_gradient model theta data_t n = Py.Ok G ->
  at_ G b 0 = Some (if (n =? 0)%nat then Py.fone else Py.fzero).
Proof.
  intros Hn Hb. unfold channel_gradient.
  destruct (identity data_t) as [Hfwd Hvjp]. rewrite Hfwd.
  destruct (select n (map (take (nnuc + 1)) data_t)) as [v|e] eqn:Hsel;
    [|discriminate].
  rewrite Hvjp. intros [= <-].
  assert (Hv : length v = length data_t).
  { unfold select in Hsel.
    destruct (mapM (fun row : list Py.float => row !! n)
                   (map (take (nnuc + 1)) data_t)) as [v'|] eqn:E;
      [|discriminate].
    injection Hsel as <-. apply length_mapM in E.
    now rewrite length_map in E. }
  destruct (lookup_lt_is_Some_2 data_t b Hb) as [xrow Hx].
  assert (Hxrow : (nnuc < length xrow)%nat).
  { rewrite Forall_lookup in wide. exact (wide b xrow Hx). }
  unfold at_, select_backward, ones_like.
  destruct (lookup_lt_is_Some_2 v b ltac:(lia)) as [y Hy].
  rewrite lookup_zip_with, Hx. cbn.
  rewrite lookup_zip_with, !list_lookup_fmap, Hx, Hy. cbn.
  unfold pad_like. rewrite list_lookup_imap.
  destruct xrow as [|x0 xrow]; [simpl in Hxrow; lia|]. cbn.
  replace (nnuc + 1)%nat with (S nnuc) by lia. cbn.
  destruct n as [|n]; reflexivity.
Qed.

End IdentityNetwork.

(** C1: on a batch whose tensors have the shapes the script relies on,
    with a live graph, whether or not a residual gradient sits on the
    input, the differentiator returns a [dXdt] of the prediction's shape
    whose column [n], for each [n] in [0..nnuc], is the first input channel
    of the gradient of prediction channel [n] seeded with ones; the input
    gradient is left zeroed and the graph retained; for a network that is
    the identity on the first [nnuc+1] input channels, channel 0 of [dXdt]
    is 1 and every other channel is 0. *)
Theorem differentiator_correct (nnuc : nat) (model : Torch.Network)
    (theta : list Torch.tensor) (data_t : Torch.tensor) (s : autograd) :
  Torch.well_shaped nnuc model theta data_t ->
  freed s = false ->
  (forall g, grads s !! Torch.LData = Some g ->
             Torch.shape g = Torch.shape data_t) ->
  exists dXdt s',
    differentiator nnuc (Torch.call model theta (Torch.leaf_var Torch.LData data_t)) s
    = Py.Ok (dXdt, s')
    /\ Torch.shape dXdt = Torch.shape (Torch.forward model theta data_t)
    /\ (forall n b, (n <= nnuc)%nat -> (b < length data_t)%nat ->
          exists G gv x,
            Torch.channel_gradient model theta data_t n = Py.Ok G
            /\ Torch.at_ G b 0 = Some gv
            /\ Torch.at_ dXdt b n = Some x
            /\ Py.same_number x gv)
    /\ grads s' !! Torch.LData = Some (Torch.zeros_like data_t)
    /\ freed s' = false
    /\ (Torch.identity_on (nnuc + 1) model theta ->
        forall b, (b < length data_t)%nat ->
          Torch.at_ dXdt b 0 = Some Py.fone
          /\ forall n, (1 <= n <= nnuc)%nat ->
                       Torch.at_ dXdt b n = Some Py.fzero).
Proof.
  intros Hws Hfree Hgrad.
  destruct (differentiator_spec nnuc model theta data_t Hws s Hfree Hgrad)
    as ([dXdt s'] & Hrun & Hshape & Hfree' & _ & Hzero & Hcols).
  cbn [fst snd] in *. exists dXdt, s'.
  split; [exact Hrun|]. split; [exact Hshape|]. split; [|split; [|split]].
  - intros n b Hn Hb.
    destruct (Hcols n b) as (G & gv & x & HG & Hgv & Hx & Hrel); [lia|assumption|].
    exists G, gv, x. repeat split; try assumption.
    destruct Hrel as [->| ->]; [now left | apply fadd_zero_same].
  - apply Hzero. lia.
  - exact Hfree'.
  - intros Hid b Hb.
    assert (Hwide : Forall (fun row : list Py.float => (nnuc < length row)%nat) data_t).
    { destruct Hws as (_ & Hw & _). destruct (Hid data_t) as [Hfwd _].
      rewrite Hfwd in Hw. rewrite Forall_fmap in Hw.
      eapply Forall_impl; [exact Hw|]. intros row. cbn.
      rewrite length_take. lia. }
    assert (Hval : forall n, (n <= nnuc)%nat ->
              Torch.at_ dXdt b n
              = Some (if (n =? 0)%nat then Py.fone else Py.fzero)).
    { intros n Hn.
      destruct (Hcols n b) as (G & gv & x & HG & Hgv & Hx & Hrel);
        [lia|assumption|].
      rewrite (identity_channel_gradient nnuc model theta data_t Hid Hwide
                 n b G Hn Hb HG) in Hgv.
      injection Hgv as <-. rewrite Hx. f_equal.
      destruct Hrel as [->| ->]; [reflexivity|].
      destruct (n =? 0)%nat; reflexivity. }
    split; [apply (Hval 0%nat); lia|].
    intros n Hn. rewrite Hval by lia.
    destruct n; [lia|reflexivity].
Qed.

Lemma differentiator_correct_witness :
  let s := Engine.new_batch (Autograd ∅ false) in
  exists dXdt s',
    differentiator 1 (Torch.call (Fixture.identity_net 2) []
                        (Torch.leaf_var Torch.LData Fixture.data)) s
    = Py.Ok (dXdt, s')
    /\ Torch.shape dXdt = [2; 2]%nat
    /\ Torch.at_ dXdt 1 0 = Some Py.fone
    /\ Torch.at_ dXdt 1 1 = Some Py.fzero.
Proof.
  intros s.
  assert (Hid : Torch.identity_on (1 + 1) (Fixture.identity_net 2) []).
  { intros x. split; [reflexivity|]. intros g. reflexivity. }
  assert (Hwide : Forall (fun row : list Py.float => (1 < length row)%nat)
                         Fixture.data).
  { repeat constructor. }
  destruct (differentiator_correct 1 (Fixture.identity_net 2) [] Fixture.data s
              (identity_well_shaped 1 _ _ _ Hid Hwide) eq_refl
              ltac:(intros g Hg; vm_compute in Hg; discriminate Hg))
    as (dXdt & s' & Hrun & Hshape & _ & _ & _ & Hone).
  exists dXdt, s'. split; [exact Hrun|]. split; [exact Hshape|].
  destruct (Hone Hid 1%nat ltac:(vm_compute; lia)) as [H0 H1].
  split; [exact H0|]. apply H1. lia.
Defined.


(** ** What reaches the parameters *)

Lemma for_each_preserves {A S : Type} (body : A -> S -> Py.result S)
    (P : S -> Prop) (xs : list A) (s s' : S) :
  (forall x s0 s1, body x s0 = Py.Ok s1 -> P s0 -> P s1) ->
  P s -> for_each body xs s = Py.Ok s' -> P s'.
Proof.
  intros Hbody. revert s. induction xs as [|x xs IH]; intros s Hs; simpl.
  - now intros [= <-].
  - destruct (body x s) as [s1|e] eqn:E; [|discriminate].
    apply IH. exact (Hbody x s s1 E Hs).
Qed.

Section Backpropagation.
Import Torch Engine.

Variable nnuc : nat.
Variable model : Network.
Variable L1Loss : diff2.
Variable L : Losses.

Lemma backward_retains {A : Type} (v : var A) (seed : A) (s s' : autograd) :
  backward v seed true s = Py.Ok s' -> freed s' = false.
Proof.
  unfold backward. destruct (freed s); [discriminate|]. now intros [= <-].
Qed.

(** The differentiator hands the graph on alive. *)
Lemma differentiator_keeps_graph (prediction : var tensor)
    (s s' : autograd) (dXdt : tensor) :
  freed s = false ->
  differentiator nnuc prediction s = Py.Ok (dXdt, s') -> freed s' = false.
Proof.
  intros Hfree Hrun. unfold differentiator in Hrun.
  apply (for_each_preserves (differentiator_channel prediction)
           (fun acc => freed acc.2 = false) _ _ _) in Hrun;
    [exact Hrun| |exact Hfree].
  intros n [d s0] [d1 s1] Hstep _. cbn [snd].
  rewrite differentiator_channel_unfold in Hstep.
  destruct (select n (val prediction)) as [v|]; [|discriminate].
  match type of Hstep with context [backward ?c ?o true ?st] =>
    destruct (backward c o true st) as [s2|] eqn:Hback end; [|discriminate].
  destruct (grads s2 !! LData) as [g|]; [|discriminate].
  destruct (select 0 g) as [g0|]; [|discriminate].
  destruct (set_col n g0 d); [|discriminate].
  injection Hstep as _ <-. unfold zero_. cbn [freed].
  exact (backward_retains _ _ _ _ Hback).
Qed.

(** A loss of the derivative batch and the targets reaches one leaf: the
    derivative batch itself. *)
Lemma derivative_loss_leaves (f : diff2) (dXdt_t target : tensor) (g : Py.float) :
  Forall (fun c : leaf * tensor => c.1 = LdXdt)
         (grad_fn (apply2 f (leaf_var LdXdt dXdt_t) (const target)) g).
Proof.
  unfold apply2. cbn [grad_fn val leaf_var const].
  destruct (vjp2 f dXdt_t target g) as [ga gb]. repeat constructor.
Qed.

Lemma only_dXdt_not_param (cs : list (leaf * tensor)) (i : nat) :
  Forall (fun c : leaf * tensor => c.1 = LdXdt) cs ->
  Forall (fun c : leaf * tensor => c.1 <> LParam i) cs.
Proof.
  intros H. eapply Forall_impl; [exact H|]. cbv beta. intros c ->. discriminate.
Qed.

Lemma param_grads_ext (theta : list tensor) (s s' : autograd) :
  (forall i, grads s !! LParam i = grads s' !! LParam i) ->
  param_grads theta s = param_grads theta s'.
Proof. intros H. unfold param_grads. apply imap_ext. intros i _ _. apply H. Qed.

(** C3: the derivative batch handed to the loss composer is a plain
    tensor made a leaf, so no gradient flows from it to a parameter;
    backpropagating the total loss leaves on every parameter the gradient
    that the state loss plus the mass-conservation loss alone would leave,
    and backpropagating the derivative-magnitude loss or the
    derivative-sign loss changes no parameter gradient. *)
Theorem derivative_losses_do_not_train (theta : list tensor)
    (data_t targets : tensor) (s0 : autograd) (dXdt_t : tensor) (s : autograd) :
  let data := leaf_var LData data_t in
  let prediction := call model theta data in
  let dXdt := leaf_var LdXdt dXdt_t in
  let state_loss := apply2 (log_loss L) prediction
                           (const (cols_to (nnuc + 1) targets)) in
  let magnitude_loss := apply2 L1Loss dXdt (const (cols_from (nnuc + 1) targets)) in
  let sign_loss := apply2 (signed_loss_function L) dXdt
                          (const (cols_from (nnuc + 1) targets)) in
  let mass_loss := apply1 (loss_mass_fraction L) prediction in
  let loss := (criterion nnuc L1Loss L data prediction dXdt targets).1 in
  differentiator nnuc prediction (new_batch s0) = Py.Ok (dXdt_t, s) ->
  (forall g, Forall (fun c : leaf * tensor => is_param c.1 = false)
                    (grad_fn dXdt g))
  /\ (exists after_total after_state_mass,
        backward loss Py.fone false (zero_grad s) = Py.Ok after_total
        /\ backward (add_var state_loss mass_loss) Py.fone false (zero_grad s)
           = Py.Ok after_state_mass
        /\ (forall i, grads after_total !! LParam i
                      = grads after_state_mass !! LParam i)
        /\ param_grads theta after_total = param_grads theta after_state_mass)
  /\ (forall g after,
        backward magnitude_loss g false (zero_grad s) = Py.Ok after
        \/ backward sign_loss g false (zero_grad s) = Py.Ok after ->
        forall i, grads after !! LParam i = grads (zero_grad s) !! LParam i).
Proof.
  intros data prediction dXdt state_loss magnitude_loss sign_loss mass_loss
    loss Hrun.
  assert (Hfree : freed (zero_grad s) = false).
  { unfold zero_grad. cbn [freed].
    exact (differentiator_keeps_graph prediction (new_batch s0) s dXdt_t
             eq_refl Hrun). }
  split; [|split].
  - intros g. repeat constructor.
  - unfold backward. rewrite Hfree.
    eexists. eexists. split; [reflexivity|]. split; [reflexivity|].
    assert (Hparams : forall i,
      foldl accumulate (grads (zero_grad s)) (grad_fn loss Py.fone) !! LParam i
      = foldl accumulate (grads (zero_grad s))
              (grad_fn (add_var state_loss mass_loss) Py.fone) !! LParam i).
    { intros i.
      change (grad_fn loss Py.fone)
        with (((grad_fn state_loss Py.fone ++ grad_fn magnitude_loss Py.fone)
               ++ grad_fn sign_loss Py.fone) ++ grad_fn mass_loss Py.fone).
      change (grad_fn (add_var state_loss mass_loss) Py.fone)
        with (grad_fn state_loss Py.fone ++ grad_fn mass_loss Py.fone).
      rewrite !foldl_app. apply foldl_accumulate_local.
      rewrite foldl_accumulate_other
        by apply only_dXdt_not_param, derivative_loss_leaves.
      apply foldl_accumulate_other, only_dXdt_not_param, derivative_loss_leaves. }
    cbn [grads]. split; [exact Hparams|].
    apply param_grads_ext. exact Hparams.
  - intros g after Hback i.
    unfold backward in Hback. rewrite Hfree in Hback.
    destruct Hback as [[= <-]|[= <-]]; cbn [grads];
      apply foldl_accumulate_other, only_dXdt_not_param, derivative_loss_leaves.
Qed.

End Backpropagation.

Lemma derivative_losses_do_not_train_witness :
  exists dXdt_t s after_total after_state_mass,
    let data := Torch.leaf_var Torch.LData Fixture.data in
    let prediction := Torch.call (Fixture.bias_net 2) [Fixture.bias] data in
    let dXdt := Torch.leaf_var Torch.LdXdt dXdt_t in
    differentiator 1 prediction (Engine.new_batch (Autograd ∅ false))
    = Py.Ok (dXdt_t, s)
    /\ Engine.backward
         (criterion 1 Fixture.zero2 Fixture.zero_losses data prediction dXdt
                    Fixture.targets).1
         Py.fone false (Engine.zero_grad s) = Py.Ok after_total
    /\ Engine.backward
         (Torch.add_var
            (Torch.apply2 (log_loss Fixture.zero_losses) prediction
                          (Torch.const (Torch.cols_to (1 + 1) Fixture.targets)))
            (Torch.apply1 (loss_mass_fraction Fixture.zero_losses) prediction))
         Py.fone false (Engine.zero_grad s) = Py.Ok after_state_mass
    /\ param_grads [Fixture.bias] after_total
       = param_grads [Fixture.bias] after_state_mass.
Proof.
  eexists. eexists.
  assert (Hrun :
    differentiator 1
      (Torch.call (Fixture.bias_net 2) [Fixture.bias]
                  (Torch.leaf_var Torch.LData Fixture.data))
      (Engine.new_batch (Autograd ∅ false))
    = Py.Ok ([[Py.fone; Py.fzero]; [Py.fone; Py.fzero]],
             Autograd (<[Torch.LData := Torch.zeros_like Fixture.data]>
                         (<[Torch.LParam 0 :=
                              [[Py.fone; Py.fone]; [Py.fone; Py.fone]]]> ∅))
                      false)).
  { vm_compute. reflexivity. }
  destruct (derivative_losses_do_not_train 1 (Fixture.bias_net 2) Fixture.zero2
              Fixture.zero_losses [Fixture.bias] Fixture.data Fixture.targets
              _ _ _ Hrun)
    as (_ & (after_total & after_state_mass & H1 & H2 & _ & H3) & _).
  exists after_total, after_state_mass.
  split; [exact Hrun|]. split; [exact H1|]. split; [exact H2|exact H3].
Defined.


(** ** The epoch loop *)

Section Epoch.
Import Torch Engine.

Variable cfg : config.
Variable nnuc : nat.
Variable model : Network.
Variables L1Loss MSELoss : diff2.
Variable L : Losses.
Variable optimizer : Optimizer.

Local Abbreviation pstate := (state optimizer).
Local Abbreviation train_step :=
  (train_batch nnuc model L1Loss MSELoss L optimizer).
Local Abbreviation test_step := (test_batch nnuc model MSELoss L optimizer).
Local Abbreviation report_of :=
  (batch_report nnuc model L1Loss MSELoss L optimizer).

Lemma new_batch_ready (s : autograd) (data_t : tensor) :
  freed (new_batch s) = false
  /\ forall g, grads (new_batch s) !! LData = Some g -> shape g = shape data_t.
Proof.
  unfold new_batch. cbn [freed grads]. split; [reflexivity|].
  intros g. rewrite lookup_delete_ne, lookup_delete_eq by discriminate.
  discriminate.
Qed.

Lemma train_batch_contract (i : nat) (b : batch) (st : pstate) :
  well_shaped nnuc model (theta optimizer st) b.1 ->
  (i = 0%nat \/ exists idx c d, vars optimizer st = LoopVars idx (Some c) (Some d)) ->
  exists st' r,
    train_step (i, b) st = Py.Ok st'
    /\ report_of st (i, b) = Py.Ok r
    /\ lists optimizer st' = train_lists r (lists optimizer st)
    /\ accumulate_components i (loss_c r) (dloss_c r) (vars optimizer st)
       = Py.Ok (vars optimizer st')
    /\ hist optimizer st' = hist optimizer st
    /\ stdout optimizer st' = stdout optimizer st.
Proof.
  destruct b as [data_t targets]. cbn [fst]. intros Hws Hvars.
  destruct (new_batch_ready (ag optimizer st) data_t) as [Hfree Hgrad].
  destruct (differentiator_spec nnuc model (theta optimizer st) data_t Hws
              (new_batch (ag optimizer st)) Hfree Hgrad)
    as ([dXdt_t s] & Hrun & _ & Hfree' & _).
  cbn [fst snd] in Hfree'.
  unfold train_batch, batch_report.
  rewrite Hrun. cbn [mbind result_bind Py.bind].
  destruct (criterion nnuc L1Loss L (leaf_var LData data_t)
              (call model (theta optimizer st) (leaf_var LData data_t))
              (leaf_var LdXdt dXdt_t) targets) as [loss array_loss].
  assert (Hz : freed (zero_grad s) = false) by exact Hfree'.
  unfold backward. rewrite Hz. cbn [mbind result_bind Py.bind].
  destruct (step optimizer _ _ _) as [opt' theta'].
  match goal with |- context [accumulate_components i ?c ?d ?v] =>
    assert (Hacc : exists v', accumulate_components i c d v = Py.Ok v') end.
  { unfold accumulate_components.
    destruct (i =? 0)%nat eqn:Ei; [eauto|].
    destruct Hvars as [->|(idx & c & d & ->)]; [discriminate|]. cbn. eauto. }
  destruct Hacc as [v' Hacc]. rewrite Hacc. cbn [mbind result_bind Py.bind].
  eexists. eexists. split; [reflexivity|]. split; [reflexivity|].
  cbn. auto.
Qed.

Lemma test_batch_contract (i : nat) (b : batch) (st : pstate) :
  well_shaped nnuc model (theta optimizer st) b.1 ->
  (i = 0%nat \/ exists idx c d, vars optimizer st = LoopVars idx (Some c) (Some d)) ->
  exists st' r,
    test_step (i, b) st = Py.Ok st'
    /\ report_of st (i, b) = Py.Ok r
    /\ lists optimizer st' = test_lists r (lists optimizer st)
    /\ accumulate_components i (loss_c r) (dloss_c r) (vars optimizer st)
       = Py.Ok (vars optimizer st')
    /\ hist optimizer st' = hist optimizer st
    /\ stdout optimizer st' = stdout optimizer st.
Proof.
  destruct b as [data_t targets]. cbn [fst]. intros Hws Hvars.
  destruct (new_batch_ready (ag optimizer st) data_t) as [Hfree Hgrad].
  destruct (differentiator_spec nnuc model (theta optimizer st) data_t Hws
              (new_batch (ag optimizer st)) Hfree Hgrad)
    as ([dXdt_t s] & Hrun & _).
  unfold test_batch, batch_report.
  rewrite Hrun. cbn [mbind result_bind Py.bind].
  destruct (criterion nnuc L1Loss L (leaf_var LData data_t)
              (call model (theta optimizer st) (leaf_var LData data_t))
              (leaf_var LdXdt dXdt_t) targets) as [loss array_loss].
  match goal with |- context [accumulate_components i ?c ?d ?v] =>
    assert (Hacc : exists v', accumulate_components i c d v = Py.Ok v') end.
  { unfold accumulate_components.
    destruct (i =? 0)%nat eqn:Ei; [eauto|].
    destruct Hvars as [->|(idx & c & d & ->)]; [discriminate|]. cbn. eauto. }
  destruct Hacc as [v' Hacc]. rewrite Hacc. cbn [mbind result_bind Py.bind].
  eexists. eexists. split; [reflexivity|]. split; [reflexivity|].
  cbn. auto 10.
Qed.


Section Loop.

Variable body : nat * batch -> pstate -> Py.result pstate.
Variable grow : report -> epoch_lists -> epoch_lists.

Hypothesis body_contract : forall i b st,
  well_shaped nnuc model (theta optimizer st) b.1 ->
  (i = 0%nat \/ exists idx c d, vars optimizer st = LoopVars idx (Some c) (Some d)) ->
  exists st' r,
    body (i, b) st = Py.Ok st'
    /\ report_of st (i, b) = Py.Ok r
    /\ lists optimizer st' = grow r (lists optimizer st)
    /\ accumulate_components i (loss_c r) (dloss_c r) (vars optimizer st)
       = Py.Ok (vars optimizer st')
    /\ hist optimizer st' = hist optimizer st
    /\ stdout optimizer st' = stdout optimizer st.

Lemma loop_from (bs : list batch) (k : nat) (st : pstate)
    (idx : option nat) (c d : Np.array) :
  (0 < k)%nat ->
  vars optimizer st = LoopVars idx (Some c) (Some d) ->
  (forall th b, b ∈ bs -> well_shaped nnuc model th b.1) ->
  exists st' rs,
    for_each body (imap (fun i b => ((k + i)%nat, b)) bs) st = Py.Ok st'
    /\ replay body report_of (imap (fun i b => ((k + i)%nat, b)) bs) st
       = map Py.Ok rs
    /\ length rs = length bs
    /\ lists optimizer st' = foldl (fun l r => grow r l) (lists optimizer st) rs
    /\ vars optimizer st'
       = LoopVars (match rs with
                   | [] => idx
                   | _ => Some (k + length rs - 1)%nat
                   end)
                  (Some (fold_left Np.add (map loss_c rs) c))
                  (Some (fold_left Np.add (map dloss_c rs) d))
    /\ hist optimizer st' = hist optimizer st
    /\ stdout optimizer st' = stdout optimizer st.
Proof.
  revert k st idx c d. induction bs as [|b bs IH]; intros k st idx c d Hk Hv Hws.
  - exists st, []. cbn. rewrite Hv. auto 10.
  - destruct (body_contract (k + 0)%nat b st) as (st1 & r & Hb & Hr & Hl & Ha & Hh & Ho).
    { apply Hws. left. }
    { right. eauto. }
    assert (Hv1 : vars optimizer st1
                  = LoopVars (Some (k + 0)%nat) (Some (Np.add c (loss_c r)))
                             (Some (Np.add d (dloss_c r)))).
    { unfold accumulate_components in Ha. rewrite Hv in Ha.
      destruct (k + 0 =? 0)%nat eqn:E;
        [apply Nat.eqb_eq in E; lia|].
      cbn in Ha. now injection Ha as <-. }
    destruct (IH (S k) st1 _ _ _ ltac:(lia) Hv1) as (st' & rs & Hf & Hp & Hlen & Hl' & Hv' & Hh' & Ho').
    { intros th b' Hin. apply Hws. now right. }
    assert (Himap : imap ((fun i b0 => ((k + i)%nat, b0)) ∘ S) bs
                    = imap (fun i b0 => ((S k + i)%nat, b0)) bs).
    { apply imap_ext. intros i x _. cbn. f_equal. lia. }
    exists st', (r :: rs). cbn [imap for_each replay]. rewrite Hb, Hr, Himap.
    split; [exact Hf|]. split; [now rewrite Hp|].
    split; [cbn [length]; now rewrite Hlen|].
    split; [cbn [foldl]; now rewrite Hl', Hl|].
    split; [|split; congruence].
    rewrite Hv'. cbn [map fold_left length]. f_equal.
    destruct rs; f_equal; cbn [length]; lia.
Qed.

Lemma loop_from_zero (bs : list batch) (st : pstate) :
  (forall th b, b ∈ bs -> well_shaped nnuc model th b.1) ->
  exists st' rs,
    for_each body (enumerate bs) st = Py.Ok st'
    /\ replay body report_of (enumerate bs) st = map Py.Ok rs
    /\ length rs = length bs
    /\ lists optimizer st' = foldl (fun l r => grow r l) (lists optimizer st) rs
    /\ (bs = [] -> vars optimizer st' = vars optimizer st)
    /\ (bs <> [] ->
        vars optimizer st'
        = LoopVars (Some (length bs - 1)%nat)
                   (Some (Np.sum_axis0 (map loss_c rs)))
                   (Some (Np.sum_axis0 (map dloss_c rs))))
    /\ hist optimizer st' = hist optimizer st
    /\ stdout optimizer st' = stdout optimizer st.
Proof.
  intros Hws. destruct bs as [|b bs].
  - exists st, []. cbn. repeat split; auto. intros H. now contradiction H.
  - destruct (body_contract 0%nat b st) as (st1 & r & Hb & Hr & Hl & Ha & Hh & Ho).
    { apply Hws. left. }
    { now left. }
    assert (Hv1 : vars optimizer st1
                  = LoopVars (Some 0%nat) (Some (loss_c r)) (Some (dloss_c r))).
    { cbn in Ha. now injection Ha as <-. }
    destruct (loop_from bs 1 st1 _ _ _ ltac:(lia) Hv1)
      as (st' & rs & Hf & Hp & Hlen & Hl' & Hv' & Hh' & Ho').
    { intros th b' Hin. apply Hws. now right. }
    assert (Himap : imap ((fun i (x : batch) => (i, x)) ∘ S) bs
                    = imap (fun i b0 => ((1 + i)%nat, b0)) bs).
    { apply imap_ext. intros i x _. reflexivity. }
    exists st', (r :: rs). unfold enumerate. cbn [imap for_each replay].
    rewrite Hb, Hr, Himap.
    split; [exact Hf|]. split; [now rewrite Hp|].
    split; [cbn [length]; now rewrite Hlen|].
    split; [cbn [foldl]; now rewrite Hl', Hl|].
    split; [discriminate|]. split; [|split; congruence].
    intros _. rewrite Hv'. cbn [map Np.sum_axis0 length]. f_equal.
    destruct rs; cbn [length] in *; f_equal; lia.
Qed.

End Loop.

Lemma train_lists_fold (rs : list report) (l : epoch_lists) :
  foldl (fun l r => train_lists r l) l rs
  = EpochLists (losses l ++ map total_loss rs)
               (plotting_losses l ++ map plotting_loss rs)
               (diff_losses l ++ map breakdown rs).
Proof.
  revert l. induction rs as [|r rs IH]; intros [a b c]; cbn.
  - now rewrite !app_nil_r.
  - rewrite IH. cbn. now rewrite <- !app_assoc.
Qed.

Lemma test_lists_fold (rs : list report) (l : epoch_lists) :
  foldl (fun l r => test_lists r l) l rs
  = EpochLists (losses l ++ map plotting_loss rs) (plotting_losses l)
               (diff_losses l).
Proof.
  revert l. induction rs as [|r rs IH]; intros [a b c]; cbn.
  - now rewrite !app_nil_r.
  - rewrite IH. cbn. now rewrite <- !app_assoc.
Qed.

Lemma mean_nonempty (xs : list Py.float) :
  xs <> [] ->
  Py.mean xs = Py.Ok (Py.fdiv (Py.sum xs) (Py.of_int (Z.of_nat (length xs)))).
Proof.
  intros Hne. unfold Py.mean, Py.div_int.
  destruct xs; [contradiction|]. reflexivity.
Qed.

(** One epoch, on batches of the right shapes. *)
Lemma run_epoch_spec (epoch : nat) (train test : list batch) (st : pstate) :
  (forall th b, b ∈ train ++ test -> well_shaped nnuc model th b.1) ->
  train <> [] ->
  DO_PLOTTING cfg = true ->
  exists st1 st2 rs_train rs_test st',
    for_each train_step (enumerate train) (begin_epoch optimizer st) = Py.Ok st1
    /\ replay train_step report_of (enumerate train) (begin_epoch optimizer st)
       = map Py.Ok rs_train
    /\ length rs_train = length train
    /\ after_training optimizer epoch st1 = Py.Ok st2
    /\ replay test_step report_of (enumerate test) st2 = map Py.Ok rs_test
    /\ length rs_test = length test
    /\ run_epoch cfg nnuc model L1Loss MSELoss L optimizer epoch train test st
       = Py.Ok st'
    /\ component_losses_train (hist optimizer st')
       = component_losses_train (hist optimizer st)
         ++ [Np.div_int (Np.sum_axis0 (map loss_c rs_train))
                        (Z.of_nat (length train) - 1)]
    /\ d_component_losses_train (hist optimizer st')
       = d_component_losses_train (hist optimizer st)
         ++ [Np.div_int (Np.sum_axis0 (map dloss_c rs_train))
                        (Z.of_nat (length train) - 1)]
    /\ (test <> [] ->
        component_losses_test (hist optimizer st')
        = component_losses_test (hist optimizer st)
          ++ [Np.div_int (Np.sum_axis0 (map loss_c rs_test))
                         (Z.of_nat (length test) - 1)]
        /\ d_component_losses_test (hist optimizer st')
           = d_component_losses_test (hist optimizer st)
             ++ [Np.div_int (Np.sum_axis0 (map dloss_c rs_test))
                            (Z.of_nat (length test) - 1)])
    /\ exists m,
         Py.mean (map total_loss rs_train ++ map plotting_loss rs_test) = Py.Ok m
         /\ cost_per_epoc_test (hist optimizer st')
            = cost_per_epoc_test (hist optimizer st) ++ [m].
Proof.
  intros Hws Htrain Hplot.
  destruct (loop_from_zero train_step train_lists train_batch_contract train
              (begin_epoch optimizer st))
    as (st1 & rs_train & Hf1 & Hp1 & Hlen1 & Hl1 & _ & Hv1 & Hh1 & Ho1).
  { intros th b Hin. apply Hws. apply elem_of_app. now left. }
  specialize (Hv1 Htrain).
  rewrite train_lists_fold in Hl1. cbn in Hl1, Hh1, Ho1.
  assert (Hrs : rs_train <> []).
  { intros ->. destruct train; [contradiction|discriminate]. }
  assert (Hidx : Z.of_nat (length train - 1) = Z.of_nat (length train) - 1).
  { destruct train; [contradiction|]. cbn [length]. lia. }
  assert (Hst2 : exists st2', after_training optimizer epoch st1 = Py.Ok st2'
            /\ vars optimizer st2'
               = LoopVars (Some (length train - 1)%nat)
                          (Some (Np.sum_axis0 (map loss_c rs_train)))
                          (Some (Np.sum_axis0 (map dloss_c rs_train)))
            /\ lists optimizer st2'
               = EpochLists (map total_loss rs_train)
                            (map plotting_loss rs_train)
                            (map breakdown rs_train)
            /\ component_losses_train (hist optimizer st2')
               = component_losses_train (hist optimizer st)
                 ++ [Np.div_int (Np.sum_axis0 (map loss_c rs_train))
                                (Z.of_nat (length train) - 1)]
            /\ d_component_losses_train (hist optimizer st2')
               = d_component_losses_train (hist optimizer st)
                 ++ [Np.div_int (Np.sum_axis0 (map dloss_c rs_train))
                                (Z.of_nat (length train) - 1)]
            /\ component_losses_test (hist optimizer st2')
               = component_losses_test (hist optimizer st)
            /\ d_component_losses_test (hist optimizer st2')
               = d_component_losses_test (hist optimizer st)
            /\ cost_per_epoc_test (hist optimizer st2')
               = cost_per_epoc_test (hist optimizer st)).
  { unfold after_training. rewrite Hl1, Hv1, Hh1.
    cbn [losses plotting_losses diff_losses component_loss batch_idx
         d_component_loss read].
    rewrite !mean_nonempty
      by (intros E; apply Hrs; now apply map_eq_nil in E).
    cbn [mbind result_bind Py.bind]. rewrite Hidx.
    eexists. split; [reflexivity|]. cbn. auto 10. }
  destruct Hst2 as (st2' & Est2 & Hv2 & Hl2 & Hct & Hdt & Hce & Hde & Hcc).
  destruct (loop_from_zero test_step test_lists test_batch_contract test st2')
    as (st3 & rs_test & Hf3 & Hp3 & Hlen3 & Hl3 & Hv3e & Hv3 & Hh3 & Ho3).
  { intros th b Hin. apply Hws. apply elem_of_app. now right. }
  rewrite test_lists_fold, Hl2 in Hl3. cbn in Hl3.
  assert (Hnonempty : map total_loss rs_train ++ map plotting_loss rs_test <> []).
  { intros E. apply app_eq_nil in E. destruct E as [E _].
    apply Hrs. now apply map_eq_nil in E. }
  assert (Hvars3 : exists i c d, vars optimizer st3 = LoopVars (Some i) (Some c) (Some d)
            /\ (test <> [] ->
                i = (length test - 1)%nat
                /\ c = Np.sum_axis0 (map loss_c rs_test)
                /\ d = Np.sum_axis0 (map dloss_c rs_test))).
  { destruct test as [|b test].
    - rewrite Hv3e, Hv2 by reflexivity. do 3 eexists. split; [reflexivity|].
      intros H. now contradiction H.
    - rewrite Hv3 by discriminate. do 3 eexists. split; [reflexivity|]. auto. }
  destruct Hvars3 as (i3 & c3 & d3 & Hv3' & Htest).
  exists st1, st2', rs_train, rs_test.
  eexists.
  split; [exact Hf1|]. split; [exact Hp1|]. split; [exact Hlen1|].
  split; [exact Est2|]. split; [exact Hp3|]. split; [exact Hlen3|].
  split.
  { unfold run_epoch. rewrite Hf1. cbn [mbind result_bind Py.bind].
    rewrite Est2, Hplot. cbn [mbind result_bind Py.bind].
    rewrite Hf3. cbn [mbind result_bind Py.bind].
    unfold after_testing. rewrite Hl3, Hv3', Hh3.
    cbn [losses component_loss batch_idx d_component_loss read].
    rewrite mean_nonempty by exact Hnonempty.
    cbn [mbind result_bind Py.bind]. reflexivity. }
  cbn [hist component_losses_train d_component_losses_train
       component_losses_test d_component_losses_test cost_per_epoc_test].
  split; [exact Hct|]. split; [exact Hdt|]. split.
  - intros Hne. destruct (Htest Hne) as (-> & -> & ->).
    rewrite Hce, Hde.
    replace (Z.of_nat (length test - 1)) with (Z.of_nat (length test) - 1)
      by (destruct test; [contradiction|cbn [length]; lia]).
    split; reflexivity.
  - eexists. split; [apply mean_nonempty; exact Hnonempty|].
    now rewrite Hcc.
Qed.


(** C4: in every epoch, the entry appended to each per-component history
    (train and test, component and derivative-component) is the sum of
    that loop's per-batch component losses divided by the last batch index
    of the loop, the number of batches minus one, not by the number of
    batches. *)
Theorem component_average_divides_by_last_index
    (epoch : nat) (train test : list batch) (st : pstate) :
  (forall th b, b ∈ train ++ test -> well_shaped nnuc model th b.1) ->
  train <> [] ->
  DO_PLOTTING cfg = true ->
  exists st1 st2 rs_train rs_test st',
    replay train_step report_of (enumerate train) (begin_epoch optimizer st)
    = map Py.Ok rs_train
    /\ length rs_train = length train
    /\ for_each train_step (enumerate train) (begin_epoch optimizer st) = Py.Ok st1
    /\ after_training optimizer epoch st1 = Py.Ok st2
    /\ replay test_step report_of (enumerate test) st2 = map Py.Ok rs_test
    /\ length rs_test = length test
    /\ run_epoch cfg nnuc model L1Loss MSELoss L optimizer epoch train test st
       = Py.Ok st'
    /\ component_losses_train (hist optimizer st')
       = component_losses_train (hist optimizer st)
         ++ [Np.div_int (Np.sum_axis0 (map loss_c rs_train))
                        (Z.of_nat (length train) - 1)]
    /\ d_component_losses_train (hist optimizer st')
       = d_component_losses_train (hist optimizer st)
         ++ [Np.div_int (Np.sum_axis0 (map dloss_c rs_train))
                        (Z.of_nat (length train) - 1)]
    /\ (test <> [] ->
        component_losses_test (hist optimizer st')
        = component_losses_test (hist optimizer st)
          ++ [Np.div_int (Np.sum_axis0 (map loss_c rs_test))
                         (Z.of_nat (length test) - 1)]
        /\ d_component_losses_test (hist optimizer st')
           = d_component_losses_test (hist optimizer st)
             ++ [Np.div_int (Np.sum_axis0 (map dloss_c rs_test))
                            (Z.of_nat (length test) - 1)]).
Proof.
  intros Hws Htrain Hplot.
  destruct (run_epoch_spec epoch train test st Hws Htrain Hplot)
    as (st1 & st2 & rs_train & rs_test & st' & H1 & H2 & H3 & H4 & H5 & H6
        & H7 & H8 & H9 & H10 & _).
  exists st1, st2, rs_train, rs_test, st'. auto 12.
Qed.

(** C9: with evaluation enabled, the value appended to the test cost
    history is the mean over the epoch's per-batch training total losses
    followed by the test batches' plotting losses: the [losses] list is
    not reset between the two loops. *)
Theorem test_cost_mixes_training_losses
    (epoch : nat) (train test : list batch) (st : pstate) :
  (forall th b, b ∈ train ++ test -> well_shaped nnuc model th b.1) ->
  train <> [] ->
  DO_PLOTTING cfg = true ->
  exists st1 st2 rs_train rs_test st' m,
    replay train_step report_of (enumerate train) (begin_epoch optimizer st)
    = map Py.Ok rs_train
    /\ length rs_train = length train
    /\ for_each train_step (enumerate train) (begin_epoch optimizer st) = Py.Ok st1
    /\ after_training optimizer epoch st1 = Py.Ok st2
    /\ replay test_step report_of (enumerate test) st2 = map Py.Ok rs_test
    /\ length rs_test = length test
    /\ run_epoch cfg nnuc model L1Loss MSELoss L optimizer epoch train test st
       = Py.Ok st'
    /\ Py.mean (map total_loss rs_train ++ map plotting_loss rs_test) = Py.Ok m
    /\ cost_per_epoc_test (hist optimizer st')
       = cost_per_epoc_test (hist optimizer st) ++ [m].
Proof.
  intros Hws Htrain Hplot.
  destruct (run_epoch_spec epoch train test st Hws Htrain Hplot)
    as (st1 & st2 & rs_train & rs_test & st' & H1 & H2 & H3 & H4 & H5 & H6
        & H7 & _ & _ & _ & m & Hm & Hcost).
  exists st1, st2, rs_train, rs_test, st', m. auto 12.
Qed.

Lemma div_by_zero_not_finite (a : Np.array) :
  Forall (fun x => Py.isfinite x = false) (Np.div_int a 0).
Proof.
  unfold Np.div_int. induction a as [|x a IH]; constructor; [|exact IH].
  destruct x as [[|]|[|]| |[|] m e]; reflexivity.
Qed.

Lemma div_int_zero (a : Np.array) : Np.div_int a 0 = map Py.over_zero a.
Proof.
  unfold Np.div_int. apply map_ext. intros x.
  destruct x as [[|]|[|]| |[|] m e]; reflexivity.
Qed.

Lemma over_zero_not_finite (a : Np.array) :
  Forall (fun x => Py.isfinite x = false) (map Py.over_zero a).
Proof. rewrite <- div_int_zero. apply div_by_zero_not_finite. Qed.

Lemma sum_axis0_single (a : Np.array) : Np.sum_axis0 [a] = a.
Proof. reflexivity. Qed.

(** C10: when a loader yields exactly one batch in an epoch, the last
    batch index is zero, and the entry appended to each of that loop's two
    per-component histories is the batch's component losses divided by
    zero, number by number: one entry per component, NaN where the loss
    is a zero or NaN and an infinity elsewhere, never a finite number. A
    training loader that yields no batch makes the epoch raise. So an
    appended entry that holds a finite number comes from a loop of at
    least two batches. *)
Theorem single_batch_average_not_finite
    (epoch : nat) (train test : list batch) (st : pstate) :
  (forall th b, b ∈ train ++ test -> well_shaped nnuc model th b.1) ->
  DO_PLOTTING cfg = true ->
  (train = [] ->
   run_epoch cfg nnuc model L1Loss MSELoss L optimizer epoch train test st
   = Py.Raise Py.ZeroDivisionError)
  /\ (train <> [] ->
      exists st1 st2 rs_train rs_test st',
        replay train_step report_of (enumerate train) (begin_epoch optimizer st)
        = map Py.Ok rs_train
        /\ length rs_train = length train
        /\ for_each train_step (enumerate train) (begin_epoch optimizer st)
           = Py.Ok st1
        /\ after_training optimizer epoch st1 = Py.Ok st2
        /\ replay test_step report_of (enumerate test) st2 = map Py.Ok rs_test
        /\ length rs_test = length test
        /\ run_epoch cfg nnuc model L1Loss MSELoss L optimizer epoch train test st
           = Py.Ok st'
        /\ (length train = 1%nat ->
            exists r,
              rs_train = [r]
              /\ component_losses_train (hist optimizer st')
                 = component_losses_train (hist optimizer st)
                   ++ [map Py.over_zero (loss_c r)]
              /\ d_component_losses_train (hist optimizer st')
                 = d_component_losses_train (hist optimizer st)
                   ++ [map Py.over_zero (dloss_c r)]
              /\ Forall (fun x => Py.isfinite x = false)
                        (map Py.over_zero (loss_c r))
              /\ Forall (fun x => Py.isfinite x = false)
                        (map Py.over_zero (dloss_c r)))
        /\ (length test = 1%nat ->
            exists r,
              rs_test = [r]
              /\ component_losses_test (hist optimizer st')
                 = component_losses_test (hist optimizer st)
                   ++ [map Py.over_zero (loss_c r)]
              /\ d_component_losses_test (hist optimizer st')
                 = d_component_losses_test (hist optimizer st)
                   ++ [map Py.over_zero (dloss_c r)]
              /\ Forall (fun x => Py.isfinite x = false)
                        (map Py.over_zero (loss_c r))
              /\ Forall (fun x => Py.isfinite x = false)
                        (map Py.over_zero (dloss_c r)))
        /\ (forall c x,
              last (component_losses_train (hist optimizer st')) = Some c
              \/ last (d_component_losses_train (hist optimizer st')) = Some c ->
              x ∈ c -> Py.isfinite x = true -> (2 <= length train)%nat)
        /\ (forall c x,
              test <> [] ->
              last (component_losses_test (hist optimizer st')) = Some c
              \/ last (d_component_losses_test (hist optimizer st')) = Some c ->
              x ∈ c -> Py.isfinite x = true -> (2 <= length test)%nat)).
Proof.
  intros Hws Hplot. split.
  - intros ->. reflexivity.
  - intros Htrain.
    destruct (run_epoch_spec epoch train test st Hws Htrain Hplot)
      as (st1 & st2 & rs_train & rs_test & st' & Hf1 & Hp1 & Hlen1 & Hst2
          & Hp2 & Hlen2 & Hrun & Hc & Hd & Htest & _).
    exists st1, st2, rs_train, rs_test, st'.
    do 7 (split; [assumption|]).
    assert (Hone : length train = 1%nat ->
              exists r, rs_train = [r]
                /\ component_losses_train (hist optimizer st')
                   = component_losses_train (hist optimizer st)
                     ++ [map Py.over_zero (loss_c r)]
                /\ d_component_losses_train (hist optimizer st')
                   = d_component_losses_train (hist optimizer st)
                     ++ [map Py.over_zero (dloss_c r)]).
    { intros Hlen. rewrite Hlen in Hlen1, Hc, Hd.
      destruct rs_train as [|r [|? ?]]; try discriminate Hlen1.
      exists r. split; [reflexivity|].
      cbn [map] in Hc, Hd. rewrite sum_axis0_single, div_int_zero in Hc, Hd.
      split; assumption. }
    assert (Honet : length test = 1%nat ->
              exists r, rs_test = [r]
                /\ component_losses_test (hist optimizer st')
                   = component_losses_test (hist optimizer st)
                     ++ [map Py.over_zero (loss_c r)]
                /\ d_component_losses_test (hist optimizer st')
                   = d_component_losses_test (hist optimizer st)
                     ++ [map Py.over_zero (dloss_c r)]).
    { intros Hlen. destruct Htest as [Hct Hdt]; [now destruct test|].
      rewrite Hlen in Hlen2, Hct, Hdt.
      destruct rs_test as [|r [|? ?]]; try discriminate Hlen2.
      exists r. split; [reflexivity|].
      cbn [map] in Hct, Hdt. rewrite sum_axis0_single, div_int_zero in Hct, Hdt.
      split; assumption. }
    assert (Hnf : forall (a : Np.array) x,
              x ∈ map Py.over_zero a -> Py.isfinite x = true -> False).
    { intros a x Hin Hfin. pose proof (over_zero_not_finite a) as Hall.
      rewrite Forall_forall in Hall. rewrite (Hall x Hin) in Hfin.
      discriminate Hfin. }
    split; [|split; [|split]].
    + intros Hlen. destruct (Hone Hlen) as (r & Hr & Hcr & Hdr).
      exists r. repeat split; auto using over_zero_not_finite.
    + intros Hlen. destruct (Honet Hlen) as (r & Hr & Hcr & Hdr).
      exists r. repeat split; auto using over_zero_not_finite.
    + intros c x Hlast Hin Hfin.
      destruct (decide (length train = 1%nat)) as [Hlen|Hlen].
      * destruct (Hone Hlen) as (r & _ & Hcr & Hdr).
        rewrite Hcr, Hdr, !last_snoc in Hlast.
        destruct Hlast as [[= <-]|[= <-]]; destruct (Hnf _ _ Hin Hfin).
      * destruct train as [|? [|? ?]]; cbn [length] in *; try lia.
        contradiction.
    + intros c x Hne Hlast Hin Hfin.
      destruct (decide (length test = 1%nat)) as [Hlen|Hlen].
      * destruct (Honet Hlen) as (r & _ & Hcr & Hdr).
        rewrite Hcr, Hdr, !last_snoc in Hlast.
        destruct Hlast as [[= <-]|[= <-]]; destruct (Hnf _ _ Hin Hfin).
      * destruct test as [|? [|? ?]]; cbn [length] in *; try lia.
        contradiction.
Qed.

End Epoch.

(** ** The concrete instance *)

Lemma fixture_well_shaped (th : list Torch.tensor) (bs : list batch)
    (b : batch) :
  Forall (fun b : batch => b.1 = Fixture.data) bs ->
  b ∈ bs -> Torch.well_shaped 1 (Fixture.identity_net 2) th b.1.
Proof.
  intros Hbs Hin. rewrite Forall_forall in Hbs. rewrite (Hbs b Hin).
  apply identity_well_shaped.
  - intros x. split; [reflexivity|]. intros g. reflexivity.
  - repeat constructor.
Qed.

Lemma component_average_divides_by_last_index_witness :
  exists rs_train rs_test st',
    length rs_train = 2%nat
    /\ length rs_test = 2%nat
    /\ Fixture.epoch0 (Fixture.loader 0) (Fixture.loader 0) = Py.Ok st'
    /\ component_losses_train (hist Fixture.frozen st')
       = [Np.div_int (Np.sum_axis0 (map loss_c rs_train)) 1]
    /\ d_component_losses_train (hist Fixture.frozen st')
       = [Np.div_int (Np.sum_axis0 (map dloss_c rs_train)) 1]
    /\ component_losses_test (hist Fixture.frozen st')
       = [Np.div_int (Np.sum_axis0 (map loss_c rs_test)) 1]
    /\ d_component_losses_test (hist Fixture.frozen st')
       = [Np.div_int (Np.sum_axis0 (map dloss_c rs_test)) 1].
Proof.
  destruct (component_average_divides_by_last_index driver_config 1
              (Fixture.identity_net 2) Fixture.first_entry Fixture.first_entry
              Fixture.entry_losses Fixture.frozen 0
              (Fixture.loader 0) (Fixture.loader 0)
              (initial_state [] Fixture.frozen tt)
              ltac:(intros th b; apply fixture_well_shaped; repeat constructor)
              ltac:(discriminate) eq_refl)
    as (st1 & st2 & rs_train & rs_test & st' & _ & H2 & _ & _ & _ & H6 & H7
        & H8 & H9 & H10).
  destruct (H10 ltac:(discriminate)) as [H11 H12].
  exists rs_train, rs_test, st'.
  split; [exact H2|]. split; [exact H6|]. split; [exact H7|].
  split; [exact H8|]. split; [exact H9|]. split; [exact H11|exact H12].
Defined.

Lemma test_cost_mixes_training_losses_witness :
  exists rs_train rs_test st' m,
    length rs_train = 2%nat
    /\ length rs_test = 2%nat
    /\ Fixture.epoch0 (Fixture.loader 0) (Fixture.loader 0) = Py.Ok st'
    /\ Py.mean (map total_loss rs_train ++ map plotting_loss rs_test) = Py.Ok m
    /\ cost_per_epoc_test (hist Fixture.frozen st') = [m].
Proof.
  destruct (test_cost_mixes_training_losses driver_config 1
              (Fixture.identity_net 2) Fixture.first_entry Fixture.first_entry
              Fixture.entry_losses Fixture.frozen 0
              (Fixture.loader 0) (Fixture.loader 0)
              (initial_state [] Fixture.frozen tt)
              ltac:(intros th b; apply fixture_well_shaped; repeat constructor)
              ltac:(discriminate) eq_refl)
    as (st1 & st2 & rs_train & rs_test & st' & m & _ & H2 & _ & _ & _ & H6
        & H7 & H8 & H9).
  exists rs_train, rs_test, st', m.
  split; [exact H2|]. split; [exact H6|]. split; [exact H7|].
  split; [exact H8|exact H9].
Defined.

Lemma single_batch_average_not_finite_witness :
  exists st',
    Fixture.epoch0 [(Fixture.data, Fixture.targets)]
                   [(Fixture.data, Fixture.targets)] = Py.Ok st'
    /\ component_losses_train (hist Fixture.frozen st')
       = [[S754_infinity false; S754_infinity false]]
    /\ d_component_losses_train (hist Fixture.frozen st')
       = [[S754_infinity false; S754_nan]]
    /\ component_losses_test (hist Fixture.frozen st')
       = [[S754_infinity false; S754_infinity false]]
    /\ d_component_losses_test (hist Fixture.frozen st')
       = [[S754_infinity false; S754_nan]].
Proof.
  destruct (single_batch_average_not_finite driver_config 1
              (Fixture.identity_net 2) Fixture.first_entry Fixture.first_entry
              Fixture.entry_losses Fixture.frozen 0
              [(Fixture.data, Fixture.targets)]
              [(Fixture.data, Fixture.targets)]
              (initial_state [] Fixture.frozen tt)
              ltac:(intros th b; apply fixture_well_shaped; repeat constructor)
              eq_refl)
    as [_ H].
  destruct (H ltac:(discriminate))
    as (st1 & st2 & rs_train & rs_test & st' & Hp1 & _ & Hf1 & Hst2 & Hp2 & _
        & Hrun & Htrain & Htest & _).
  destruct (Htrain eq_refl) as (r & -> & Hc & Hd & _).
  destruct (Htest eq_refl) as (rt & -> & Hct & Hdt & _).
  exists st'. split; [exact Hrun|].
  vm_compute in Hp1. injection Hp1 as <-.
  vm_compute in Hf1. injection Hf1 as <-.
  vm_compute in Hst2. injection Hst2 as <-.
  vm_compute in Hp2. injection Hp2 as <-.
  rewrite Hc, Hd, Hct, Hdt. repeat split; reflexivity.
Defined.

(** Two training batches with component losses [1, 2] each: the entry
    appended is [2, 4], their sum over the last index 1. With total losses
    2 and 2 in training and plotting losses 1 and 1 in testing, the test
    cost appended is 1.5. *)
Example epoch_on_two_batches :
  match Fixture.epoch0 (Fixture.loader 0) (Fixture.loader 0) with
  | Py.Ok st =>
      component_losses_train (hist Fixture.frozen st)
      = [[Py.of_int 2; Py.of_int 4]]
      /\ cost_per_epoc_test (hist Fixture.frozen st)
         = [Py.fdiv (Py.of_int 3) (Py.of_int 2)]
      /\ cost_per_epoc (hist Fixture.frozen st) = [Py.of_int 1]
  | Py.Raise _ => False
  end.
Proof. vm_compute. auto. Qed.

Example nnuc_aprox13 : Setup.nnuc 28 = 13.
Proof. reflexivity. Qed.

Example of_int_0 : Py.of_int 0 = Py.fzero.
Proof. reflexivity. Qed.

Example divide_by_index_zero :
  Np.div_int [Py.fone; Py.fzero; S754_infinity true] 0
  = [S754_infinity false; S754_nan; S754_infinity true].
Proof. reflexivity. Qed.

(** The two readings of the set-up computations, evaluated side by side
    on a range of widths and of dataset sizes. *)
Example nnuc_binary64_agrees :
  forallb (fun w => bool_decide (Setup.nnuc_binary64 w = Some (Setup.nnuc w)))
          (map Z.of_nat (seq 0 2048)) = true.
Proof. vm_compute. reflexivity. Qed.

Example Num_test_binary64_agrees :
  forallb (fun N =>
             forallb (fun p => bool_decide (Setup.Num_test_binary64 N p
                                            = Some (Setup.Num_test N p)))
                     (map Z.of_nat (seq 1 99)))
          (map Z.of_nat (seq 1 100)) = true
  /\ forallb (fun N => bool_decide (Setup.Num_test_binary64 N Setup.percent_test
                                    = Some (Setup.Num_test N Setup.percent_test)))
             (map Z.of_nat (seq 1 5000)) = true.
Proof. split; vm_compute; reflexivity. Qed.

(** * Further properties of the script *)

(** ** The split and the widths *)

Lemma nnuc_quot (w : Z) : Setup.nnuc w = Z.quot (w - 2) 2.
Proof.
  unfold Setup.nnuc, Py.int, Py.truediv, Qdiv, Qinv, Qminus, Qplus, Qopp,
    Qmult, inject_Z. simpl.
  change (Z.pos (1 * 2 * 1)) with 2. change (Z.pos (1 * 2)) with 2.
  f_equal. lia.
Qed.

(** X1: for a dataset of at least one sample and a percentage strictly
    between 0 and 100, the test set is strictly smaller than the dataset,
    so the training set is never empty; the test set is empty exactly when
    [N*percent] is below 100 (with the script's 10 percent: fewer than 10
    samples). *)
Theorem split_bounds (N percent : Z) :
  1 <= N -> 0 < percent < 100 ->
  0 <= Setup.Num_test N percent < N
  /\ 1 <= Setup.Num_train N percent
  /\ (Setup.Num_test N percent = 0 <-> N * percent < 100).
Proof.
  intros HN Hp. unfold Setup.Num_train, Setup.Num_test.
  rewrite int_truediv_nonneg by nia.
  assert (H0 : 0 <= N * percent / 100) by (apply Z.div_pos; nia).
  assert (H1 : N * percent / 100 < N)
    by (apply Z.div_lt_upper_bound; nia).
  split; [lia|]. split; [lia|]. split.
  - intros E. apply Z.div_small_iff in E; lia.
  - intros Hlt. apply Z.div_small. nia.
Qed.

Lemma split_bounds_witness :
  0 <= Setup.Num_test 9 10 < 9
  /\ 1 <= Setup.Num_train 9 10
  /\ (Setup.Num_test 9 10 = 0 <-> 9 * 10 < 100).
Proof. apply (split_bounds 9 10); lia. Defined.

(** The exact-rational readings used elsewhere in this file are what
    the two lines compute in binary64, for every width below 2^53 and
    every product [N*percent] below 2^52. *)
Lemma nnuc_binary64_agrees_below (w : Z) :
  2 <= w < 2 ^ 53 -> Setup.nnuc_binary64 w = Some (Setup.nnuc w).
Proof.
  intros Hw. rewrite nnuc_binary64_exact, nnuc_quot by exact Hw.
  rewrite Z.quot_div_nonneg by lia. f_equal.
  replace w with ((w - 2) + 1 * 2) at 1 by lia.
  rewrite Z.div_add by lia. lia.
Qed.

Lemma Num_test_binary64_agrees_below (N percent : Z) :
  0 <= N * percent < 2 ^ 52 ->
  Setup.Num_test_binary64 N percent = Some (Setup.Num_test N percent).
Proof.
  intros H. unfold Setup.Num_test_binary64, Setup.Num_test.
  rewrite int_div_100_exact by exact H.
  now rewrite int_truediv_nonneg by lia.
Qed.

(** X2: for every output width from 2 to below 2^53, the [nnuc] that
    line 96 returns is not negative, the network is built with exactly
    [nnuc+1] output channels (so the differentiator's channels [0..nnuc]
    all exist), and the two output channels the normalisation indexes,
    [nnuc] and [2*(nnuc+1) - 1], are inside the tensor. *)
Theorem widths_agree (output_width : Z) :
  2 <= output_width < 2 ^ 53 ->
  exists nnuc,
    Setup.nnuc_binary64 output_width = Some nnuc
    /\ 0 <= nnuc
    /\ Prepare.net_output_width output_width = nnuc + 1
    /\ nnuc < 2 * (nnuc + 1) - 1 < output_width.
Proof.
  intros Hw. exists (output_width / 2 - 1).
  split; [now apply nnuc_binary64_exact|].
  unfold Prepare.net_output_width.
  pose proof (Z.div_le_lower_bound output_width 2 1 ltac:(lia) ltac:(lia)).
  pose proof (Z.mul_div_le output_width 2 ltac:(lia)).
  lia.
Qed.

Lemma widths_agree_witness :
  exists nnuc,
    Setup.nnuc_binary64 5 = Some nnuc
    /\ 0 <= nnuc
    /\ Prepare.net_output_width 5 = nnuc + 1
    /\ nnuc < 2 * (nnuc + 1) - 1 < 5.
Proof. apply (widths_agree 5). split; [lia | reflexivity]. Defined.


(** ** The plot files *)

Lemma sorted_length (xs : list string) :
  length (Prepare.sorted xs) = length xs.
Proof. unfold Prepare.sorted. now rewrite merge_sort_Permutation. Qed.

(** X3: the reordering of the plot files raises [IndexError] exactly when
    the data directory holds fewer than three of them. *)
Theorem reorder_plotfiles_raises (globbed : list string) :
  Prepare.reorder_plotfiles globbed = Py.Raise Py.IndexError
  <-> (length globbed < 3)%nat.
Proof.
  unfold Prepare.reorder_plotfiles.
  destruct (last (take (length (Prepare.sorted globbed) - 2)
                       (Prepare.sorted globbed))) as [name|] eqn:E.
  - split; [discriminate|]. intros Hlt.
    assert (Hsome : is_Some (last (take (length (Prepare.sorted globbed) - 2)
                                       (Prepare.sorted globbed)))) by eauto.
    apply last_is_Some in Hsome. exfalso. apply Hsome.
    apply length_zero_iff_nil. rewrite length_take, sorted_length. lia.
  - split; [|reflexivity]. intros _.
    apply last_None in E. apply (f_equal length) in E.
    rewrite length_take, sorted_length in E. simpl in E. lia.
Qed.

(** X4: with at least three plot files the reordering returns all but the
    two greatest names: the greatest of those kept comes first, the others
    follow in increasing order, and every name kept is at most every name
    dropped. *)
Theorem reorder_plotfiles_rotates (globbed : list string) :
  (3 <= length globbed)%nat ->
  exists name rest dropped,
    Prepare.reorder_plotfiles globbed = Py.Ok (name :: rest)
    /\ Prepare.sorted globbed = rest ++ [name] ++ dropped
    /\ length dropped = 2%nat
    /\ length (name :: rest) = (length globbed - 2)%nat
    /\ name :: rest ++ dropped ≡ₚ globbed
    /\ Sorted String.le rest
    /\ Forall (fun kept => String.le kept name) rest
    /\ Forall (fun kept => Forall (String.le kept) dropped) (name :: rest).
Proof.
  intros Hlen. unfold Prepare.reorder_plotfiles.
  set (srt := Prepare.sorted globbed).
  assert (Hl : length srt = length globbed) by apply sorted_length.
  set (kept := take (length srt - 2) srt).
  assert (Hkept : length kept = (length globbed - 2)%nat).
  { unfold kept. rewrite length_take. lia. }
  destruct (last kept) as [name|] eqn:E.
  2:{ apply last_None in E. rewrite E in Hkept. simpl in Hkept. lia. }
  apply last_Some in E. destruct E as [rest E].
  assert (Hsplit : srt = rest ++ [name] ++ drop (length srt - 2) srt).
  { rewrite <- (take_drop (length srt - 2) srt) at 1. fold kept.
    rewrite E. now rewrite <- app_assoc. }
  assert (Hss : StronglySorted String.le srt)
    by (apply StronglySorted_merge_sort; apply _).
  assert (Hdl : length (drop (length srt - 2) srt) = 2%nat)
    by (rewrite length_drop; lia).
  assert (Hrun : [name] ++ take (length kept - 1) kept = name :: rest).
  { simpl. f_equal. rewrite E, length_app. simpl.
    replace (length rest + 1 - 1)%nat with (length rest) by lia.
    now rewrite take_app_length. }
  assert (Hperm : srt ≡ₚ globbed) by apply merge_sort_Permutation.
  set (dropped := drop (length srt - 2) srt) in *. clearbody dropped.
  clearbody kept. subst kept. clearbody srt. subst srt.
  exists name, rest, dropped.
  split; [now rewrite Hrun|]. split; [reflexivity|]. split; [exact Hdl|].
  split; [rewrite <- Hkept, length_app; simpl; lia|].
  split.
  { rewrite <- Hperm. simpl. apply Permutation_middle. }
  pose proof (StronglySorted_app_1_l _ _ _ Hss) as Hrest.
  pose proof (StronglySorted_app_1_r _ _ _ Hss) as Htail.
  split; [now apply StronglySorted_Sorted|].
  split.
  { apply Forall_forall. intros k Hk.
    apply (StronglySorted_app_1_elem_of String.le rest ([name] ++ dropped));
      [exact Hss|exact Hk|]. left. }
  constructor.
  - simpl in Htail. now inversion Htail.
  - apply Forall_forall. intros k Hk. apply Forall_forall. intros dn Hd.
    apply (StronglySorted_app_1_elem_of String.le rest ([name] ++ dropped));
      [exact Hss|exact Hk|]. right. exact Hd.
Qed.

(** X5: the order in which [glob] lists the directory does not matter:
    two listings of the same files give the same result. *)
Theorem reorder_plotfiles_order_free (globbed globbed' : list string) :
  globbed ≡ₚ globbed' ->
  Prepare.reorder_plotfiles globbed = Prepare.reorder_plotfiles globbed'.
Proof.
  intros Hperm. unfold Prepare.reorder_plotfiles.
  replace (Prepare.sorted globbed') with (Prepare.sorted globbed); [reflexivity|].
  unfold Prepare.sorted.
  apply (StronglySorted_unique String.le);
    try (apply StronglySorted_merge_sort; apply _).
  now rewrite !merge_sort_Permutation.
Qed.

Lemma reorder_plotfiles_order_free_witness :
  Prepare.reorder_plotfiles ["flame_InitData"; "flame_0000010"; "flame_b"; "flame_a"]
  = Prepare.reorder_plotfiles ["flame_a"; "flame_b"; "flame_0000010"; "flame_InitData"].
Proof.
  apply reorder_plotfiles_order_free.
  change (reverse ["flame_a"; "flame_b"; "flame_0000010"; "flame_InitData"]
          ≡ₚ ["flame_a"; "flame_b"; "flame_0000010"; "flame_InitData"]).
  apply reverse_Permutation.
Defined.

(** The names MAESTROeX gives its plot files: the two files written after
    the initial projection and the divu iterations sort last and are cut,
    and the initial data comes first. *)
Example reorder_maestro_plotfiles :
  Prepare.reorder_plotfiles
    ["flame_0000020"; "flame_InitData"; "flame_0000010";
     "flame_after_InitProj"; "flame_after_DivuIter"]
  = Py.Ok ["flame_InitData"; "flame_0000010"; "flame_0000020"].
Proof. vm_compute. reflexivity. Qed.

Lemma reorder_plotfiles_rotates_witness :
  exists (name : string) (rest dropped : list string),
    Prepare.reorder_plotfiles
      ["flame_0000020"; "flame_InitData"; "flame_0000010";
       "flame_after_InitProj"; "flame_after_DivuIter"]
    = Py.Ok (name :: rest)
    /\ length dropped = 2%nat
    /\ Sorted String.le rest.
Proof.
  destruct (reorder_plotfiles_rotates
              ["flame_0000020"; "flame_InitData"; "flame_0000010";
               "flame_after_InitProj"; "flame_after_DivuIter"]
              ltac:(simpl; lia))
    as (name & rest & dropped & H1 & _ & H3 & _ & _ & H6 & _).
  exists name, rest, dropped. auto.
Defined.

(** ** What the two loops keep *)

Section LoopInvariants.
Import Torch Engine.

Variable cfg : config.
Variable nnuc : nat.
Variable model : Network.
Variables L1Loss MSELoss : diff2.
Variable L : Losses.
Variable optimizer : Optimizer.

Local Abbreviation pstate := (state optimizer).
Local Abbreviation train_step :=
  (train_batch nnuc model L1Loss MSELoss L optimizer).
Local Abbreviation test_step := (test_batch nnuc model MSELoss L optimizer).
Local Abbreviation epoch_step :=
  (run_epoch cfg nnuc model L1Loss MSELoss L optimizer).

Lemma accumulate_components_inv (i : nat) (c d : Np.array) (v v' : loop_vars) :
  accumulate_components i c d v = Py.Ok v' -> batch_idx v' = Some i.
Proof.
  unfold accumulate_components. destruct (i =? 0)%nat.
  - now intros [= <-].
  - destruct (component_loss v); [|discriminate].
    destruct (d_component_loss v); [|discriminate].
    cbn. now intros [= <-].
Qed.

Lemma test_batch_keeps (ib : nat * batch) (st st' : pstate) :
  test_step ib st = Py.Ok st' ->
  theta optimizer st' = theta optimizer st
  /\ opt optimizer st' = opt optimizer st
  /\ hist optimizer st' = hist optimizer st
  /\ stdout optimizer st' = stdout optimizer st
  /\ plotting_losses (lists optimizer st') = plotting_losses (lists optimizer st)
  /\ diff_losses (lists optimizer st') = diff_losses (lists optimizer st)
  /\ length (losses (lists optimizer st'))
     = S (length (losses (lists optimizer st))).
Proof.
  destruct ib as [i [data_t targets]]. unfold test_batch.
  destruct (differentiator nnuc _ _) as [[dXdt_t s]|]; [|discriminate].
  cbn [mbind result_bind Py.bind].
  destruct (accumulate_components i _ _ _) as [v|]; [|discriminate].
  cbn [mbind result_bind Py.bind]. intros [= <-]. cbn.
  rewrite length_app. cbn. repeat split; lia.
Qed.

Lemma train_batch_keeps (ib : nat * batch) (st st' : pstate) :
  train_step ib st = Py.Ok st' ->
  hist optimizer st' = hist optimizer st
  /\ stdout optimizer st' = stdout optimizer st
  /\ length (losses (lists optimizer st'))
     = S (length (losses (lists optimizer st)))
  /\ length (plotting_losses (lists optimizer st'))
     = S (length (plotting_losses (lists optimizer st)))
  /\ length (diff_losses (lists optimizer st'))
     = S (length (diff_losses (lists optimizer st))).
Proof.
  destruct ib as [i [data_t targets]]. unfold train_batch.
  destruct (differentiator nnuc _ _) as [[dXdt_t s]|]; [|discriminate].
  cbn [mbind result_bind Py.bind].
  destruct (criterion _ _ _ _ _ _ _) as [loss array_loss].
  destruct (backward loss _ _ _) as [s'|]; [|discriminate].
  cbn [mbind result_bind Py.bind].
  destruct (step optimizer _ _ _) as [opt' theta'].
  destruct (accumulate_components i _ _ _) as [v|]; [|discriminate].
  cbn [mbind result_bind Py.bind]. intros [= <-]. cbn.
  rewrite !length_app. cbn. repeat split; lia.
Qed.

(** X6: the test loop never updates the model: when it completes, the
    parameters and the optimizer state are those it started from, and it
    has touched neither the histories, nor the output, nor the lists of
    plotting losses and loss breakdowns; it has added one entry per test
    batch to [losses]. *)
Theorem test_loop_leaves_model (test : list batch) (st st' : pstate) :
  for_each test_step (enumerate test) st = Py.Ok st' ->
  theta optimizer st' = theta optimizer st
  /\ opt optimizer st' = opt optimizer st
  /\ hist optimizer st' = hist optimizer st
  /\ stdout optimizer st' = stdout optimizer st
  /\ plotting_losses (lists optimizer st') = plotting_losses (lists optimizer st)
  /\ diff_losses (lists optimizer st') = diff_losses (lists optimizer st)
  /\ length (losses (lists optimizer st'))
     = (length (losses (lists optimizer st)) + length test)%nat.
Proof.
  unfold enumerate. generalize (fun (i : nat) (x : batch) => (i, x)).
  intros f. revert f st.
  induction test as [|b test IH]; intros f st; cbn [imap for_each].
  - intros [= <-]. repeat split. cbn. lia.
  - destruct (test_step (f 0%nat b) st) as [s1|] eqn:E; [|discriminate].
    intros Hrest. apply IH in Hrest.
    apply test_batch_keeps in E.
    destruct Hrest as (-> & -> & -> & -> & -> & -> & ->).
    destruct E as (-> & -> & -> & -> & -> & -> & ->).
    repeat split. cbn [length]. lia.
Qed.

Lemma train_loop_keeps (ibs : list (nat * batch)) (st st' : pstate) :
  for_each train_step ibs st = Py.Ok st' ->
  hist optimizer st' = hist optimizer st
  /\ stdout optimizer st' = stdout optimizer st.
Proof.
  apply (for_each_preserves train_step
           (fun s => hist optimizer s = hist optimizer st
                     /\ stdout optimizer s = stdout optimizer st)); [|auto].
  intros ib s0 s1 Hstep [H1 H2]. apply train_batch_keeps in Hstep.
  destruct Hstep as (-> & -> & _). auto.
Qed.

Lemma test_loop_keeps (ibs : list (nat * batch)) (st st' : pstate) :
  for_each test_step ibs st = Py.Ok st' ->
  hist optimizer st' = hist optimizer st
  /\ stdout optimizer st' = stdout optimizer st.
Proof.
  apply (for_each_preserves test_step
           (fun s => hist optimizer s = hist optimizer st
                     /\ stdout optimizer s = stdout optimizer st)); [|auto].
  intros ib s0 s1 Hstep [H1 H2]. apply test_batch_keeps in Hstep.
  destruct Hstep as (_ & _ & -> & -> & _). auto.
Qed.

(** The lengths of the seven histories and of the output. *)
Local Abbreviation sizes st :=
  (length (cost_per_epoc (hist optimizer st)),
   length (component_losses_train (hist optimizer st)),
   length (d_component_losses_train (hist optimizer st)),
   length (different_loss_metrics (hist optimizer st)),
   length (stdout optimizer st),
   (length (component_losses_test (hist optimizer st)),
    length (d_component_losses_test (hist optimizer st)),
    length (cost_per_epoc_test (hist optimizer st)))).

Lemma run_epoch_sizes (epoch : nat) (train test : list batch) (st st' : pstate) :
  epoch_step epoch train test st = Py.Ok st' ->
  let k := if DO_PLOTTING cfg then 1%nat else 0%nat in
  let '(a, b, c, d, e, (f, g, j)) := sizes st in
  sizes st' = (S a, S b, S c, S d, S e, (f + k, g + k, j + k))%nat.
Proof.
  unfold run_epoch.
  destruct (for_each train_step (enumerate train) (begin_epoch optimizer st))
    as [s1|] eqn:E1; [|discriminate].
  apply train_loop_keeps in E1. cbn in E1. destruct E1 as [Hh1 Ho1].
  cbn [mbind result_bind Py.bind].
  unfold after_training at 1.
  destruct (Py.mean (losses (lists optimizer s1))) as [m1|]; [|discriminate].
  cbn [mbind result_bind Py.bind].
  destruct (Py.mean (plotting_losses (lists optimizer s1))) as [m2|];
    [|discriminate].
  cbn [mbind result_bind Py.bind].
  destruct (read "component_loss" _) as [c|]; [|discriminate].
  cbn [mbind result_bind Py.bind].
  destruct (read "batch_idx" _) as [i|]; [|discriminate].
  cbn [mbind result_bind Py.bind].
  destruct (read "d_component_loss" _) as [d|]; [|discriminate].
  cbn [mbind result_bind Py.bind].
  rewrite Hh1, Ho1.
  destruct (DO_PLOTTING cfg).
  - match goal with |- context [for_each test_step ?ibs ?s2] =>
      destruct (for_each test_step ibs s2) as [s3|] eqn:E3 end; [|discriminate].
    apply test_loop_keeps in E3. cbn in E3. destruct E3 as [Hh3 Ho3].
    cbn [mbind result_bind Py.bind].
    unfold after_testing.
    destruct (Py.mean (losses (lists optimizer s3))) as [m3|]; [|discriminate].
    cbn [mbind result_bind Py.bind].
    destruct (read "component_loss" _) as [c3|]; [|discriminate].
    cbn [mbind result_bind Py.bind].
    destruct (read "batch_idx" _) as [i3|]; [|discriminate].
    cbn [mbind result_bind Py.bind].
    destruct (read "d_component_loss" _) as [d3|]; [|discriminate].
    cbn [mbind result_bind Py.bind].
    intros [= <-]. rewrite Hh3, Ho3. cbn.
    rewrite !length_app. cbn.
    repeat match goal with |- (_, _) = (_, _) => f_equal end; lia.
  - intros [= <-]. cbn. rewrite !length_app. cbn.
    repeat match goal with |- (_, _) = (_, _) => f_equal end; lia.
Qed.

Lemma epochs_sizes (train_loader test_loader : nat -> list batch)
    (n start : nat) (st st' : pstate) :
  for_each (fun epoch st => epoch_step epoch (train_loader epoch)
                                       (test_loader epoch) st)
           (seq start n) st = Py.Ok st' ->
  let m := if DO_PLOTTING cfg then n else 0%nat in
  let '(a, b, c, d, e, (f, g, j)) := sizes st in
  sizes st' = (a + n, b + n, c + n, d + n, e + n, (f + m, g + m, j + m))%nat.
Proof.
  revert start st. induction n as [|n IH]; intros start st; cbn [seq for_each].
  - intros [= <-]. destruct (DO_PLOTTING cfg); cbn;
      repeat match goal with |- (_, _) = (_, _) => f_equal end; lia.
  - destruct (epoch_step start (train_loader start) (test_loader start) st)
      as [s1|] eqn:E; [|discriminate].
    intros Hrest. apply IH in Hrest. apply run_epoch_sizes in E.
    cbn in E, Hrest |- *. rewrite Hrest.
    injection E as -> -> -> -> -> -> -> ->.
    destruct (DO_PLOTTING cfg);
      repeat match goal with |- (_, _) = (_, _) => f_equal end; lia.
Qed.

(** X7: when training completes, every per-epoch history has grown by
    exactly one entry per epoch: the training cost, the two training
    component histories and the loss metrics always, the three test
    histories when evaluation is enabled and not at all otherwise; and
    one cost line per epoch was printed. *)
Theorem one_entry_per_epoch
    (train_loader test_loader : nat -> list batch) (st st' : pstate) :
  train cfg nnuc model L1Loss MSELoss L optimizer train_loader test_loader st
  = Py.Ok st' ->
  let n := num_epochs cfg in
  let m := if DO_PLOTTING cfg then n else 0%nat in
  let h := hist optimizer st in
  let h' := hist optimizer st' in
  length (cost_per_epoc h') = (length (cost_per_epoc h) + n)%nat
  /\ length (component_losses_train h')
     = (length (component_losses_train h) + n)%nat
  /\ length (d_component_losses_train h')
     = (length (d_component_losses_train h) + n)%nat
  /\ length (different_loss_metrics h')
     = (length (different_loss_metrics h) + n)%nat
  /\ length (stdout optimizer st') = (length (stdout optimizer st) + n)%nat
  /\ length (component_losses_test h')
     = (length (component_losses_test h) + m)%nat
  /\ length (d_component_losses_test h')
     = (length (d_component_losses_test h) + m)%nat
  /\ length (cost_per_epoc_test h') = (length (cost_per_epoc_test h) + m)%nat.
Proof.
  intros Hrun. apply epochs_sizes in Hrun. cbn in Hrun |- *.
  injection Hrun as -> -> -> -> -> -> -> ->. repeat split.
Qed.

End LoopInvariants.

(** ** The plotting loss does not train *)

Lemma for_each_related {A S : Type} (R : S -> S -> Prop)
    (body body' : A -> S -> Py.result S) (xs : list A) (s s' : S) :
  (forall x a b, R a b -> result_rel R (body x a) (body' x b)) ->
  R s s' -> result_rel R (for_each body xs s) (for_each body' xs s').
Proof.
  intros Hbody. revert s s'. induction xs as [|x xs IH]; intros s s' HR.
  - exact HR.
  - cbn [for_each]. specialize (Hbody x s s' HR).
    destruct (body x s) as [a|e], (body' x s') as [b|e']; cbn in Hbody;
      try contradiction.
    + now apply IH.
    + exact Hbody.
Qed.

Lemma bind_related {S T : Type} (R : S -> S -> Prop) (Q : T -> T -> Prop)
    (r r' : Py.result S) (k k' : S -> Py.result T) :
  result_rel R r r' ->
  (forall a b, R a b -> result_rel Q (k a) (k' b)) ->
  result_rel Q (r ≫= k) (r' ≫= k').
Proof.
  intros Hr Hk. destruct r as [a|e], r' as [b|e']; cbn in *;
    try contradiction; auto.
Qed.

Lemma mean_same_length (xs ys : list Py.float) :
  length xs = length ys ->
  match Py.mean xs, Py.mean ys with
  | Py.Ok _, Py.Ok _ => True
  | Py.Raise e, Py.Raise e' => e = e'
  | _, _ => False
  end.
Proof.
  intros Hlen. unfold Py.mean, Py.div_int. rewrite Hlen.
  destruct (Z.of_nat (length ys) =? 0); auto.
Qed.

Section PlottingLoss.
Import Torch Engine.

Variable cfg : config.
Variable nnuc : nat.
Variable model : Network.
Variables L1Loss MSELoss MSELoss' : diff2.
Variable L : Losses.
Variable optimizer : Optimizer.

Local Abbreviation pstate := (state optimizer).

(** Inside the training loop the two runs also share the total losses and
    their breakdowns; inside the test loop, the number of losses. *)
Local Abbreviation in_training a b :=
  (same_but_plotting_costs a b
   /\ losses (lists optimizer a) = losses (lists optimizer b)
   /\ diff_losses (lists optimizer a) = diff_losses (lists optimizer b)
   /\ length (plotting_losses (lists optimizer a))
      = length (plotting_losses (lists optimizer b))).

Local Abbreviation in_testing a b :=
  (same_but_plotting_costs a b
   /\ length (losses (lists optimizer a)) = length (losses (lists optimizer b))).

Lemma train_batch_plotting_free (ib : nat * batch) (a b : pstate) :
  in_training a b ->
  result_rel (fun a b => in_training a b)
    (train_batch nnuc model L1Loss MSELoss L optimizer ib a)
    (train_batch nnuc model L1Loss MSELoss' L optimizer ib b).
Proof.
  destruct a as [th o g l v h out], b as [th' o' g' l' v' h' out'].
  unfold same_but_plotting_costs. cbn.
  intros ((-> & -> & -> & -> & -> & H1 & H2 & H3 & H4 & H5 & H6 & H7)
          & Hl & Hd & Hp).
  destruct ib as [i [data_t targets]]. unfold train_batch. cbn.
  destruct (differentiator nnuc _ _) as [[dXdt_t s]|]; [|reflexivity]. cbn.
  destruct (backward _ _ _ _) as [s'|]; [|reflexivity]. cbn.
  destruct (step optimizer _ _ _) as [opt1 theta1].
  destruct (accumulate_components i _ _ _) as [v1|]; [|reflexivity]. cbn.
  rewrite Hl, Hd, !length_app, Hp. cbn. auto 20.
Qed.

Lemma test_batch_plotting_free (ib : nat * batch) (a b : pstate) :
  in_testing a b ->
  result_rel (fun a b => in_testing a b)
    (test_batch nnuc model MSELoss L optimizer ib a)
    (test_batch nnuc model MSELoss' L optimizer ib b).
Proof.
  destruct a as [th o g l v h out], b as [th' o' g' l' v' h' out'].
  unfold same_but_plotting_costs. cbn.
  intros ((-> & -> & -> & -> & -> & H1 & H2 & H3 & H4 & H5 & H6 & H7) & Hl).
  destruct ib as [i [data_t targets]]. unfold test_batch. cbn.
  destruct (differentiator nnuc _ _) as [[dXdt_t s]|]; [|reflexivity]. cbn.
  destruct (accumulate_components i _ _ _) as [v1|]; [|reflexivity]. cbn.
  rewrite !length_app, Hl. cbn. auto 20.
Qed.

Lemma after_training_plotting_free (epoch : nat) (a b : pstate) :
  in_training a b ->
  result_rel (fun a b => in_testing a b)
    (after_training optimizer epoch a) (after_training optimizer epoch b).
Proof.
  destruct a as [th o g l v h out], b as [th' o' g' l' v' h' out'].
  unfold same_but_plotting_costs. cbn.
  intros ((-> & -> & -> & -> & -> & H1 & H2 & H3 & H4 & H5 & H6 & H7)
          & Hl & Hd & Hp).
  unfold after_training. cbn. rewrite Hl, Hd.
  destruct (Py.mean (losses l')) as [m|]; [|reflexivity]. cbn.
  pose proof (mean_same_length _ _ Hp) as Hm.
  destruct (Py.mean (plotting_losses l)) as [p|],
           (Py.mean (plotting_losses l')) as [p'|];
    cbn; try contradiction; [|exact Hm].
  destruct (read "component_loss" _) as [c|]; [|reflexivity]. cbn.
  destruct (read "batch_idx" _) as [i|]; [|reflexivity]. cbn.
  destruct (read "d_component_loss" _) as [d|]; [|reflexivity]. cbn.
  rewrite H1, H2, H3, H4, H5, !length_app, H6, H7. cbn.
  repeat split; congruence.
Qed.

Lemma after_testing_plotting_free (a b : pstate) :
  in_testing a b ->
  result_rel same_but_plotting_costs
    (after_testing optimizer a) (after_testing optimizer b).
Proof.
  destruct a as [th o g l v h out], b as [th' o' g' l' v' h' out'].
  unfold same_but_plotting_costs. cbn.
  intros ((-> & -> & -> & -> & -> & H1 & H2 & H3 & H4 & H5 & H6 & H7) & Hl).
  unfold after_testing. cbn.
  pose proof (mean_same_length _ _ Hl) as Hm.
  destruct (Py.mean (losses l)) as [p|], (Py.mean (losses l')) as [p'|];
    cbn; try contradiction; [|exact Hm].
  destruct (read "component_loss" _) as [c|]; [|reflexivity]. cbn.
  destruct (read "batch_idx" _) as [i|]; [|reflexivity]. cbn.
  destruct (read "d_component_loss" _) as [d|]; [|reflexivity]. cbn.
  rewrite H1, H2, H3, H4, H5, !length_app, H6, H7. cbn.
  repeat split; congruence.
Qed.

Lemma run_epoch_plotting_free (epoch : nat) (train test : list batch)
    (a b : pstate) :
  same_but_plotting_costs a b ->
  result_rel same_but_plotting_costs
    (run_epoch cfg nnuc model L1Loss MSELoss L optimizer epoch train test a)
    (run_epoch cfg nnuc model L1Loss MSELoss' L optimizer epoch train test b).
Proof.
  intros Hab. unfold run_epoch.
  apply (bind_related (fun a b => in_training a b)).
  { apply for_each_related.
    - intros ib x y. apply train_batch_plotting_free.
    - unfold same_but_plotting_costs in *. cbn. tauto. }
  intros a1 b1 H1.
  apply (bind_related (fun a b => in_testing a b)).
  { now apply after_training_plotting_free. }
  intros a2 b2 H2. destruct (DO_PLOTTING cfg).
  - apply (bind_related (fun a b => in_testing a b)).
    + apply for_each_related; [|exact H2].
      intros ib x y. apply test_batch_plotting_free.
    + intros a3 b3. apply after_testing_plotting_free.
  - cbn. tauto.
Qed.

(** X8: the plotting loss never influences training. Two runs of the
    training loop that differ only in the function used as
    [criterion_plotting]'s loss either raise the same exception or end
    with the same parameters, optimizer state, gradients, component
    histories, loss metrics and printed costs; only the entries of
    [cost_per_epoc] and [cost_per_epoc_test] may differ, not their
    number. *)
Theorem plotting_loss_does_not_train
    (train_loader test_loader : nat -> list batch) (st : pstate) :
  result_rel same_but_plotting_costs
    (train cfg nnuc model L1Loss MSELoss L optimizer train_loader test_loader st)
    (train cfg nnuc model L1Loss MSELoss' L optimizer train_loader test_loader st).
Proof.
  unfold train. apply for_each_related.
  - intros epoch a b. apply run_epoch_plotting_free.
  - unfold same_but_plotting_costs. tauto.
Qed.

End PlottingLoss.

Lemma test_loop_leaves_model_witness :
  exists st',
    Runs.testing = Py.Ok st'
    /\ theta Fixture.frozen st' = []
    /\ length (losses (lists Fixture.frozen st')) = 2%nat.
Proof.
  destruct Runs.testing as [st'|e] eqn:E; [|vm_compute in E; discriminate E].
  exists st'. split; [reflexivity|].
  destruct (test_loop_leaves_model 1 (Fixture.identity_net 2)
              Fixture.first_entry Fixture.entry_losses Fixture.frozen
              (Fixture.loader 0) (initial_state [] Fixture.frozen tt) st' E)
    as (H1 & _ & _ & _ & _ & _ & H7).
  split; [exact H1|exact H7].
Defined.

Lemma one_entry_per_epoch_witness :
  exists st',
    Runs.training = Py.Ok st'
    /\ length (cost_per_epoc (hist Fixture.frozen st')) = 3%nat
    /\ length (cost_per_epoc_test (hist Fixture.frozen st')) = 3%nat.
Proof.
  destruct Runs.training as [st'|e] eqn:E; [|vm_compute in E; discriminate E].
  exists st'. split; [reflexivity|].
  destruct (one_entry_per_epoch driver_config 1 (Fixture.identity_net 2)
              Fixture.first_entry Fixture.first_entry Fixture.entry_losses
              Fixture.frozen Fixture.loader Fixture.loader
              (initial_state [] Fixture.frozen tt) st' E)
    as (H1 & _ & _ & _ & _ & _ & _ & H8).
  split; [exact H1|exact H8].
Defined.

(** ** The relative loss *)

(** X9: the relative loss is computed and dropped: two runs of the script
    whose [losses] modules agree on every function but [relative_loss]
    end the same way and leave the same files and the same output. *)
Theorem relative_loss_unused
    (cfg : config) (output_width : Z)
    (train_loader test_loader : nat -> list batch)
    (model : Torch.Network) (theta0 : list Torch.tensor)
    (optimizer : Optimizer) (opt0 : opt_state optimizer)
    (L1Loss MSELoss : Torch.diff2) (L L' : Losses)
    (dt_string : string)
    (do_all_plots : list Torch.tensor -> histories -> FS.directory -> FS.directory)
    (w : world) :
  log_loss L' = log_loss L ->
  signed_loss_function L' = signed_loss_function L ->
  loss_mass_fraction L' = loss_mass_fraction L ->
  component_loss_f L' = component_loss_f L ->
  component_loss_f_L1 L' = component_loss_f_L1 L ->
  driver cfg output_width train_loader test_loader model theta0 optimizer opt0
         L1Loss MSELoss L' dt_string do_all_plots w
  = driver cfg output_width train_loader test_loader model theta0 optimizer opt0
           L1Loss MSELoss L dt_string do_all_plots w.
Proof.
  destruct L as [a b c d e f], L' as [a' b' c' d' e' f']. cbn.
  intros -> -> -> -> ->.
  assert (Hstep : train_batch (Z.to_nat (Setup.nnuc output_width)) model
                    L1Loss MSELoss
                    {| log_loss := a; signed_loss_function := b;
                       relative_loss := c'; loss_mass_fraction := d;
                       component_loss_f := e; component_loss_f_L1 := f |}
                    optimizer
                  = train_batch (Z.to_nat (Setup.nnuc output_width)) model
                      L1Loss MSELoss
                      {| log_loss := a; signed_loss_function := b;
                         relative_loss := c; loss_mass_fraction := d;
                         component_loss_f := e; component_loss_f_L1 := f |}
                      optimizer) by reflexivity.
  unfold driver, train, run_epoch. rewrite Hstep. reflexivity.
Qed.

Lemma relative_loss_unused_witness :
  driver driver_config 4 Fixture.loader Fixture.loader (Fixture.identity_net 2)
         [] Fixture.frozen tt Fixture.first_entry Fixture.first_entry
         Runs.other_relative "11/03/2021 10:00:00" (fun _ _ d => d)
         (World None [])
  = Fixture.run (World None []).
Proof.
  apply (relative_loss_unused driver_config 4 Fixture.loader Fixture.loader
           (Fixture.identity_net 2) [] Fixture.frozen tt Fixture.first_entry
           Fixture.first_entry Fixture.entry_losses Runs.other_relative);
    reflexivity.
Defined.

(** ** The costs of an epoch *)

Section EpochCosts.
Import Torch Engine.

Variable cfg : config.
Variable nnuc : nat.
Variable model : Network.
Variables L1Loss MSELoss : diff2.
Variable L : Losses.
Variable optimizer : Optimizer.

Local Abbreviation pstate := (state optimizer).
Local Abbreviation train_step :=
  (train_batch nnuc model L1Loss MSELoss L optimizer).
Local Abbreviation test_step := (test_batch nnuc model MSELoss L optimizer).
Local Abbreviation report_of :=
  (batch_report nnuc model L1Loss MSELoss L optimizer).

Lemma after_testing_keeps (st st' : pstate) :
  after_testing optimizer st = Py.Ok st' ->
  cost_per_epoc (hist optimizer st') = cost_per_epoc (hist optimizer st)
  /\ different_loss_metrics (hist optimizer st')
     = different_loss_metrics (hist optimizer st)
  /\ component_losses_train (hist optimizer st')
     = component_losses_train (hist optimizer st)
  /\ d_component_losses_train (hist optimizer st')
     = d_component_losses_train (hist optimizer st)
  /\ stdout optimizer st' = stdout optimizer st
  /\ theta optimizer st' = theta optimizer st
  /\ opt optimizer st' = opt optimizer st.
Proof.
  unfold after_testing.
  destruct (Py.mean _) as [m|]; [|discriminate].
  cbn [mbind result_bind Py.bind].
  destruct (read "component_loss" _) as [c|]; [|discriminate].
  cbn [mbind result_bind Py.bind].
  destruct (read "batch_idx" _) as [i|]; [|discriminate].
  cbn [mbind result_bind Py.bind].
  destruct (read "d_component_loss" _) as [d|]; [|discriminate].
  cbn [mbind result_bind Py.bind]. intros [= <-]. cbn. auto 10.
Qed.

(** X10: unlike the component histories, the three costs of an epoch are
    averages over the number of training batches: the cost printed is the
    mean of the batches' total losses, the entry appended to
    [cost_per_epoc] is the mean of their plotting losses, and the entry
    appended to [different_loss_metrics] is the sum of their breakdowns
    divided by the number of batches. *)
Theorem epoch_costs_divide_by_batch_count
    (epoch : nat) (train test : list batch) (st : pstate) :
  (forall th b, b ∈ train ++ test -> well_shaped nnuc model th b.1) ->
  train <> [] ->
  exists rs_train st' c p,
    replay train_step report_of (enumerate train) (begin_epoch optimizer st)
    = map Py.Ok rs_train
    /\ length rs_train = length train
    /\ run_epoch cfg nnuc model L1Loss MSELoss L optimizer epoch train test st
       = Py.Ok st'
    /\ Py.mean (map total_loss rs_train) = Py.Ok c
    /\ Py.mean (map plotting_loss rs_train) = Py.Ok p
    /\ c = Py.fdiv (Py.sum (map total_loss rs_train))
                   (Py.of_int (Z.of_nat (length train)))
    /\ stdout optimizer st' = stdout optimizer st ++ [CostAtEpoch epoch c]
    /\ cost_per_epoc (hist optimizer st')
       = cost_per_epoc (hist optimizer st) ++ [p]
    /\ different_loss_metrics (hist optimizer st')
       = different_loss_metrics (hist optimizer st)
         ++ [Np.div_int (Np.sum_axis0 (map breakdown rs_train))
                        (Z.of_nat (length train))].
Proof.
  intros Hws Htrain.
  destruct (loop_from_zero nnuc model L1Loss MSELoss L optimizer
              train_step train_lists
              (train_batch_contract nnuc model L1Loss MSELoss L optimizer)
              train (begin_epoch optimizer st))
    as (st1 & rs_train & Hf1 & Hp1 & Hlen1 & Hl1 & _ & Hv1 & Hh1 & Ho1).
  { intros th b Hin. apply Hws. apply elem_of_app. now left. }
  specialize (Hv1 Htrain).
  rewrite train_lists_fold in Hl1. cbn in Hl1, Hh1, Ho1.
  assert (Hrs : rs_train <> []).
  { intros ->. destruct train; [contradiction|discriminate]. }
  assert (Hne : forall (f : report -> Py.float), map f rs_train <> []).
  { intros f E. apply Hrs. now apply map_eq_nil in E. }
  set (c := Py.fdiv (Py.sum (map total_loss rs_train))
                    (Py.of_int (Z.of_nat (length train)))).
  set (p := Py.fdiv (Py.sum (map plotting_loss rs_train))
                    (Py.of_int (Z.of_nat (length train)))).
  assert (Hc : Py.mean (map total_loss rs_train) = Py.Ok c).
  { rewrite mean_nonempty by apply Hne. now rewrite length_map, Hlen1. }
  assert (Hp : Py.mean (map plotting_loss rs_train) = Py.Ok p).
  { rewrite mean_nonempty by apply Hne. now rewrite length_map, Hlen1. }
  assert (Hst2 : exists st2,
            after_training optimizer epoch st1 = Py.Ok st2
            /\ stdout optimizer st2 = stdout optimizer st ++ [CostAtEpoch epoch c]
            /\ cost_per_epoc (hist optimizer st2)
               = cost_per_epoc (hist optimizer st) ++ [p]
            /\ different_loss_metrics (hist optimizer st2)
               = different_loss_metrics (hist optimizer st)
                 ++ [Np.div_int (Np.sum_axis0 (map breakdown rs_train))
                                (Z.of_nat (length train))]
            /\ lists optimizer st2 = lists optimizer st1
            /\ vars optimizer st2 = vars optimizer st1).
  { unfold after_training. rewrite Hl1, Hv1, Hh1, Ho1.
    cbn [losses plotting_losses diff_losses component_loss batch_idx
         d_component_loss read].
    rewrite Hc, Hp. cbn [mbind result_bind Py.bind].
    rewrite length_map, Hlen1.
    eexists. split; [reflexivity|].
    cbn [stdout hist cost_per_epoc different_loss_metrics lists vars].
    auto 10. }
  destruct Hst2 as (st2 & Est2 & Hout & Hcost & Hmet & Hl2 & Hv2).
  exists rs_train.
  assert (Hrun : exists st',
            run_epoch cfg nnuc model L1Loss MSELoss L optimizer epoch train test st
            = Py.Ok st'
            /\ stdout optimizer st' = stdout optimizer st2
            /\ cost_per_epoc (hist optimizer st')
               = cost_per_epoc (hist optimizer st2)
            /\ different_loss_metrics (hist optimizer st')
               = different_loss_metrics (hist optimizer st2)).
  { unfold run_epoch. rewrite Hf1. cbn [mbind result_bind Py.bind].
    rewrite Est2. cbn [mbind result_bind Py.bind].
    destruct (DO_PLOTTING cfg); [|eauto].
    destruct (loop_from_zero nnuc model L1Loss MSELoss L optimizer
                test_step test_lists
                (test_batch_contract nnuc model L1Loss MSELoss L optimizer)
                test st2)
      as (st3 & rs_test & Hf3 & _ & _ & Hl3 & Hv3e & Hv3 & Hh3 & Ho3).
    { intros th b Hin. apply Hws. apply elem_of_app. now right. }
    rewrite Hf3. cbn [mbind result_bind Py.bind].
    rewrite test_lists_fold, Hl2, Hl1 in Hl3. cbn in Hl3.
    assert (Hvars3 : exists i c3 d3,
              vars optimizer st3 = LoopVars (Some i) (Some c3) (Some d3)).
    { destruct test as [|b test].
      - rewrite Hv3e, Hv2, Hv1 by reflexivity. eauto.
      - rewrite Hv3 by discriminate. eauto. }
    destruct Hvars3 as (i3 & c3 & d3 & Hv3').
    assert (Hafter : exists st', after_testing optimizer st3 = Py.Ok st').
    { unfold after_testing. rewrite Hl3, Hv3'.
      cbn [losses component_loss batch_idx d_component_loss read].
      rewrite mean_nonempty.
      - cbn [mbind result_bind Py.bind]. eauto.
      - intros E. apply app_eq_nil in E. destruct E as [E _].
        now apply Hne in E. }
    destruct Hafter as [st' Hafter]. exists st'. split; [exact Hafter|].
    apply after_testing_keeps in Hafter.
    destruct Hafter as (-> & -> & _ & _ & -> & _).
    now rewrite Hh3, Ho3. }
  destruct Hrun as (st' & Hrun & Ho' & Hc' & Hm').
  exists st', c, p.
  split; [exact Hp1|]. split; [exact Hlen1|]. split; [exact Hrun|].
  split; [exact Hc|]. split; [exact Hp|]. split; [reflexivity|].
  rewrite Ho', Hc', Hm'. auto.
Qed.

End EpochCosts.

Lemma epoch_costs_divide_by_batch_count_witness :
  exists (rs_train : list report) st' c p,
    length rs_train = 2%nat
    /\ Fixture.epoch0 (Fixture.loader 0) (Fixture.loader 0) = Py.Ok st'
    /\ Py.mean (map total_loss rs_train) = Py.Ok c
    /\ Py.mean (map plotting_loss rs_train) = Py.Ok p
    /\ stdout Fixture.frozen st' = [CostAtEpoch 0 c]
    /\ cost_per_epoc (hist Fixture.frozen st') = [p]
    /\ different_loss_metrics (hist Fixture.frozen st')
       = [Np.div_int (Np.sum_axis0 (map breakdown rs_train)) 2].
Proof.
  destruct (epoch_costs_divide_by_batch_count driver_config 1
              (Fixture.identity_net 2) Fixture.first_entry Fixture.first_entry
              Fixture.entry_losses Fixture.frozen 0
              (Fixture.loader 0) (Fixture.loader 0)
              (initial_state [] Fixture.frozen tt)
              ltac:(intros th b; apply fixture_well_shaped; repeat constructor)
              ltac:(discriminate))
    as (rs_train & st' & c & p & _ & H2 & H3 & H4 & H5 & _ & H7 & H8 & H9).
  exists rs_train, st', c, p. auto 10.
Defined.

(** ** What the persistence stage writes *)

Lemma append_line_lookup_log (l : line) (d : FS.directory) (ls : list line) :
  d !! "log.txt" = Some (FS.LogFile ls) ->
  FS.append_line "log.txt" l d !! "log.txt" = Some (FS.LogFile (ls ++ [l])).
Proof.
  intros H. unfold FS.append_line. rewrite H. apply lookup_insert_eq.
Qed.

Lemma append_line_lookup_cases (log name : string) (l : line)
    (d : FS.directory) (c : FS.content) :
  FS.append_line log l d !! name = Some c ->
  (exists ls, c = FS.LogFile ls) \/ d !! name = Some c.
Proof.
  unfold FS.append_line.
  destruct (d !! log) as [[ls| | |]|] eqn:E; auto.
  destruct (decide (name = log)) as [->|Hne].
  - rewrite lookup_insert_eq. intros [= <-]. eauto.
  - rewrite lookup_insert_ne by congruence. auto.
Qed.

Ltac not_listed H :=
  let E := fresh in
  intros E; apply H; first [rewrite <- E | rewrite E]; vm_compute;
  repeat first [apply list_elem_of_here | apply list_elem_of_further].

(** One run of the persistence stage, entry by entry. *)
Lemma save_model_lookup (state_dict : list Torch.tensor) (h : histories)
    (w : world) (d : FS.directory) :
  outdir w = Some d ->
  exists d',
    outdir (save_model state_dict h w) = Some d'
    /\ terminal (save_model state_dict h w) = terminal w ++ save_model_lines d
    /\ (forall name c, (name, c) ∈ metric_files h -> d' !! name = Some c)
    /\ (forall name, name ∉ script_files -> d' !! name = d !! name)
    /\ (forall ls, d !! "log.txt" = Some (FS.LogFile ls) ->
                   d' !! "log.txt"
                   = Some (FS.LogFile (ls ++ save_model_lines d)))
    /\ (forall c, d' !! "log.txt" = Some c ->
                  (exists ls, c = FS.LogFile ls) \/ d !! "log.txt" = Some c).
Proof.
  destruct w as [o t]. simpl. intros ->.
  unfold save_model, save_model_lines, primary. cbn. entries.
  unfold FS.exists_.
  rewrite (append_line_lookup_ne "log.txt" "my_model_pinn.pt") by discriminate.
  destruct (d !! "my_model_pinn.pt") as [c0|] eqn:Hc.
  - rewrite bool_decide_eq_true_2 by eauto. cbn.
    eexists. split; [reflexivity|].
    split; [rewrite <- app_assoc; reflexivity|].
    unfold FS.write, FS.rename.
    rewrite !(append_line_lookup_ne "log.txt" "my_model_pinn.pt") by discriminate.
    rewrite Hc. split; [|split; [|split]].
    + intros name c Hin. unfold metric_files in Hin. entries.
      repeat (apply elem_of_cons in Hin; destruct Hin as [[= -> ->]|Hin]);
        [by simplify_map_eq.. | by apply elem_of_nil in Hin].
    + intros name Hout.
      rewrite !lookup_insert_ne by not_listed Hout.
      rewrite lookup_delete_ne by not_listed Hout.
      rewrite !append_line_lookup_ne by not_listed Hout. reflexivity.
    + intros ls Hls.
      rewrite !lookup_insert_ne by discriminate.
      rewrite lookup_delete_ne by discriminate.
      rewrite (append_line_lookup_log _ _ (ls ++ [Text "Saving..."]))
        by (now apply append_line_lookup_log).
      now rewrite <- app_assoc.
    + intros c.
      rewrite !lookup_insert_ne by discriminate.
      rewrite lookup_delete_ne by discriminate.
      intros H. apply append_line_lookup_cases in H as [H|H]; [auto|].
      apply append_line_lookup_cases in H. exact H.
  - rewrite bool_decide_eq_false_2 by (intros [? ?]; discriminate). cbn.
    eexists. split; [reflexivity|]. split; [reflexivity|].
    unfold FS.write. split; [|split; [|split]].
    + intros name c Hin. unfold metric_files in Hin. entries.
      repeat (apply elem_of_cons in Hin; destruct Hin as [[= -> ->]|Hin]);
        [by simplify_map_eq.. | by apply elem_of_nil in Hin].
    + intros name Hout.
      rewrite !lookup_insert_ne by not_listed Hout.
      rewrite !append_line_lookup_ne by not_listed Hout. reflexivity.
    + intros ls Hls.
      rewrite !lookup_insert_ne by discriminate.
      now apply append_line_lookup_log.
    + intros c.
      rewrite !lookup_insert_ne by discriminate.
      apply append_line_lookup_cases.
Qed.

Lemma metric_files_tables (h : histories) (name : string) (c : FS.content) :
  (name, c) ∈ metric_files h -> exists rows, c = FS.Table rows.
Proof.
  unfold metric_files, column_table. intros Hin.
  repeat (apply elem_of_cons in Hin; destruct Hin as [[= -> ->]|Hin]);
    [eauto.. | by apply elem_of_nil in Hin].
Qed.

Lemma metric_files_names (h h' : histories) :
  map fst (metric_files h) = map fst (metric_files h').
Proof. reflexivity. Qed.

(** A checkpoint found after the persistence stage anywhere but at the
    two checkpoint entries was there before. *)
Lemma save_model_keeps_checkpoints (state_dict x : list Torch.tensor)
    (h : histories) (w : world) (d d' : FS.directory) (name : string) :
  outdir w = Some d ->
  outdir (save_model state_dict h w) = Some d' ->
  name <> primary -> name <> backup ->
  d' !! name = Some (FS.Checkpoint x) -> d !! name = Some (FS.Checkpoint x).
Proof.
  intros Hd Hd' Hp Hb Hx.
  destruct (save_model_lookup state_dict h w d Hd)
    as (d1 & Hd1 & _ & Hm & Hframe & _ & Hlog).
  rewrite Hd' in Hd1. injection Hd1 as <-.
  destruct (decide (name ∈ script_files)) as [Hin|Hout].
  - unfold script_files in Hin.
    apply elem_of_cons in Hin as [->|Hin].
    { apply Hlog in Hx as [[ls [=]]|Hx]. exact Hx. }
    apply elem_of_cons in Hin as [->|Hin]; [contradiction|].
    apply elem_of_cons in Hin as [->|Hin]; [contradiction|].
    rewrite (metric_files_names _ h) in Hin.
    apply list_elem_of_fmap in Hin as [[n c] [-> Hin]].
    pose proof (Hm _ _ Hin) as Hc. simpl in Hx. rewrite Hc in Hx.
    apply metric_files_tables in Hin as [rows ->]. discriminate Hx.
  - rewrite <- Hframe by exact Hout. exact Hx.
Qed.

(** X11: the persistence stage leaves each of the five metric files
    holding its history, and touches no entry of the directory other
    than the log, the checkpoint, its backup and those five files. The
    test costs and the loss-metric history are in no file it writes. *)
Theorem save_model_writes_histories
    (state_dict : list Torch.tensor) (h : histories) (w : world)
    (d : FS.directory) :
  outdir w = Some d ->
  exists d',
    outdir (save_model state_dict h w) = Some d'
    /\ d' !! "cost_per_epoch.txt"
       = Some (FS.Table (map (fun x => [x]) (cost_per_epoc h)))
    /\ d' !! "component_losses_test.txt"
       = Some (FS.Table (component_losses_test h))
    /\ d' !! "component_losses_train.txt"
       = Some (FS.Table (component_losses_train h))
    /\ d' !! "d_component_losses_test.txt"
       = Some (FS.Table (d_component_losses_test h))
    /\ d' !! "d_component_losses_train.txt"
       = Some (FS.Table (d_component_losses_train h))
    /\ (forall name, name ∉ script_files -> d' !! name = d !! name)
    /\ forall test_costs metrics,
         save_model state_dict
           (Histories (cost_per_epoc h)
              (component_losses_test h) (component_losses_train h)
              (d_component_losses_test h) (d_component_losses_train h)
              test_costs metrics) w
         = save_model state_dict h w.
Proof.
  intros Hd.
  destruct (save_model_lookup state_dict h w d Hd)
    as (d' & Hd' & _ & Hm & Hframe & _ & _).
  exists d'. split; [exact Hd'|].
  repeat match goal with
         | |- _ !! _ = Some _ /\ _ =>
             split; [apply Hm; unfold metric_files; entries;
                     repeat first [apply list_elem_of_here
                                  | apply list_elem_of_further]|]
         end.
  split; [exact Hframe|]. intros test_costs metrics. reflexivity.
Qed.

Lemma save_model_writes_histories_witness :
  exists d',
    outdir (save_model [Fixture.bias]
              (Histories [Py.fone] [[Py.fzero]] [[Py.fone]] [] []
                         [Py.fzero] [])
              (World (Some {[ "notes.txt" := FS.Other "kept" ]}) []))
    = Some d'
    /\ d' !! "cost_per_epoch.txt" = Some (FS.Table [[Py.fone]])
    /\ d' !! "component_losses_train.txt" = Some (FS.Table [[Py.fone]])
    /\ d' !! "notes.txt" = Some (FS.Other "kept").
Proof.
  destruct (save_model_writes_histories [Fixture.bias]
              (Histories [Py.fone] [[Py.fzero]] [[Py.fone]] [] []
                         [Py.fzero] [])
              (World (Some {[ "notes.txt" := FS.Other "kept" ]}) [])
              {[ "notes.txt" := FS.Other "kept" ]} eq_refl)
    as (d' & H1 & H2 & _ & H4 & _ & _ & H7 & _).
  exists d'. split; [exact H1|]. split; [exact H2|]. split; [exact H4|].
  rewrite H7; [reflexivity|]. vm_compute.
  intros H. repeat (apply elem_of_cons in H as [H|H]; [discriminate H|]).
  by apply elem_of_nil in H.
Defined.

(** X12: the backup holds one generation only. After three runs of the
    persistence stage the checkpoint holds the third weights and the
    backup the second; the first weights, when they differ from both and
    were nowhere in the directory before, are in no entry any more. *)
Theorem third_save_loses_first_weights
    (theta1 theta2 theta3 : list Torch.tensor) (h1 h2 h3 : histories)
    (w : world) (d : FS.directory) :
  outdir w = Some d ->
  theta1 <> theta2 -> theta1 <> theta3 ->
  (forall name, d !! name <> Some (FS.Checkpoint theta1)) ->
  exists d3,
    outdir (save_model theta3 h3 (save_model theta2 h2 (save_model theta1 h1 w)))
    = Some d3
    /\ d3 !! primary = Some (FS.Checkpoint theta3)
    /\ d3 !! backup = Some (FS.Checkpoint theta2)
    /\ forall name, d3 !! name <> Some (FS.Checkpoint theta1).
Proof.
  intros Hd H12 H13 Hfresh.
  destruct (save_model_entries theta1 h1 w d Hd) as (d1 & Hd1 & Hp1 & _ & _).
  destruct (save_model_entries theta2 h2 _ d1 Hd1) as (d2 & Hd2 & Hp2 & Hb2 & _).
  destruct (save_model_entries theta3 h3 _ d2 Hd2) as (d3 & Hd3 & Hp3 & Hb3 & _).
  rewrite Hp2 in Hb3.
  exists d3. split; [exact Hd3|]. split; [exact Hp3|]. split; [exact Hb3|].
  intros name Hx.
  destruct (decide (name = primary)) as [->|Hnp];
    [rewrite Hp3 in Hx; congruence|].
  destruct (decide (name = backup)) as [->|Hnb];
    [rewrite Hb3 in Hx; congruence|].
  apply (save_model_keeps_checkpoints _ _ _ _ d2 d3 name Hd2 Hd3 Hnp Hnb) in Hx.
  apply (save_model_keeps_checkpoints _ _ _ _ d1 d2 name Hd1 Hd2 Hnp Hnb) in Hx.
  apply (save_model_keeps_checkpoints _ _ _ _ d d1 name Hd Hd1 Hnp Hnb) in Hx.
  exact (Hfresh name Hx).
Qed.

Lemma third_save_loses_first_weights_witness :
  let h := Histories [] [] [] [] [] [] [] in
  exists d3,
    outdir (save_model [[[Fixture.two]]] h
              (save_model [[[Py.fone]]] h
                 (save_model [[[Py.fzero]]] h (World (Some ∅) []))))
    = Some d3
    /\ d3 !! primary = Some (FS.Checkpoint [[[Fixture.two]]])
    /\ d3 !! backup = Some (FS.Checkpoint [[[Py.fone]]])
    /\ forall name, d3 !! name <> Some (FS.Checkpoint [[[Py.fzero]]]).
Proof.
  intros h.
  apply (third_save_loses_first_weights _ _ _ h h h (World (Some ∅) []) ∅
           eq_refl).
  - discriminate.
  - discriminate.
  - intros name. rewrite lookup_empty. discriminate.
Defined.

(** ** Whole runs of the script *)

Lemma print_outdir (l : line) (w : world) (d : FS.directory) :
  outdir w = Some d ->
  print l w = World (Some (FS.append_line "log.txt" l d)) (terminal w ++ [l]).
Proof. intros H. unfold print. rewrite H. reflexivity. Qed.

Lemma print_spec (l : line) (w : world) (d : FS.directory) (ls : list line) :
  outdir w = Some d -> d !! "log.txt" = Some (FS.LogFile ls) ->
  print l w
  = World (Some (<["log.txt" := FS.LogFile (ls ++ [l])]> d)) (terminal w ++ [l]).
Proof.
  intros H Hls. rewrite (print_outdir l w d H).
  unfold FS.append_line. now rewrite Hls.
Qed.

Lemma prints_spec (lines : list line) (w : world) (d : FS.directory)
    (ls : list line) :
  outdir w = Some d -> d !! "log.txt" = Some (FS.LogFile ls) ->
  foldl (fun w l => print l w) w lines
  = World (Some (<["log.txt" := FS.LogFile (ls ++ lines)]> d))
          (terminal w ++ lines).
Proof.
  revert w d ls. induction lines as [|l lines IH]; intros w d ls Hd Hls.
  - cbn. rewrite !app_nil_r, insert_id by exact Hls.
    destruct w; simpl in *; now subst.
  - cbn [foldl]. rewrite (print_spec l w d ls Hd Hls).
    rewrite (IH (World (Some (<["log.txt" := FS.LogFile (ls ++ [l])]> d))
                       (terminal w ++ [l]))
               (<["log.txt" := FS.LogFile (ls ++ [l])]> d) (ls ++ [l])
               eq_refl) by apply lookup_insert_eq.
    cbn [terminal]. now rewrite insert_insert_eq, <- !app_assoc.
Qed.

Lemma lookup_nonempty (d : FS.directory) (name : string) (c : FS.content) :
  d !! name = Some c -> d <> ∅.
Proof. intros H ->. rewrite lookup_empty in H. discriminate H. Qed.

Lemma append_line_nonempty (log : string) (l : line) (d : FS.directory) :
  d <> ∅ -> FS.append_line log l d <> ∅.
Proof.
  intros Hne. unfold FS.append_line.
  destruct (d !! log) as [[ls| | |]|]; try exact Hne.
  apply insert_non_empty.
Qed.

Lemma in_use_nonempty (w : world) :
  output_dir_in_use w = true <-> exists d, outdir w = Some d /\ d <> ∅.
Proof.
  unfold output_dir_in_use. destruct (outdir w) as [d|].
  - destruct (size d =? 0)%nat eqn:Hs; cbn.
    + apply Nat.eqb_eq, map_size_empty_iff in Hs. subst d.
      split; [discriminate|]. intros (d & [= <-] & Hne). contradiction.
    + split; [|reflexivity]. intros _. exists d. split; [reflexivity|].
      intros ->. rewrite map_size_empty in Hs. discriminate Hs.
  - split; [discriminate|]. intros (d & [=] & _).
Qed.

Lemma save_model_lines_fresh (d : FS.directory) :
  d !! primary = None -> save_model_lines d = [Text "Saving..."].
Proof.
  intros H. unfold save_model_lines, FS.exists_. rewrite H.
  rewrite bool_decide_eq_false_2; [reflexivity|].
  intros [? ?]; discriminate.
Qed.

Section ScriptRuns.

Variable cfg : config.
Variable output_width : Z.
Variables train_loader test_loader
  : nat -> list (Torch.tensor * Torch.tensor).
Variable model : Torch.Network.
Variable theta0 : list Torch.tensor.
Variable optimizer : Optimizer.
Variable opt0 : opt_state optimizer.
Variables L1Loss MSELoss : Torch.diff2.
Variable losses_module : Losses.
Variable dt_string : string.
Variable do_all_plots
  : list Torch.tensor -> histories -> FS.directory -> FS.directory.

Local Abbreviation script :=
  (driver cfg output_width train_loader test_loader model theta0 optimizer
          opt0 L1Loss MSELoss losses_module dt_string do_all_plots).

Local Abbreviation trained :=
  (train cfg (Z.to_nat (Setup.nnuc output_width)) model L1Loss MSELoss
         losses_module optimizer train_loader test_loader
         (initial_state theta0 optimizer opt0)).

(** The world once the banner is printed. *)
Local Abbreviation started w :=
  (World (Some {[ "log.txt" := FS.LogFile (banner_lines cfg dt_string) ]})
         (terminal w ++ banner_lines cfg dt_string)).

(** Lines 372-384. *)
Local Abbreviation saving st w :=
  (if SAVE_MODEL cfg
   then save_model (theta optimizer st) (hist optimizer st) w
   else w).

(** Lines 387-400. *)
Local Abbreviation finishing st w :=
  (print (Text "")
     (print (Text "Success! :) ")
        (if DO_PLOTTING cfg
         then World (do_all_plots (theta optimizer st) (hist optimizer st)
                       <$> outdir (print (Text "Plotting...") w))
                    (terminal (print (Text "Plotting...") w))
         else w))).

(** Plotting leaves the entry [name] as it finds it. *)
Local Abbreviation plots_keep name :=
  (forall th h (d : FS.directory), do_all_plots th h d !! name = d !! name).

Lemma driver_unfold (w : world) :
  output_dir_in_use w = false ->
  script w
  = match trained with
    | Py.Raise e => Outcome (Py.Raise e) (started w)
    | Py.Ok st =>
        Outcome (Py.Ok tt)
          (finishing st
             (saving st
                (foldl (fun w l => print l w) (started w)
                       (stdout optimizer st))))
    end.
Proof.
  intros Huse. unfold driver. rewrite Huse.
  change (banner cfg dt_string ?x)
    with (foldl (fun w l => print l w) x (banner_lines cfg dt_string)).
  assert (Hstart :
    World (FS.open_append (entry log_file)
             <$> outdir match outdir w with
                        | Some _ => w
                        | None => World (Some ∅) (terminal w)
                        end)
          (terminal match outdir w with
                    | Some _ => w
                    | None => World (Some ∅) (terminal w)
                    end)
    = World (Some {[ "log.txt" := FS.LogFile [] ]}) (terminal w)).
  { destruct w as [[d|] t]; cbn.
    - unfold output_dir_in_use in Huse. cbn in Huse.
      apply negb_false_iff, Nat.eqb_eq, map_size_empty_iff in Huse.
      subst d. reflexivity.
    - reflexivity. }
  rewrite Hstart.
  rewrite (prints_spec (banner_lines cfg dt_string)
             (World (Some {[ "log.txt" := FS.LogFile [] ]}) (terminal w))
             {[ "log.txt" := FS.LogFile [] ]} [] eq_refl)
    by apply lookup_singleton_eq.
  rewrite insert_singleton_eq. cbn [terminal app]. reflexivity.
Qed.

Lemma finishing_spec (st : state optimizer) (w : world) (d : FS.directory)
    (ls : list line) :
  outdir w = Some d -> d !! "log.txt" = Some (FS.LogFile ls) ->
  let tail := (if DO_PLOTTING cfg then [Text "Plotting..."] else [])
              ++ [Text "Success! :) "; Text ""] in
  exists d',
    outdir (finishing st w) = Some d'
    /\ terminal (finishing st w) = terminal w ++ tail
    /\ (plots_keep "log.txt" ->
        d' !! "log.txt" = Some (FS.LogFile (ls ++ tail)))
    /\ (forall name, name <> "log.txt" -> plots_keep name ->
                     d' !! name = d !! name).
Proof.
  intros Hd Hls tail. subst tail. destruct (DO_PLOTTING cfg).
  - rewrite (print_spec (Text "Plotting...") w d ls Hd Hls).
    cbn [outdir terminal fmap option_fmap option_map].
    erewrite (print_outdir (Text "Success! :) ")) by reflexivity.
    erewrite (print_outdir (Text "")) by reflexivity.
    cbn [outdir terminal].
    eexists. split; [reflexivity|].
    split; [now rewrite <- !app_assoc|]. split.
    + intros Hkeep.
      rewrite (append_line_lookup_log _ _
                 (ls ++ [Text "Plotting..."; Text "Success! :) "])).
      * now rewrite <- app_assoc.
      * rewrite (append_line_lookup_log _ _ (ls ++ [Text "Plotting..."])).
        -- now rewrite <- app_assoc.
        -- rewrite Hkeep. apply lookup_insert_eq.
    + intros name Hne Hkeep.
      rewrite !append_line_lookup_ne by exact Hne.
      rewrite Hkeep. rewrite lookup_insert_ne by congruence. reflexivity.
  - rewrite (print_spec (Text "Success! :) ") w d ls Hd Hls).
    erewrite (print_spec (Text "")) by (reflexivity || apply lookup_insert_eq).
    cbn [outdir terminal app].
    eexists. split; [reflexivity|].
    split; [now rewrite <- app_assoc|]. split.
    + intros _. rewrite lookup_insert_eq. now rewrite <- app_assoc.
    + intros name Hne _. rewrite !lookup_insert_ne by congruence. reflexivity.
Qed.

(** X13: a run that passed the run guard and whose training raises ends
    with that exception and leaves the output directory with the log
    file and nothing else: no checkpoint and no metric file is
    written. *)
Theorem crash_leaves_only_the_log (w : world) (e : Py.exn) :
  output_dir_in_use w = false ->
  trained = Py.Raise e ->
  status (script w) = Py.Raise e
  /\ exists d ls,
       outdir (final (script w)) = Some d
       /\ d !! "log.txt" = Some (FS.LogFile ls)
       /\ forall name, name <> "log.txt" -> d !! name = None.
Proof.
  intros Huse He. rewrite (driver_unfold w Huse), He. cbn [status final outdir].
  split; [reflexivity|]. eexists. eexists. split; [reflexivity|].
  split; [apply lookup_singleton_eq|].
  intros name Hne. apply lookup_singleton_ne. congruence.
Qed.

(** X14: a run that starts on a missing or empty output directory,
    trains to the end and saves, leaves the trained parameters in the
    checkpoint, each history in its metric file and no backup file,
    provided plotting leaves these files alone. *)
Theorem completed_run_files (w : world) (st : state optimizer) :
  output_dir_in_use w = false ->
  SAVE_MODEL cfg = true ->
  (forall name, name ∈ script_files -> plots_keep name) ->
  trained = Py.Ok st ->
  status (script w) = Py.Ok tt
  /\ exists d,
       outdir (final (script w)) = Some d
       /\ d !! primary = Some (FS.Checkpoint (theta optimizer st))
       /\ d !! backup = None
       /\ forall name c, (name, c) ∈ metric_files (hist optimizer st) ->
                         d !! name = Some c.
Proof.
  intros Huse Hsave Hkeep Hst.
  rewrite (driver_unfold w Huse), Hst, Hsave. cbn [status final].
  split; [reflexivity|].
  rewrite (prints_spec (stdout optimizer st) (started w)
             {[ "log.txt" := FS.LogFile (banner_lines cfg dt_string) ]}
             (banner_lines cfg dt_string) eq_refl)
    by apply lookup_singleton_eq.
  rewrite insert_singleton_eq.
  set (d1 := ({[ "log.txt" := FS.LogFile (banner_lines cfg dt_string
                                          ++ stdout optimizer st) ]}
              : FS.directory)).
  set (w1 := World (Some d1) _).
  assert (Hd1 : outdir w1 = Some d1) by reflexivity.
  destruct (save_model_entries (theta optimizer st) (hist optimizer st) w1 d1 Hd1)
    as (d2 & Hd2 & Hp & Hb & _).
  destruct (save_model_lookup (theta optimizer st) (hist optimizer st) w1 d1 Hd1)
    as (d2' & Hd2' & _ & Hm & _ & Hlog & _).
  rewrite Hd2 in Hd2'. injection Hd2' as <-.
  specialize (Hlog _ (lookup_singleton_eq _ _)).
  destruct (finishing_spec st _ d2 _ Hd2 Hlog) as (d3 & Hd3 & _ & _ & Hother).
  exists d3. split; [exact Hd3|].
  assert (Hin : forall name, name ∈ script_files -> name <> "log.txt" ->
                             d3 !! name = d2 !! name).
  { intros name Hin Hne. apply Hother; [exact Hne|]. now apply Hkeep. }
  split; [|split].
  - rewrite Hin; [exact Hp| |discriminate].
    vm_compute. repeat first [apply list_elem_of_here | apply list_elem_of_further].
  - rewrite Hin; [| |discriminate].
    + rewrite Hb. unfold d1. rewrite !lookup_singleton_ne by discriminate.
      reflexivity.
    + vm_compute.
      repeat first [apply list_elem_of_here | apply list_elem_of_further].
  - intros name c Hc. rewrite Hin.
    + now apply Hm.
    + unfold script_files.
      rewrite (metric_files_names _ (hist optimizer st)).
      do 3 apply list_elem_of_further.
      apply list_elem_of_fmap. exists (name, c). auto.
    + unfold metric_files in Hc. entries.
      repeat (apply elem_of_cons in Hc; destruct Hc as [[= -> ->]|Hc]);
        [discriminate.. | by apply elem_of_nil in Hc].
Qed.

(** X15: in a run that starts on a missing or empty output directory and
    trains to the end, the log file holds exactly what the run printed
    on the terminal: the banner, one line per epoch, and the lines of
    the stages that follow, provided plotting leaves the log alone. *)
Theorem log_mirrors_terminal (w : world) (st : state optimizer) :
  output_dir_in_use w = false ->
  plots_keep "log.txt" ->
  trained = Py.Ok st ->
  exists d,
    outdir (final (script w)) = Some d
    /\ d !! "log.txt"
       = Some (FS.LogFile (run_lines cfg dt_string (stdout optimizer st)))
    /\ terminal (final (script w))
       = terminal w ++ run_lines cfg dt_string (stdout optimizer st).
Proof.
  intros Huse Hkeep Hst.
  rewrite (driver_unfold w Huse), Hst. cbn [status final].
  rewrite (prints_spec (stdout optimizer st) (started w)
             {[ "log.txt" := FS.LogFile (banner_lines cfg dt_string) ]}
             (banner_lines cfg dt_string) eq_refl)
    by apply lookup_singleton_eq.
  rewrite insert_singleton_eq. cbn [terminal].
  set (d1 := ({[ "log.txt" := FS.LogFile (banner_lines cfg dt_string
                                          ++ stdout optimizer st) ]}
              : FS.directory)).
  set (w1 := World (Some d1) _).
  assert (Hd1 : outdir w1 = Some d1) by reflexivity.
  assert (Hsaved : exists d2,
             outdir (saving st w1) = Some d2
             /\ d2 !! "log.txt"
                = Some (FS.LogFile
                          ((banner_lines cfg dt_string ++ stdout optimizer st)
                           ++ if SAVE_MODEL cfg then [Text "Saving..."] else []))
             /\ terminal (saving st w1)
                = terminal w1 ++ if SAVE_MODEL cfg then [Text "Saving..."] else []).
  { destruct (SAVE_MODEL cfg).
    - destruct (save_model_lookup (theta optimizer st) (hist optimizer st)
                  w1 d1 Hd1) as (d2 & Hd2 & Ht & _ & _ & Hlog & _).
      specialize (Hlog _ (lookup_singleton_eq _ _)).
      rewrite save_model_lines_fresh in Hlog, Ht
        by (now apply lookup_singleton_ne).
      eauto.
    - exists d1. rewrite !app_nil_r.
      split; [exact Hd1|]. split; [apply lookup_singleton_eq|reflexivity]. }
  destruct Hsaved as (d2 & Hd2 & Hlog2 & Ht2).
  destruct (finishing_spec st _ d2 _ Hd2 Hlog2) as (d3 & Hd3 & Ht3 & Hlog3 & _).
  exists d3. split; [exact Hd3|]. unfold run_lines. split.
  - rewrite (Hlog3 Hkeep). now rewrite <- !app_assoc.
  - rewrite Ht3, Ht2. unfold w1. cbn [terminal]. now rewrite <- !app_assoc.
Qed.

(** X16: whatever a run does, it leaves the output directory existing
    and not empty, so the next run of the script stops at the run guard
    and leaves the directory as the first run left it; plotting is
    assumed not to empty the directory. *)
Theorem next_run_exits (w : world) :
  (forall th h (d : FS.directory), d <> ∅ -> do_all_plots th h d <> ∅) ->
  output_dir_in_use (final (script w)) = true
  /\ status (script (final (script w))) = Py.Raise Py.SystemExit
  /\ outdir (final (script (final (script w)))) = outdir (final (script w)).
Proof.
  intros Hplots.
  assert (Hguard : forall w0, output_dir_in_use w0 = true ->
            status (script w0) = Py.Raise Py.SystemExit
            /\ outdir (final (script w0)) = outdir w0).
  { intros w0 H. unfold driver. rewrite H. split; reflexivity. }
  assert (Huse : output_dir_in_use (final (script w)) = true).
  { destruct (output_dir_in_use w) eqn:Hw.
    - destruct (Hguard w Hw) as [_ Ho].
      apply in_use_nonempty. apply in_use_nonempty in Hw.
      rewrite Ho. exact Hw.
    - rewrite (driver_unfold w Hw). apply in_use_nonempty.
      destruct trained as [st|e]; cbn [final].
      + rewrite (prints_spec (stdout optimizer st) (started w)
                   {[ "log.txt" := FS.LogFile (banner_lines cfg dt_string) ]}
                   (banner_lines cfg dt_string) eq_refl)
          by apply lookup_singleton_eq.
        set (w1 := World (Some _) _).
        assert (H1 : exists d, outdir w1 = Some d /\ d <> ∅).
        { eexists. split; [reflexivity|]. apply insert_non_empty. }
        assert (H2 : exists d, outdir (saving st w1) = Some d /\ d <> ∅).
        { destruct (SAVE_MODEL cfg); [|exact H1].
          destruct H1 as (d1 & Hd1 & _).
          destruct (save_model_entries (theta optimizer st)
                      (hist optimizer st) w1 d1 Hd1) as (d2 & Hd2 & Hp & _).
          exists d2. split; [exact Hd2|]. exact (lookup_nonempty _ _ _ Hp). }
        destruct H2 as (d2 & Hd2 & Hne2).
        destruct (DO_PLOTTING cfg).
        * rewrite (print_outdir _ _ _ Hd2).
          cbn [outdir terminal fmap option_fmap option_map].
          erewrite (print_outdir (Text "Success! :) ")) by reflexivity.
          erewrite (print_outdir (Text "")) by reflexivity. cbn [outdir].
          eexists. split; [reflexivity|].
          apply append_line_nonempty, append_line_nonempty, Hplots,
            append_line_nonempty, Hne2.
        * rewrite (print_outdir _ _ _ Hd2).
          erewrite (print_outdir (Text "")) by reflexivity. cbn [outdir].
          eexists. split; [reflexivity|].
          apply append_line_nonempty, append_line_nonempty, Hne2.
      + eexists. split; [reflexivity|]. apply insert_non_empty. }
  split; [exact Huse|]. exact (Hguard _ Huse).
Qed.

End ScriptRuns.

Lemma crash_leaves_only_the_log_witness :
  let o := driver driver_config 4 Fixture.loader Fixture.loader
                  (Fixture.identity_net 1) [] Fixture.frozen tt
                  Fixture.first_entry Fixture.first_entry Fixture.entry_losses
                  "11/03/2021 10:00:00" (fun _ _ d => d) (World None []) in
  status o = Py.Raise Py.IndexError
  /\ exists d ls,
       outdir (final o) = Some d
       /\ d !! "log.txt" = Some (FS.LogFile ls)
       /\ forall name, name <> "log.txt" -> d !! name = None.
Proof.
  apply (crash_leaves_only_the_log driver_config 4 Fixture.loader
           Fixture.loader (Fixture.identity_net 1) [] Fixture.frozen tt
           Fixture.first_entry Fixture.first_entry Fixture.entry_losses
           "11/03/2021 10:00:00" (fun _ _ d => d) (World None [])
           Py.IndexError).
  - reflexivity.
  - vm_compute. reflexivity.
Defined.

Lemma completed_run_files_witness :
  exists st,
    train driver_config 1 (Fixture.identity_net 2) Fixture.first_entry
          Fixture.first_entry Fixture.entry_losses Fixture.frozen
          Fixture.loader Fixture.loader (initial_state [] Fixture.frozen tt)
    = Py.Ok st
    /\ status (Fixture.run (World None [])) = Py.Ok tt
    /\ exists d,
         outdir (final (Fixture.run (World None []))) = Some d
         /\ d !! primary = Some (FS.Checkpoint (theta Fixture.frozen st))
         /\ d !! backup = None
         /\ forall name c,
              (name, c) ∈ metric_files (hist Fixture.frozen st) ->
              d !! name = Some c.
Proof.
  destruct (train driver_config 1 (Fixture.identity_net 2) Fixture.first_entry
              Fixture.first_entry Fixture.entry_losses Fixture.frozen
              Fixture.loader Fixture.loader (initial_state [] Fixture.frozen tt))
    as [st|e] eqn:E; [|vm_compute in E; discriminate E].
  exists st. split; [reflexivity|].
  exact (completed_run_files driver_config 4 Fixture.loader Fixture.loader
           (Fixture.identity_net 2) [] Fixture.frozen tt Fixture.first_entry
           Fixture.first_entry Fixture.entry_losses "11/03/2021 10:00:00"
           (fun _ _ d => d) (World None []) st eq_refl eq_refl
           (fun _ _ _ _ _ => eq_refl) E).
Defined.

Lemma log_mirrors_terminal_witness :
  exists st d,
    train driver_config 1 (Fixture.identity_net 2) Fixture.first_entry
          Fixture.first_entry Fixture.entry_losses Fixture.frozen
          Fixture.loader Fixture.loader (initial_state [] Fixture.frozen tt)
    = Py.Ok st
    /\ outdir (final (Fixture.run (World None []))) = Some d
    /\ d !! "log.txt"
       = Some (FS.LogFile (run_lines driver_config "11/03/2021 10:00:00"
                                     (stdout Fixture.frozen st)))
    /\ terminal (final (Fixture.run (World None [])))
       = run_lines driver_config "11/03/2021 10:00:00"
                   (stdout Fixture.frozen st).
Proof.
  destruct (train driver_config 1 (Fixture.identity_net 2) Fixture.first_entry
              Fixture.first_entry Fixture.entry_losses Fixture.frozen
              Fixture.loader Fixture.loader (initial_state [] Fixture.frozen tt))
    as [st|e] eqn:E; [|vm_compute in E; discriminate E].
  destruct (log_mirrors_terminal driver_config 4 Fixture.loader Fixture.loader
              (Fixture.identity_net 2) [] Fixture.frozen tt Fixture.first_entry
              Fixture.first_entry Fixture.entry_losses "11/03/2021 10:00:00"
              (fun _ _ d => d) (World None []) st eq_refl
              (fun _ _ _ => eq_refl) E) as (d & H1 & H2 & H3).
  exists st, d. auto.
Defined.

Lemma next_run_exits_witness :
  let o := Fixture.run (World None []) in
  output_dir_in_use (final o) = true
  /\ status (Fixture.run (final o)) = Py.Raise Py.SystemExit
  /\ outdir (final (Fixture.run (final o))) = outdir (final o).
Proof.
  exact (next_run_exits driver_config 4 Fixture.loader Fixture.loader
           (Fixture.identity_net 2) [] Fixture.frozen tt Fixture.first_entry
           Fixture.first_entry Fixture.entry_losses "11/03/2021 10:00:00"
           (fun _ _ d => d) (World None []) (fun _ _ _ H => H)).
Defined.

(** ** The differentiator on a prediction that is too narrow *)

Lemma select_short_row (n : nat) (t : Torch.tensor) :
  Exists (fun row : list Py.float => (length row <= n)%nat) t ->
  Torch.select n t = Py.Raise Py.IndexError.
Proof.
  intros Hex. unfold Torch.select.
  destruct (mapM (fun row : list Py.float => row !! n) t) as [v|] eqn:E;
    [|reflexivity].
  assert (Hall : Forall (fun row : list Py.float => is_Some (row !! n)) t).
  { apply (mapM_is_Some_1 (fun row : list Py.float => row !! n)). eauto. }
  apply Exists_exists in Hex as (row & Hin & Hlen).
  rewrite Forall_forall in Hall. apply Hall in Hin.
  apply lookup_lt_is_Some in Hin. lia.
Qed.

Lemma for_each_raises {A S : Type} (body : A -> S -> Py.result S)
    (xs : list A) (x : A) (s : S) :
  x ∈ xs -> (forall a, exists e, body x a = Py.Raise e) ->
  exists e, for_each body xs s = Py.Raise e.
Proof.
  intros Hin Hx. revert s.
  induction xs as [|y xs IH]; intros s; [by apply elem_of_nil in Hin|].
  cbn [for_each]. destruct (body y s) as [s'|e] eqn:E; [|eauto].
  apply elem_of_cons in Hin as [->|Hin].
  - destruct (Hx s) as [e He]. congruence.
  - now apply IH.
Qed.

(** X17: the differentiator needs a prediction with the channels
    [0..nnuc] in every row: when a row has [nnuc] entries or fewer, the
    call raises, whatever the gradients held before, and returns no
    derivative. *)
Theorem differentiator_needs_all_channels
    (nnuc : nat) (prediction : Torch.var Torch.tensor) (s : autograd) :
  Exists (fun row : list Py.float => (length row <= nnuc)%nat)
         (Torch.val prediction) ->
  exists e, differentiator nnuc prediction s = Py.Raise e.
Proof.
  intros Hex. unfold differentiator.
  apply (for_each_raises _ _ nnuc).
  - apply elem_of_seq. lia.
  - intros [dXdt s0]. unfold differentiator_channel, Torch.select_var.
    rewrite (select_short_row nnuc _ Hex). eauto.
Qed.

Lemma differentiator_needs_all_channels_witness :
  exists e,
    differentiator 1 (Torch.leaf_var Torch.LData [[Py.fone]; [Py.fzero]])
                   (Autograd ∅ false)
    = Py.Raise e.
Proof.
  apply differentiator_needs_all_channels.
  apply Exists_cons_hd. simpl. lia.
Defined.

(** ** The normalisation of the data set *)

Lemma channel_Ok (c : nat) (t : Normalize.tensor3) (x : list (list Py.float)) :
  Normalize.channel c t = Py.Ok x
  <-> Forall2 (fun (sample : list (list Py.float)) row => sample !! c = Some row)
              t x.
Proof.
  unfold Normalize.channel. rewrite <- mapM_Some.
  destruct (mapM _ t); split; congruence.
Qed.

Lemma channel_assigned (c : nat) (t : Normalize.tensor3)
    (x y : list (list Py.float)) :
  Normalize.channel c t = Py.Ok x -> length y = length x ->
  Normalize.channel c
    (zip_with (fun (sample : list (list Py.float)) row => <[c := row]> sample)
              t y)
  = Py.Ok y.
Proof.
  intros Hx%channel_Ok Hlen. apply channel_Ok.
  revert y Hlen. induction Hx as [|s r t x Hs Hrest IH]; intros [|r' y] Hlen;
    try discriminate Hlen; constructor.
  - apply list_lookup_insert_eq. now apply lookup_lt_Some in Hs.
  - apply IH. now injection Hlen.
Qed.

Lemma channel_untouched (c c' : nat) (t : Normalize.tensor3)
    (x y : list (list Py.float)) :
  c <> c' ->
  Normalize.channel c t = Py.Ok x -> length y = length x ->
  Normalize.channel c'
    (zip_with (fun (sample : list (list Py.float)) row => <[c := row]> sample)
              t y)
  = Normalize.channel c' t.
Proof.
  intros Hne Hx%channel_Ok Hlen. unfold Normalize.channel.
  assert (E : mapM (fun sample : list (list Py.float) => sample !! c')
                (zip_with (fun (sample : list (list Py.float)) row =>
                             <[c := row]> sample) t y)
              = mapM (fun sample : list (list Py.float) => sample !! c') t).
  { revert y Hlen.
    induction Hx as [|s r t x Hs Hrest IH]; intros [|r' y] Hlen;
      try discriminate Hlen; [reflexivity|].
    cbn. rewrite list_lookup_insert_ne by exact Hne.
    rewrite IH by (now injection Hlen). reflexivity. }
  now rewrite E.
Qed.

Lemma scale_same (c : nat) (fac : Py.float) (t t' : Normalize.tensor3)
    (x : list (list Py.float)) :
  Normalize.channel c t = Py.Ok x ->
  Normalize.scale c fac t = Py.Ok t' ->
  Normalize.channel c t' = Py.Ok (Normalize.div fac x).
Proof.
  intros Hx. unfold Normalize.scale. rewrite Hx. cbn. intros [= <-].
  apply (channel_assigned c t x); [exact Hx|].
  unfold Normalize.div. now rewrite length_map.
Qed.

Lemma scale_other (c c' : nat) (fac : Py.float) (t t' : Normalize.tensor3) :
  c <> c' ->
  Normalize.scale c fac t = Py.Ok t' ->
  Normalize.channel c' t' = Normalize.channel c' t.
Proof.
  intros Hne. unfold Normalize.scale.
  destruct (Normalize.channel c t) as [x|e] eqn:Hx; [|discriminate].
  cbn. intros [= <-].
  apply (channel_untouched c c' t x); [exact Hne|exact Hx|].
  unfold Normalize.div. now rewrite length_map.
Qed.

(** The four steps of the normalisation, named. *)
Lemma normalize_steps (nnuc : nat) (input_data output_data : Normalize.tensor3)
    (input_data' output_data' : Normalize.tensor3) :
  Normalize.normalize nnuc input_data output_data
  = Py.Ok (input_data', output_data') ->
  exists dens temp enuc enuc_dot dens_fac temp_fac enuc_fac enuc_dot_fac i1 o1,
    Normalize.channel (nnuc + 1) input_data = Py.Ok dens
    /\ Normalize.max dens = Py.Ok dens_fac
    /\ Normalize.channel (nnuc + 2) input_data = Py.Ok temp
    /\ Normalize.max temp = Py.Ok temp_fac
    /\ Normalize.channel nnuc output_data = Py.Ok enuc
    /\ Normalize.max enuc = Py.Ok enuc_fac
    /\ Normalize.channel (2 * (nnuc + 1) - 1) output_data = Py.Ok enuc_dot
    /\ Normalize.max enuc_dot = Py.Ok enuc_dot_fac
    /\ Normalize.scale (nnuc + 1) dens_fac input_data = Py.Ok i1
    /\ Normalize.scale (nnuc + 2) temp_fac i1 = Py.Ok input_data'
    /\ Normalize.scale nnuc enuc_fac output_data = Py.Ok o1
    /\ Normalize.scale (2 * (nnuc + 1) - 1) enuc_dot_fac o1 = Py.Ok output_data'.
Proof.
  unfold Normalize.normalize.
  destruct (Normalize.channel (nnuc + 1) input_data) as [dens|] eqn:H1;
    [|discriminate]. cbn [mbind result_bind Py.bind].
  destruct (Normalize.max dens) as [dens_fac|] eqn:H2; [|discriminate]. cbn [mbind result_bind Py.bind].
  destruct (Normalize.channel (nnuc + 2) input_data) as [temp|] eqn:H3;
    [|discriminate]. cbn [mbind result_bind Py.bind].
  destruct (Normalize.max temp) as [temp_fac|] eqn:H4; [|discriminate]. cbn [mbind result_bind Py.bind].
  destruct (Normalize.channel nnuc output_data) as [enuc|] eqn:H5;
    [|discriminate]. cbn [mbind result_bind Py.bind].
  destruct (Normalize.max enuc) as [enuc_fac|] eqn:H6; [|discriminate]. cbn [mbind result_bind Py.bind].
  destruct (Normalize.channel (2 * (nnuc + 1) - 1) output_data)
    as [enuc_dot|] eqn:H7; [|discriminate]. cbn [mbind result_bind Py.bind].
  destruct (Normalize.max enuc_dot) as [enuc_dot_fac|] eqn:H8;
    [|discriminate]. cbn [mbind result_bind Py.bind].
  destruct (Normalize.scale (nnuc + 1) dens_fac input_data) as [i1|] eqn:H9;
    [|discriminate]. cbn [mbind result_bind Py.bind].
  destruct (Normalize.scale (nnuc + 2) temp_fac i1) as [i2|] eqn:H10;
    [|discriminate]. cbn [mbind result_bind Py.bind].
  destruct (Normalize.scale nnuc enuc_fac output_data) as [o1|] eqn:H11;
    [|discriminate]. cbn [mbind result_bind Py.bind].
  destruct (Normalize.scale (2 * (nnuc + 1) - 1) enuc_dot_fac o1)
    as [o2|] eqn:H12; [|discriminate]. cbn [mbind result_bind Py.bind].
  intros [= <- <-].
  exists dens, temp, enuc, enuc_dot, dens_fac, temp_fac, enuc_fac,
         enuc_dot_fac, i1, o1.
  auto 15.
Qed.

(** What the normalisation leaves in each channel. *)
Lemma normalize_channels (nnuc : nat) (input_data output_data : Normalize.tensor3)
    (input_data' output_data' : Normalize.tensor3) :
  Normalize.normalize nnuc input_data output_data
  = Py.Ok (input_data', output_data') ->
  (forall c, Normalize.channel c input_data'
             = if bool_decide (c = nnuc + 1 \/ c = nnuc + 2)%nat
               then Normalize.by_own_max c input_data
               else Normalize.channel c input_data)
  /\ (forall c, Normalize.channel c output_data'
                = if bool_decide (c = nnuc \/ c = 2 * (nnuc + 1) - 1)%nat
                  then Normalize.by_own_max c output_data
                  else Normalize.channel c output_data).
Proof.
  intros H. apply normalize_steps in H
    as (dens & temp & enuc & enuc_dot & dens_fac & temp_fac & enuc_fac
        & enuc_dot_fac & i1 & o1 & H1 & H2 & H3 & H4 & H5 & H6 & H7 & H8
        & H9 & H10 & H11 & H12).
  split; intros c; case_bool_decide as Hc.
  - unfold Normalize.by_own_max. destruct Hc as [-> | ->].
    + rewrite (scale_other (nnuc + 2) (nnuc + 1) _ _ _ ltac:(lia) H10).
      rewrite (scale_same _ _ _ _ _ H1 H9), H1. cbn. now rewrite H2.
    + assert (Hi1 : Normalize.channel (nnuc + 2) i1 = Py.Ok temp)
        by (now rewrite (scale_other (nnuc + 1) (nnuc + 2) _ _ _ ltac:(lia) H9)).
      rewrite (scale_same _ _ _ _ _ Hi1 H10), H3. cbn. now rewrite H4.
  - rewrite (scale_other (nnuc + 2) c _ _ _ ltac:(lia) H10).
    now rewrite (scale_other (nnuc + 1) c _ _ _ ltac:(lia) H9).
  - unfold Normalize.by_own_max. destruct Hc as [-> | ->].
    + rewrite (scale_other (2 * (nnuc + 1) - 1) nnuc _ _ _ ltac:(lia) H12).
      rewrite (scale_same _ _ _ _ _ H5 H11), H5. cbn. now rewrite H6.
    + assert (Ho1 : Normalize.channel (2 * (nnuc + 1) - 1) o1 = Py.Ok enuc_dot)
        by (now rewrite (scale_other nnuc (2 * (nnuc + 1) - 1) _ _ _
                           ltac:(lia) H11)).
      rewrite (scale_same _ _ _ _ _ Ho1 H12), H7. cbn. now rewrite H8.
  - rewrite (scale_other (2 * (nnuc + 1) - 1) c _ _ _ ltac:(lia) H12).
    now rewrite (scale_other nnuc c _ _ _ ltac:(lia) H11).
Qed.

(** X18: the four in-place divisions of the normalisation do not
    interfere. Density and temperature in the inputs, the energy and its
    rate in the outputs each end up divided by their own maximum as it
    was in the loaded data; every other channel is as it was loaded. *)
Theorem normalize_channel_by_channel
    (nnuc : nat) (input_data output_data : Normalize.tensor3)
    (input_data' output_data' : Normalize.tensor3) (c : nat) :
  Normalize.normalize nnuc input_data output_data
  = Py.Ok (input_data', output_data') ->
  Normalize.channel c input_data'
  = (if bool_decide (c = nnuc + 1 \/ c = nnuc + 2)%nat
     then Normalize.by_own_max c input_data
     else Normalize.channel c input_data)
  /\ Normalize.channel c output_data'
     = (if bool_decide (c = nnuc \/ c = 2 * (nnuc + 1) - 1)%nat
        then Normalize.by_own_max c output_data
        else Normalize.channel c output_data).
Proof.
  intros H. apply normalize_channels in H as [Hi Ho]. split; auto.
Qed.

Lemma normalize_channel_by_channel_witness :
  let input_data := [[[Fixture.two]; [Py.fone; Fixture.two]; [Fixture.two]]] in
  let output_data := [[[Fixture.two]; [Py.fone]]] in
  exists input_data' output_data',
    Normalize.normalize 0 input_data output_data
    = Py.Ok (input_data', output_data')
    /\ Normalize.channel 1 input_data'
       = Normalize.by_own_max 1 input_data
    /\ Normalize.channel 1 output_data'
       = Normalize.by_own_max 1 output_data.
Proof.
  intros input_data output_data.
  destruct (Normalize.normalize 0 input_data output_data)
    as [[input_data' output_data']|e] eqn:E; [|vm_compute in E; discriminate E].
  exists input_data', output_data'. split; [reflexivity|].
  exact (normalize_channel_by_channel 0 input_data output_data
           input_data' output_data' 1 E).
Defined.

Lemma div_zero_not_finite (s : bool) (x : list (list Py.float)) :
  Forall (Forall (fun v => Py.isfinite v = false))
         (Normalize.div (S754_zero s) x).
Proof.
  unfold Normalize.div. apply Forall_forall. intros row Hrow.
  apply list_elem_of_fmap in Hrow as [r [-> _]].
  apply Forall_forall. intros v Hv.
  apply list_elem_of_fmap in Hv as [u [-> _]].
  destruct u as [[|]|[|]| |[|] m e], s; reflexivity.
Qed.

(** X19: the normalisation divides without looking at the factor. A
    normalised channel whose maximum in the loaded data is zero (either
    zero of binary64) holds no finite number afterwards: every entry is
    NaN or an infinity. *)
Theorem normalize_zero_maximum
    (nnuc : nat) (input_data output_data : Normalize.tensor3)
    (input_data' output_data' : Normalize.tensor3)
    (x : list (list Py.float)) (s : bool) :
  Normalize.normalize nnuc input_data output_data
  = Py.Ok (input_data', output_data') ->
  Normalize.max x = Py.Ok (S754_zero s) ->
  (forall c, (c = nnuc + 1 \/ c = nnuc + 2)%nat ->
             Normalize.channel c input_data = Py.Ok x ->
             exists x', Normalize.channel c input_data' = Py.Ok x'
                        /\ Forall (Forall (fun v => Py.isfinite v = false)) x')
  /\ (forall c, (c = nnuc \/ c = 2 * (nnuc + 1) - 1)%nat ->
                Normalize.channel c output_data = Py.Ok x ->
                exists x', Normalize.channel c output_data' = Py.Ok x'
                           /\ Forall (Forall (fun v => Py.isfinite v = false)) x').
Proof.
  intros H Hmax. apply normalize_channels in H as [Hi Ho].
  split; intros c Hc Hx; exists (Normalize.div (S754_zero s) x);
    (split; [|apply div_zero_not_finite]).
  - rewrite Hi, bool_decide_eq_true_2 by exact Hc.
    unfold Normalize.by_own_max. rewrite Hx. cbn. now rewrite Hmax.
  - rewrite Ho, bool_decide_eq_true_2 by exact Hc.
    unfold Normalize.by_own_max. rewrite Hx. cbn. now rewrite Hmax.
Qed.

Lemma normalize_zero_maximum_witness :
  let input_data := [[[Fixture.two]; [Py.fone; Fixture.two]; [Fixture.two]]] in
  let output_data := [[[Py.fzero; Py.fzero]; [Py.fone]]] in
  exists input_data' output_data',
    Normalize.normalize 0 input_data output_data
    = Py.Ok (input_data', output_data')
    /\ exists x', Normalize.channel 0 output_data' = Py.Ok x'
                  /\ Forall (Forall (fun v => Py.isfinite v = false)) x'.
Proof.
  intros input_data output_data.
  destruct (Normalize.normalize 0 input_data output_data)
    as [[input_data' output_data']|e] eqn:E; [|vm_compute in E; discriminate E].
  exists input_data', output_data'. split; [reflexivity|].
  destruct (normalize_zero_maximum 0 input_data output_data
              input_data' output_data' [[Py.fzero; Py.fzero]] false E eq_refl)
    as [_ Ho].
  apply (Ho 0%nat); [left; reflexivity | reflexivity].
Defined.

Lemma max_Ok (x : list (list Py.float)) :
  (exists m, Normalize.max x = Py.Ok m) <-> concat x <> [].
Proof.
  unfold Normalize.max. destruct (concat x) as [|v vs].
  - split; [intros [m [=]] | congruence].
  - split; [discriminate | eauto].
Qed.

Lemma scale_Ok (c : nat) (fac : Py.float) (t : Normalize.tensor3)
    (x : list (list Py.float)) :
  Normalize.channel c t = Py.Ok x ->
  exists t', Normalize.scale c fac t = Py.Ok t'.
Proof. intros H. unfold Normalize.scale. rewrite H. cbn. eauto. Qed.

(** X20: the normalisation goes through exactly when every sample of the
    inputs has the channels [nnuc+1] and [nnuc+2], every sample of the
    outputs has the channels [nnuc] and [2*(nnuc+1) - 1], and each of
    these four channels holds at least one entry; otherwise it raises and
    nothing is normalised. *)
Theorem normalize_succeeds_iff
    (nnuc : nat) (input_data output_data : Normalize.tensor3) :
  (exists r, Normalize.normalize nnuc input_data output_data = Py.Ok r)
  <-> (forall c, (c = nnuc + 1 \/ c = nnuc + 2)%nat ->
                 exists x, Normalize.channel c input_data = Py.Ok x
                           /\ concat x <> [])
      /\ (forall c, (c = nnuc \/ c = 2 * (nnuc + 1) - 1)%nat ->
                    exists x, Normalize.channel c output_data = Py.Ok x
                              /\ concat x <> []).
Proof.
  split.
  - intros [[i' o'] H]. apply normalize_steps in H
      as (dens & temp & enuc & enuc_dot & dens_fac & temp_fac & enuc_fac
          & enuc_dot_fac & i1 & o1 & H1 & H2 & H3 & H4 & H5 & H6 & H7 & H8 & _).
    split; intros c [-> | ->]; eexists; (split; [eassumption|]);
      apply max_Ok; eauto.
  - intros [Hi Ho].
    destruct (Hi (nnuc + 1)%nat (or_introl eq_refl)) as (dens & H1 & N1).
    destruct (Hi (nnuc + 2)%nat (or_intror eq_refl)) as (temp & H3 & N3).
    destruct (Ho nnuc (or_introl eq_refl)) as (enuc & H5 & N5).
    destruct (Ho (2 * (nnuc + 1) - 1)%nat (or_intror eq_refl))
      as (enuc_dot & H7 & N7).
    apply max_Ok in N1 as [dens_fac H2]. apply max_Ok in N3 as [temp_fac H4].
    apply max_Ok in N5 as [enuc_fac H6]. apply max_Ok in N7 as [enuc_dot_fac H8].
    destruct (scale_Ok (nnuc + 1) dens_fac _ _ H1) as [i1 H9].
    assert (Hi1 : Normalize.channel (nnuc + 2) i1 = Py.Ok temp)
      by (now rewrite (scale_other (nnuc + 1) (nnuc + 2) _ _ _ ltac:(lia) H9)).
    destruct (scale_Ok (nnuc + 2) temp_fac _ _ Hi1) as [i2 H10].
    destruct (scale_Ok nnuc enuc_fac _ _ H5) as [o1 H11].
    assert (Ho1 : Normalize.channel (2 * (nnuc + 1) - 1) o1 = Py.Ok enuc_dot)
      by (now rewrite (scale_other nnuc (2 * (nnuc + 1) - 1) _ _ _
                         ltac:(lia) H11)).
    destruct (scale_Ok (2 * (nnuc + 1) - 1) enuc_dot_fac _ _ Ho1) as [o2 H12].
    exists (i2, o2). unfold Normalize.normalize.
    rewrite H1. cbn [mbind result_bind Py.bind]. rewrite H2.
    cbn [mbind result_bind Py.bind]. rewrite H3.
    cbn [mbind result_bind Py.bind]. rewrite H4.
    cbn [mbind result_bind Py.bind]. rewrite H5.
    cbn [mbind result_bind Py.bind]. rewrite H6.
    cbn [mbind result_bind Py.bind]. rewrite H7.
    cbn [mbind result_bind Py.bind]. rewrite H8.
    cbn [mbind result_bind Py.bind]. rewrite H9.
    cbn [mbind result_bind Py.bind]. rewrite H10.
    cbn [mbind result_bind Py.bind]. rewrite H11.
    cbn [mbind result_bind Py.bind]. rewrite H12. reflexivity.
Qed.

(** Of the two zeros the maximum is the positive one, wherever it
    stands. *)
Example max_of_signed_zeros :
  Normalize.max [[S754_zero true; S754_zero false; SFopp Py.fone]]
  = Py.Ok (S754_zero false)
  /\ Normalize.max [[S754_zero false; S754_zero true]]
     = Py.Ok (S754_zero false).
Proof. split; reflexivity. Qed.

(** The inputs lack the temperature channel: the normalisation raises. *)
Example normalize_missing_channel :
  Normalize.normalize 0 [[[Fixture.two]; [Py.fone]]] [[[Fixture.two]; [Py.fone]]]
  = Py.Raise Py.IndexError.
Proof. reflexivity. Qed.
